(** * suiviPDR: the storage layer and the role-gated REST routes

    A shallow embedding of [server/storage.ts] (class [DatabaseStorage]),
    [server/routes.ts] (the role-based version of [registerRoutes]) and
    [shared/schema.ts] (the [pgTable] definitions and the insert schemas
    derived from them).

    The program talks to PostgreSQL through drizzle-orm, validates request
    bodies with zod schemas that drizzle-zod derives from the tables, and
    hashes passwords with bcrypt.  None of these libraries is part of the
    repository.  What the code relies on from them is kept explicit:
    - the rows of each table and its [serial] sequence are the state;
    - the order in which the engine returns rows that compare equal under an
      [ORDER BY] is the engine's business: [Engine] packages an arbitrary
      sorting function together with the two facts SQL promises about it;
    - the engine's input functions for [decimal] and [date] literals are
      fields of [Engine] as well, and so is the text the driver sends for a
      query parameter that is an array or an object;
    - bcrypt is a pair of functions, [Bcrypt], with no property assumed;
    - the clock and the random salt a request consumes are inputs ([Env]). *)

From Stdlib Require Import ZArith List String Ascii Bool Lia DecimalString.
From Stdlib Require Import Sorted Permutation RelationClasses OrderedTypeEx.
Import ListNotations.

Local Open Scope string_scope.
Local Open Scope Z_scope.
Local Open Scope list_scope.

Set Implicit Arguments.
Local Set Warnings "-register-all".

(** ** JavaScript values *)

(** The values that travel in request bodies, in rows handed back by the
    driver and in JSON responses.  A [decimal] or [date] column value is a
    string on the wire; it is kept in parsed form here ([JDecimal] counts
    hundredths, the scale of every [decimal(15,2)] column of the schema).
    [JTime] is a [Date] object.  Numbers are integers: the only numbers the
    schema stores are [serial] and [integer] columns. *)
Inductive Json : Type :=
| JNull
| JNaN
| JBool (b : bool)
| JNum (n : Z)
| JStr (s : string)
| JDecimal (hundredths : Z)
| JDate (day : Z)
| JTime (t : Z)
| JArr (items : list Json)
| JObj (fields : list (string * Json)).

(** An object is its list of own properties, in insertion order. *)
Definition Row : Type := list (string * Json).

Fixpoint field (k : string) (o : Row) : option Json :=
  match o with
  | [] => None
  | (k', v) :: o' => if String.eqb k k' then Some v else field k o'
  end.

(** [{ ...o, k: v }] *)
Fixpoint set_field (k : string) (v : Json) (o : Row) : Row :=
  match o with
  | [] => [(k, v)]
  | (k', v') :: o' =>
      if String.eqb k k' then (k, v) :: o' else (k', v') :: set_field k v o'
  end.

(** [{ ...o, ...patch }] *)
Definition spread (o patch : Row) : Row :=
  fold_left (fun acc kv => set_field (fst kv) (snd kv) acc) patch o.

(** The own properties of a value used as [...value] in an object literal.
    Strings and arrays spread into index keys, which no schema of the
    program has, and every zod object schema drops unknown keys. *)
Definition properties (v : Json) : Row :=
  match v with
  | JObj o => o
  | _ => []
  end.

(** JavaScript truthiness, [if (v)] and [!v]. *)
Definition truthy (v : option Json) : bool :=
  match v with
  | None | Some JNull | Some JNaN => false
  | Some (JBool b) => b
  | Some (JNum n) => negb (n =? 0)
  | Some (JStr s) => negb (String.eqb s "")
  | Some _ => true
  end.

Definition truthy_string (s : option string) : bool :=
  match s with
  | Some s => negb (String.eqb s "")
  | None => false
  end.

(** ** shared/schema.ts: tables *)

Inductive ColType : Type :=
| serial | integer | varchar | text | decimal | date | timestamp.

Inductive ColDefault : Type :=
| noDefault
| default (v : Json)
| defaultNow.

Record Column : Type := column {
  col_name : string;
  col_type : ColType;
  col_notNull : bool;
  col_default : ColDefault;
  col_unique : bool
}.

Definition pgTable : Type := list Column.

(** [serial("id").primaryKey()] *)
Definition primaryKey (name : string) : Column :=
  column name serial true noDefault true.

Definition localUsers : pgTable :=
  [ primaryKey "id";
    column "username" varchar true noDefault true;
    column "password" varchar true noDefault false;
    column "role" varchar true (default (JStr "user")) false;
    column "createdAt" timestamp false defaultNow false;
    column "updatedAt" timestamp false defaultNow false ].

Definition projects : pgTable :=
  [ primaryKey "id";
    column "identifier" varchar true noDefault true;
    column "title" text true noDefault false;
    column "axis" varchar true noDefault false;
    column "domain" varchar true noDefault false;
    column "region" varchar true noDefault false;
    column "province" varchar true noDefault false;
    column "commune" varchar true noDefault false;
    column "budget" decimal true noDefault false;
    column "engagements" decimal false (default (JDecimal 0)) false;
    column "payments" decimal false (default (JDecimal 0)) false;
    column "physicalProgress" integer false (default (JNum 0)) false;
    column "status" varchar true (default (JStr "active")) false;
    column "createdAt" timestamp false defaultNow false;
    column "updatedAt" timestamp false defaultNow false ].

Definition conventions : pgTable :=
  [ primaryKey "id";
    column "title" text true noDefault false;
    column "dateVisa" date false noDefault false;
    column "status" varchar true noDefault false;
    column "programme" text true noDefault false;
    column "documentUrl" text false noDefault false;
    column "createdAt" timestamp false defaultNow false;
    column "updatedAt" timestamp false defaultNow false ].

Definition partners : pgTable :=
  [ primaryKey "id";
    column "name" varchar true noDefault false;
    column "type" varchar true noDefault false;
    column "createdAt" timestamp false defaultNow false ].

Definition projectPartners : pgTable :=
  [ primaryKey "id";
    column "projectId" integer true noDefault false;
    column "partnerId" integer true noDefault false;
    column "year" integer true noDefault false;
    column "plannedContribution" decimal true noDefault false;
    column "actualContribution" decimal false (default (JDecimal 0)) false;
    column "status" varchar true (default (JStr "pending")) false ].

Definition conventionProjects : pgTable :=
  [ primaryKey "id";
    column "conventionId" integer true noDefault false;
    column "projectId" integer true noDefault false;
    column "createdAt" timestamp false defaultNow false ].

Definition financialAdvances : pgTable :=
  [ primaryKey "id";
    column "projectId" integer true noDefault false;
    column "referenceDate" date true noDefault false;
    column "engagement" decimal true noDefault false;
    column "payment" decimal true noDefault false;
    column "createdAt" timestamp false defaultNow false ].

(** ** shared/schema.ts: insert schemas *)

Inductive ZodType : Type := zString | zNumber | zDate.

Record ZodField : Type := zod_field {
  zf_name : string;
  zf_type : ZodType;
  zf_optional : bool;
  zf_nullable : bool
}.

Definition ZodObject : Type := list ZodField.

(** drizzle-zod: a column's validator follows the JavaScript type the driver
    uses for it; a column is optional on insert when it is nullable or has a
    default, and nullable when it is not [notNull]. *)
Definition zod_of_column (c : Column) : ZodField :=
  zod_field (col_name c)
    (match col_type c with
     | serial | integer => zNumber
     | varchar | text | decimal | date => zString
     | timestamp => zDate
     end)
    (negb (col_notNull c)
     || match col_type c, col_default c with
        | serial, _ => true
        | _, noDefault => false
        | _, _ => true
        end)
    (negb (col_notNull c)).

Definition createInsertSchema (t : pgTable) : ZodObject :=
  map zod_of_column t.

Definition omit (keys : list string) (s : ZodObject) : ZodObject :=
  filter (fun f => negb (existsb (String.eqb (zf_name f)) keys)) s.

Definition partial (s : ZodObject) : ZodObject :=
  map (fun f => zod_field (zf_name f) (zf_type f) true (zf_nullable f)) s.

Definition insertProjectSchema : ZodObject :=
  omit ["id"; "createdAt"; "updatedAt"] (createInsertSchema projects).

Definition insertConventionSchema : ZodObject :=
  omit ["id"; "createdAt"; "updatedAt"] (createInsertSchema conventions).

Definition insertPartnerSchema : ZodObject :=
  omit ["id"; "createdAt"] (createInsertSchema partners).

Definition insertProjectPartnerSchema : ZodObject :=
  omit ["id"] (createInsertSchema projectPartners).

Definition insertConventionProjectSchema : ZodObject :=
  omit ["id"; "createdAt"] (createInsertSchema conventionProjects).

Definition insertFinancialAdvanceSchema : ZodObject :=
  omit ["id"; "createdAt"] (createInsertSchema financialAdvances).

Definition insertLocalUserSchema : ZodObject :=
  omit ["id"; "createdAt"; "updatedAt"] (createInsertSchema localUsers).

(** One entry of [ZodError.errors]. *)
Record ZodIssue : Type := zod_issue {
  issue_path : string;
  issue_message : string
}.

Definition zod_accepts (t : ZodType) (v : Json) : bool :=
  match t, v with
  | zString, JStr _ => true
  | zNumber, JNum _ => true
  | zDate, JTime _ => true
  | _, _ => false
  end.

(** [schema.parse(input)] for an object schema in zod's default mode:
    unknown keys are dropped, every failing field contributes an issue. *)
Fixpoint parse_fields (s : ZodObject) (input : Row) : list ZodIssue * Row :=
  match s with
  | [] => ([], [])
  | f :: s' =>
      let (issues, out) := parse_fields s' input in
      match field (zf_name f) input with
      | None =>
          if zf_optional f then (issues, out)
          else (zod_issue (zf_name f) "Required" :: issues, out)
      | Some JNull =>
          if zf_nullable f then (issues, (zf_name f, JNull) :: out)
          else (zod_issue (zf_name f) "Invalid type" :: issues, out)
      | Some v =>
          if zod_accepts (zf_type f) v
          then (issues, (zf_name f, v) :: out)
          else (zod_issue (zf_name f) "Invalid type" :: issues, out)
      end
  end.

Definition parse (s : ZodObject) (input : Json) : list ZodIssue + Row :=
  match input with
  | JObj o =>
      match parse_fields s o with
      | ([], out) => inr out
      | (issues, _) => inl issues
      end
  | _ => inl [zod_issue "" "Invalid type"]
  end.

Definition issue_json (i : ZodIssue) : Json :=
  JObj [("path", JStr (issue_path i)); ("message", JStr (issue_message i))].

(** ** The database engine *)

(** How PostgreSQL compares two column values: numbers, decimals, dates and
    timestamps by magnitude, strings by code unit, [NULL] after everything
    else.  Values of different kinds never share a column; they are ranked by
    kind so that the comparison is total on all of [Json]. *)
Definition kind_rank (v : Json) : Z :=
  match v with
  | JNaN => 0 | JBool _ => 1 | JNum _ => 2 | JDecimal _ => 3 | JDate _ => 4
  | JTime _ => 5 | JStr _ => 6 | JArr _ => 7 | JObj _ => 8 | JNull => 9
  end.

Definition value_le (a b : Json) : bool :=
  match a, b with
  | JNum x, JNum y => x <=? y
  | JDecimal x, JDecimal y => x <=? y
  | JDate x, JDate y => x <=? y
  | JTime x, JTime y => x <=? y
  | JStr s, JStr t => String.leb s t
  | _, _ => kind_rank a <=? kind_rank b
  end.

(** A missing property reads as [NULL]. *)
Definition col (name : string) (r : Row) : Json :=
  match field name r with
  | Some v => v
  | None => JNull
  end.

(** drizzle's [asc(column)] and [desc(column)]: the comparison a result must
    be sorted by. *)
Definition asc (name : string) (a b : Row) : bool :=
  value_le (col name a) (col name b).

Definition desc (name : string) (a b : Row) : bool :=
  value_le (col name b) (col name a).

Definition total_bool (A : Type) (le : A -> A -> bool) : Prop :=
  forall a b, le a b = true \/ le b a = true.

(** What the program gets from the engine without deciding it itself.
    [order_by le rows] is the answer to a query with one [ORDER BY] key: a
    rearrangement of the selected rows that is sorted by [le].  Nothing is
    said about rows that compare equal.  [param_text] is the text the driver
    writes for a query parameter that is neither a string, a boolean nor an
    integer. *)
Class Engine : Type := {
  order_by : (Row -> Row -> bool) -> list Row -> list Row;
  order_by_perm : forall le l, Permutation l (order_by le l);
  order_by_sorted : forall le l,
    total_bool le -> Sorted (fun a b => le a b = true) (order_by le l);
  numeric_in : string -> option Z;
  date_in : string -> option Z;
  param_text : Json -> string
}.

(** The text the driver sends for a query parameter ([prepareValue] of
    node-postgres, which the Neon driver carries): [null] goes as [NULL], a
    string as it is, a boolean and a number through [toString], which writes
    an integer below 10^21 in decimal. *)
Definition prepareValue {E : Engine} (v : Json) : option string :=
  match v with
  | JNull => None
  | JStr s => Some s
  | JBool true => Some "true"
  | JBool false => Some "false"
  | JNaN => Some "NaN"
  | JNum n =>
      if Z.abs n <? 1000000000000000000000
      then Some (NilZero.string_of_int (Z.to_int n))
      else Some (param_text v)
  | _ => Some (param_text v)
  end.

Definition backslash : ascii := ascii_of_nat 92.

(** [value LIKE pattern]: [%] matches any run of characters, [_] any single
    character, a backslash makes the next pattern character literal. *)
Fixpoint like_chars (p : list ascii) : list ascii -> bool :=
  match p with
  | [] => fun s => match s with [] => true | _ => false end
  | c :: p' =>
      if Ascii.eqb c "%" then
        fix star (s : list ascii) : bool :=
          like_chars p' s
          || match s with
             | [] => false
             | _ :: s' => star s'
             end
      else if Ascii.eqb c "_" then
        fun s => match s with [] => false | _ :: s' => like_chars p' s' end
      else if Ascii.eqb c backslash then
        match p' with
        | [] => fun _ => false
        | d :: p'' =>
            fun s => match s with
                     | [] => false
                     | x :: s' => Ascii.eqb x d && like_chars p'' s'
                     end
        end
      else
        fun s => match s with
                 | [] => false
                 | x :: s' => Ascii.eqb x c && like_chars p' s'
                 end
  end.

Definition like (name : string) (pattern : string) (r : Row) : bool :=
  match field name r with
  | Some (JStr s) =>
      like_chars (list_ascii_of_string pattern) (list_ascii_of_string s)
  | _ => false
  end.

(** What an awaited call can throw: the five errors the engine raises for
    the statements of the program, and a JavaScript [TypeError] (a property
    read on [undefined], a non-string handed to bcrypt). *)
Inductive Exception : Type :=
| invalid_text_representation
| numeric_value_out_of_range
| sequence_generator_limit_exceeded
| not_null_violation (column_name : string)
| unique_violation (column_name : string)
| type_error.

Definition Result (A : Type) : Type := (Exception + A)%type.

Definition int4 (n : Z) : bool := (-2147483648 <=? n) && (n <=? 2147483647).

(** A [decimal(15,2)] value has at most 13 digits before the point. *)
Definition numeric_15_2 (hundredths : Z) : bool :=
  Z.abs hundredths <? 1000000000000000.

(** ** Tables and statements *)

(** A table is its rows, oldest first, and the next value of the sequence
    behind its [serial] key. *)
Record Table : Type := table {
  rows : list Row;
  next_id : Z
}.

Section Statements.

Context {E : Engine}.

(** The engine's conversion of a bound parameter to a column's type. *)
Definition convert (c : Column) (v : Json) : Result Json :=
  match col_type c, v with
  | _, JNull => inr JNull
  | serial, JNum n | integer, JNum n =>
      if int4 n then inr (JNum n) else inl numeric_value_out_of_range
  | varchar, JStr s | text, JStr s => inr (JStr s)
  | decimal, JStr s =>
      match numeric_in s with
      | Some h =>
          if numeric_15_2 h then inr (JDecimal h)
          else inl numeric_value_out_of_range
      | None => inl invalid_text_representation
      end
  | date, JStr s =>
      match date_in s with
      | Some d => inr (JDate d)
      | None => inl invalid_text_representation
      end
  | timestamp, JTime t => inr (JTime t)
  | _, _ => inl invalid_text_representation
  end.

(** The parameters of a statement are converted when it is bound, before it
    runs. *)
Fixpoint bind (t : pgTable) (values : Row) : Result Row :=
  match values with
  | [] => inr []
  | (k, v) :: values' =>
      match find (fun c => String.eqb (col_name c) k) t with
      | None => bind t values'
      | Some c =>
          match convert c v, bind t values' with
          | inl e, _ => inl e
          | _, inl e => inl e
          | inr v', inr bound => inr ((k, v') :: bound)
          end
      end
  end.

Definition column_default (now id : Z) (c : Column) : Json :=
  match col_type c, col_default c with
  | serial, _ => JNum id
  | _, default v => v
  | _, defaultNow => JTime now
  | _, noDefault => JNull
  end.

(** The row an [INSERT] writes: the given value of each column, or its
    default. *)
Definition new_row (t : pgTable) (now id : Z) (bound : Row) : Row :=
  map (fun c => (col_name c,
                 match field (col_name c) bound with
                 | Some v => v
                 | None => column_default now id c
                 end)) t.

Fixpoint first_null (t : pgTable) (r : Row) : option string :=
  match t with
  | [] => None
  | c :: t' =>
      match col_notNull c, col c.(col_name) r with
      | true, JNull => Some (col_name c)
      | _, _ => first_null t' r
      end
  end.

(** Two values collide under a unique index when they are equal and not
    [NULL].  Unique columns of the schema hold numbers and strings. *)
Definition same_key (a b : Json) : bool :=
  match a, b with
  | JNum x, JNum y => x =? y
  | JStr s, JStr t => String.eqb s t
  | _, _ => false
  end.

Fixpoint first_duplicate (t : pgTable) (others : list Row) (r : Row)
  : option string :=
  match t with
  | [] => None
  | c :: t' =>
      if col_unique c
         && existsb (fun o => same_key (col (col_name c) o) (col (col_name c) r))
                    others
      then Some (col_name c)
      else first_duplicate t' others r
  end.

Definition check_row (t : pgTable) (others : list Row) (r : Row)
  : Result Row :=
  match first_null t r with
  | Some c => inl (not_null_violation c)
  | None =>
      match first_duplicate t others r with
      | Some c => inl (unique_violation c)
      | None => inr r
      end
  end.

(** [db.insert(t).values(v).returning()]: the new row.  The sequence behind
    a [serial] key ends at 2147483647: past it [nextval] fails, and the
    sequence stays where it is.  A statement that fails later, while
    running, has already drawn its [serial] value; the rows are untouched. *)
Definition db_insert (t : pgTable) (now : Z) (values : Row) (tb : Table)
  : Result Row * Table :=
  match bind t values with
  | inl e => (inl e, tb)
  | inr bound =>
      if next_id tb <=? 2147483647 then
        let r := new_row t now (next_id tb) bound in
        match check_row t (rows tb) r with
        | inl e => (inl e, table (rows tb) (next_id tb + 1))
        | inr _ => (inr r, table (rows tb ++ [r]) (next_id tb + 1))
        end
      else (inl sequence_generator_limit_exceeded, tb)
  end.

(** [eq(t.id, id)], with [id] the result of [parseInt]: [None] is [NaN],
    which the engine refuses as an [integer]. *)
Definition bind_id (id : option Z) : Result Z :=
  match id with
  | None => inl invalid_text_representation
  | Some n => if int4 n then inr n else inl numeric_value_out_of_range
  end.

Definition has_id (n : Z) (r : Row) : bool := same_key (col "id" r) (JNum n).

(** The rows an [UPDATE ... WHERE id = n] leaves behind, and those it
    returns; each rewritten row is checked against the other rows. *)
Fixpoint update_rows (t : pgTable) (n : Z) (bound : Row)
    (before after : list Row) : Result (list Row * list Row) :=
  match after with
  | [] => inr (before, [])
  | r :: after' =>
      if has_id n r then
        match check_row t (before ++ after') (spread r bound) with
        | inl e => inl e
        | inr r' =>
            match update_rows t n bound (before ++ [r']) after' with
            | inl e => inl e
            | inr (all, returned) => inr (all, r' :: returned)
            end
        end
      else update_rows t n bound (before ++ [r]) after'
  end.

(** [db.update(t).set(values).where(eq(t.id, id)).returning()] *)
Definition db_update (t : pgTable) (values : Row) (id : option Z) (tb : Table)
  : Result (list Row) * Table :=
  match bind t values, bind_id id with
  | inl e, _ => (inl e, tb)
  | _, inl e => (inl e, tb)
  | inr bound, inr n =>
      match update_rows t n bound [] (rows tb) with
      | inl e => (inl e, tb)
      | inr (all, returned) => (inr returned, table all (next_id tb))
      end
  end.

(** [db.delete(t).where(eq(t.id, id))] *)
Definition db_delete (id : option Z) (tb : Table) : Result unit * Table :=
  match bind_id id with
  | inl e => (inl e, tb)
  | inr n => (inr tt, table (filter (fun r => negb (has_id n r)) (rows tb))
                            (next_id tb))
  end.

(** [db.select().from(t).where(eq(t.id, id))] *)
Definition db_select_id (id : option Z) (tb : Table) : Result (list Row) :=
  match bind_id id with
  | inl e => inl e
  | inr n => inr (filter (has_id n) (rows tb))
  end.

End Statements.

(** ** server/storage.ts *)

Record Store : Type := store {
  tb_localUsers : Table;
  tb_projects : Table;
  tb_conventions : Table;
  tb_partners : Table;
  tb_projectPartners : Table;
  tb_conventionProjects : Table;
  tb_financialAdvances : Table
}.

Definition with_localUsers (tb : Table) (st : Store) : Store :=
  store tb (tb_projects st) (tb_conventions st) (tb_partners st)
        (tb_projectPartners st) (tb_conventionProjects st)
        (tb_financialAdvances st).

Definition with_projects (tb : Table) (st : Store) : Store :=
  store (tb_localUsers st) tb (tb_conventions st) (tb_partners st)
        (tb_projectPartners st) (tb_conventionProjects st)
        (tb_financialAdvances st).

Definition with_conventions (tb : Table) (st : Store) : Store :=
  store (tb_localUsers st) (tb_projects st) tb (tb_partners st)
        (tb_projectPartners st) (tb_conventionProjects st)
        (tb_financialAdvances st).

Definition with_partners (tb : Table) (st : Store) : Store :=
  store (tb_localUsers st) (tb_projects st) (tb_conventions st) tb
        (tb_projectPartners st) (tb_conventionProjects st)
        (tb_financialAdvances st).

Definition with_projectPartners (tb : Table) (st : Store) : Store :=
  store (tb_localUsers st) (tb_projects st) (tb_conventions st)
        (tb_partners st) tb (tb_conventionProjects st)
        (tb_financialAdvances st).

Definition with_conventionProjects (tb : Table) (st : Store) : Store :=
  store (tb_localUsers st) (tb_projects st) (tb_conventions st)
        (tb_partners st) (tb_projectPartners st) tb
        (tb_financialAdvances st).

Definition with_financialAdvances (tb : Table) (st : Store) : Store :=
  store (tb_localUsers st) (tb_projects st) (tb_conventions st)
        (tb_partners st) (tb_projectPartners st) (tb_conventionProjects st)
        tb.

(** The rows of every table: what a client can observe of the store. *)
Definition contents (st : Store) : list (list Row) :=
  [ rows (tb_localUsers st); rows (tb_projects st); rows (tb_conventions st);
    rows (tb_partners st); rows (tb_projectPartners st);
    rows (tb_conventionProjects st); rows (tb_financialAdvances st) ].

(** bcrypt: [hash(data, rounds)] with the salt it draws made explicit, and
    [compare(data, encrypted)]. *)
Class Bcrypt : Type := {
  bcrypt_hash : string -> Z -> string -> string;
  bcrypt_compare : string -> string -> bool
}.

(** What a request reads from outside the program: the clock ([new Date()],
    [defaultNow()]) and the salt bcrypt generates. *)
Record Env : Type := env {
  now : Z;
  salt : string
}.

(** [const [x] = await ...]: the first element, or [undefined]. *)
Definition first (A : Type) (l : list A) : option A :=
  match l with
  | [] => None
  | x :: _ => Some x
  end.

Definition lift_first (A : Type) (r : Result (list A) * Store)
  : Result (option A) * Store :=
  match r with
  | (inl e, st) => (inl e, st)
  | (inr l, st) => (inr (first l), st)
  end.

Section DatabaseStorage.

Context {E : Engine} {B : Bcrypt}.

(** *** Project operations *)

Definition getProjects (search sortBy sortOrder : option string) (st : Store)
  : list Row :=
  let sortOrder := match sortOrder with Some o => o | None => "asc" end in
  let query :=
    match search with
    | Some s =>
        if truthy_string search
        then filter (like "title" (String.append "%" (String.append s "%")))
                    (rows (tb_projects st))
        else rows (tb_projects st)
    | None => rows (tb_projects st)
    end in
  let orderFunc := if String.eqb sortOrder "desc" then desc else asc in
  match sortBy with
  | Some sortBy =>
      if truthy_string (Some sortBy) then
        (* switch (sortBy) *)
        if String.eqb sortBy "identifier" then
          order_by (orderFunc "identifier") query
        else if String.eqb sortBy "title" then
          order_by (orderFunc "title") query
        else if String.eqb sortBy "axis" then
          order_by (orderFunc "axis") query
        else if String.eqb sortBy "domain" then
          order_by (orderFunc "domain") query
        else if String.eqb sortBy "budget" then
          order_by (orderFunc "budget") query
        else
          order_by (orderFunc "createdAt") query
      else order_by (orderFunc "createdAt") query
  | None => order_by (orderFunc "createdAt") query
  end.

Definition getProject (id : option Z) (st : Store) : Result (option Row) :=
  match db_select_id id (tb_projects st) with
  | inl e => inl e
  | inr l => inr (first l)
  end.

Definition getProjectByIdentifier (identifier : string) (st : Store)
  : option Row :=
  first (filter (fun r => same_key (col "identifier" r) (JStr identifier))
                (rows (tb_projects st))).

Definition createProject (ev : Env) (project : Row) (st : Store)
  : Result Row * Store :=
  let (r, tb) := db_insert projects (now ev) project (tb_projects st) in
  (r, with_projects tb st).

Definition updateProject (ev : Env) (id : option Z) (project : Row)
    (st : Store) : Result (option Row) * Store :=
  let (r, tb) :=
    db_update projects (set_field "updatedAt" (JTime (now ev)) project) id
              (tb_projects st) in
  lift_first (r, with_projects tb st).

Definition deleteProject (id : option Z) (st : Store) : Result unit * Store :=
  let (r, tb) := db_delete id (tb_projects st) in
  (r, with_projects tb st).

(** *** Convention operations *)

Definition getConventions (st : Store) : list Row :=
  order_by (desc "createdAt") (rows (tb_conventions st)).

Definition getConvention (id : option Z) (st : Store) : Result (option Row) :=
  match db_select_id id (tb_conventions st) with
  | inl e => inl e
  | inr l => inr (first l)
  end.

Definition createConvention (ev : Env) (convention : Row) (st : Store)
  : Result Row * Store :=
  let (r, tb) := db_insert conventions (now ev) convention (tb_conventions st) in
  (r, with_conventions tb st).

Definition updateConvention (ev : Env) (id : option Z) (convention : Row)
    (st : Store) : Result (option Row) * Store :=
  let (r, tb) :=
    db_update conventions (set_field "updatedAt" (JTime (now ev)) convention)
              id (tb_conventions st) in
  lift_first (r, with_conventions tb st).

Definition deleteConvention (id : option Z) (st : Store)
  : Result unit * Store :=
  let (r, tb) := db_delete id (tb_conventions st) in
  (r, with_conventions tb st).

(** *** Partner operations *)

Definition getPartners (st : Store) : list Row :=
  order_by (asc "name") (rows (tb_partners st)).

Definition createPartner (ev : Env) (partner : Row) (st : Store)
  : Result Row * Store :=
  let (r, tb) := db_insert partners (now ev) partner (tb_partners st) in
  (r, with_partners tb st).

(** *** Junction and financial advance operations *)

Definition where_eq (name : string) (n : Z) (l : list Row) : list Row :=
  filter (fun r => same_key (col name r) (JNum n)) l.

(** A [leftJoin] on [left.key = right.id], each joined pair mapped to
    [{ ...left, [as_]: right }]. *)
Definition leftJoin (key as_ : string) (right left : list Row) : list Row :=
  flat_map
    (fun l =>
       match filter (fun r => same_key (col key l) (col "id" r)) right with
       | [] => [set_field as_ JNull l]
       | matches => map (fun r => set_field as_ (JObj r) l) matches
       end) left.

Definition getProjectPartners (projectId : option Z) (st : Store)
  : Result (list Row) :=
  match bind_id projectId with
  | inl e => inl e
  | inr n =>
      inr (leftJoin "partnerId" "partner" (rows (tb_partners st))
             (where_eq "projectId" n (rows (tb_projectPartners st))))
  end.

Definition createProjectPartner (ev : Env) (projectPartner : Row) (st : Store)
  : Result Row * Store :=
  let (r, tb) :=
    db_insert projectPartners (now ev) projectPartner (tb_projectPartners st) in
  (r, with_projectPartners tb st).

Definition getConventionProjects (conventionId : option Z) (st : Store)
  : Result (list Row) :=
  match bind_id conventionId with
  | inl e => inl e
  | inr n =>
      inr (leftJoin "projectId" "project" (rows (tb_projects st))
             (where_eq "conventionId" n (rows (tb_conventionProjects st))))
  end.

Definition createConventionProject (ev : Env) (conventionProject : Row)
    (st : Store) : Result Row * Store :=
  let (r, tb) :=
    db_insert conventionProjects (now ev) conventionProject
              (tb_conventionProjects st) in
  (r, with_conventionProjects tb st).

Definition getFinancialAdvances (projectId : option Z) (st : Store)
  : Result (list Row) :=
  match bind_id projectId with
  | inl e => inl e
  | inr n =>
      inr (order_by (desc "referenceDate")
             (where_eq "projectId" n (rows (tb_financialAdvances st))))
  end.

Definition createFinancialAdvance (ev : Env) (financialAdvance : Row)
    (st : Store) : Result Row * Store :=
  let (r, tb) :=
    db_insert financialAdvances (now ev) financialAdvance
              (tb_financialAdvances st) in
  (r, with_financialAdvances tb st).

(** *** Local user operations *)

Definition getLocalUser (username : string) (st : Store) : option Row :=
  first (filter (fun r => same_key (col "username" r) (JStr username))
                (rows (tb_localUsers st))).

Definition createLocalUser (ev : Env) (user : Row) (st : Store)
  : Result Row * Store :=
  match field "password" user with
  | Some (JStr password) =>
      let hashedPassword := bcrypt_hash password 10 (salt ev) in
      let (r, tb) :=
        db_insert localUsers (now ev)
                  (set_field "password" (JStr hashedPassword) user)
                  (tb_localUsers st) in
      (r, with_localUsers tb st)
  | _ => (inl type_error, st)
  end.

(** The parameters are declared as strings and arrive as the request body
    has them.  The query takes the username as the driver writes it;
    [bcrypt.compare] rejects a password that is not a string, once a user
    has been found. *)
Definition validateLocalUser (username password : Json) (st : Store)
  : Result (option Row) :=
  match prepareValue username with
  | None => inr None
  | Some name =>
      match getLocalUser name st with
      | None => inr None
      | Some user =>
          match password, col "password" user with
          | JStr password, JStr hashed =>
              if bcrypt_compare password hashed
              then inr (Some user) else inr None
          | _, _ => inl type_error
          end
      end
  end.

(** Modelled from the spec: [getLocalUsers], which the routes call and the
    storage class under [src/] does not define.  "list(entity, filters) ->
    ordered sequence of records": every LocalUser record, oldest first. *)
Definition getLocalUsers (st : Store) : list Row :=
  rows (tb_localUsers st).

(** Modelled from the spec: [updateLocalUser], absent from the storage class
    under [src/].  "update(entity, id, partialInput) -> record: merges
    provided fields, refreshes updatedAt"; "update-record treats an absent or
    empty password field as leave unchanged"; a password that is given is
    hashed as on create. *)
Definition updateLocalUser (ev : Env) (id : option Z) (user : Row)
    (st : Store) : Result (option Row) * Store :=
  let user' :=
    match field "password" user with
    | Some (JStr password) =>
        if String.eqb password ""
        then filter (fun kv => negb (String.eqb (fst kv) "password")) user
        else set_field "password"
                       (JStr (bcrypt_hash password 10 (salt ev))) user
    | _ => filter (fun kv => negb (String.eqb (fst kv) "password")) user
    end in
  let (r, tb) :=
    db_update localUsers (set_field "updatedAt" (JTime (now ev)) user') id
              (tb_localUsers st) in
  lift_first (r, with_localUsers tb st).

(** Modelled from the spec: [deleteLocalUser], absent from the storage class
    under [src/].  "removed via hard delete". *)
Definition deleteLocalUser (id : option Z) (st : Store)
  : Result unit * Store :=
  let (r, tb) := db_delete id (tb_localUsers st) in
  (r, with_localUsers tb st).

End DatabaseStorage.

(** ** server/routes.ts *)

Inductive Route : Type :=
| post_auth_login | post_auth_logout | get_auth_user
| get_projects | get_project | post_projects | put_project | delete_project
| get_conventions | get_convention | post_conventions | put_convention
| delete_convention
| get_partners | post_partners
| get_project_partners | post_project_partners
| get_convention_projects | post_convention_projects
| get_users | post_users | put_user | delete_user
| get_financial_advances | post_financial_advances.

(** [params_id] is [parseInt(req.params.id)], [None] for [NaN]. *)
Record Request : Type := request {
  params_id : option Z;
  query : list (string * string);
  body : Json
}.

Fixpoint query_param (k : string) (q : list (string * string))
  : option string :=
  match q with
  | [] => None
  | (k', v) :: q' => if String.eqb k k' then Some v else query_param k q'
  end.

(** [req.session.localUser] *)
Definition Session : Type := option Row.

Record Response : Type := response {
  status : Z;
  payload : option Json
}.

(** [res.status(code).json(value)] *)
Definition json (code : Z) (value : Json) : Response :=
  response code (Some value).

Definition message (code : Z) (text : string) : Response :=
  json code (JObj [("message", JStr text)]).

(** [res.status(code).send()], and [res.json(undefined)] *)
Definition send (code : Z) : Response := response code None.

(** An object literal [{ k1: o.k1, ... }] once serialised: a property whose
    value is [undefined] is left out. *)
Fixpoint pick (keys : list string) (o : Row) : Row :=
  match keys with
  | [] => []
  | k :: keys' =>
      match field k o with
      | Some v => (k, v) :: pick keys' o
      | None => pick keys' o
      end
  end.

(** A middleware either answers or calls [next()] ([None]). *)
Definition Middleware : Type := Session -> option Response.

Definition requireAuth : Middleware :=
  fun session =>
    match session with
    | Some _ => None
    | None => Some (message 401 "Unauthorized")
    end.

Definition includes (roles : list string) (v : option Json) : bool :=
  match v with
  | Some (JStr r) => existsb (String.eqb r) roles
  | _ => false
  end.

Definition requireRole (roles : list string) : Middleware :=
  fun session =>
    match session with
    | None => Some (message 401 "Unauthorized")
    | Some localUser =>
        let userRole := field "role" localUser in
        if negb (includes roles userRole)
        then Some (message 403 "Insufficient permissions")
        else None
    end.

Definition canWrite : Middleware := requireRole ["admin"; "user"].
Definition canManageUsers : Middleware := requireRole ["admin"].
Definition canRead : Middleware := requireRole ["admin"; "user"; "superviseur"].

(** The middleware each route is registered with. *)
Definition middleware (r : Route) : Middleware :=
  match r with
  | post_auth_login | post_auth_logout | get_auth_user => fun _ => None
  | get_projects | get_project => canRead
  | post_projects | put_project | delete_project => canWrite
  | get_conventions | get_convention => canRead
  | post_conventions | put_convention | delete_convention => canWrite
  | get_partners => canRead
  | post_partners => canWrite
  | get_project_partners | post_project_partners => requireAuth
  | get_convention_projects | post_convention_projects => requireAuth
  | get_users | post_users | put_user | delete_user => canManageUsers
  | get_financial_advances => canRead
  | post_financial_advances => canWrite
  end.

Definition id_value (id : option Z) : Json :=
  match id with
  | Some n => JNum n
  | None => JNaN
  end.

Definition invalid (text : string) (issues : list ZodIssue) : Response :=
  json 400 (JObj [("message", JStr text);
                  ("errors", JArr (map issue_json issues))]).

Definition user_view (u : Row) : Json :=
  JObj (pick ["id"; "username"; "role"; "createdAt"] u).

Section Routes.

Context {E : Engine} {B : Bcrypt}.

Definition Handler : Type :=
  Env -> Request -> Session -> Store -> Response * Session * Store.

(** The shape shared by the create routes: validate, insert, answer 201. *)
Definition create_with (schema : ZodObject) (input : Json)
    (create : Row -> Store -> Result Row * Store)
    (view : Row -> Json) (bad failed : string)
    (session : Session) (st : Store) : Response * Session * Store :=
  match parse schema input with
  | inl issues => (invalid bad issues, session, st)
  | inr data =>
      match create data st with
      | (inr created, st') => (json 201 (view created), session, st')
      | (inl _, st') => (message 500 failed, session, st')
      end
  end.

(** Credentials that are truthy go to [validateLocalUser] as they are,
    strings or not. *)
Definition auth_login : Handler := fun ev req session st =>
  let username := field "username" (properties (body req)) in
  let password := field "password" (properties (body req)) in
  if negb (truthy username) || negb (truthy password) then
    (message 400 "Username and password are required", session, st)
  else
    match validateLocalUser (col "username" (properties (body req)))
                            (col "password" (properties (body req))) st with
    | inl _ => (message 500 "Failed to login", session, st)
    | inr None => (message 401 "Invalid credentials", session, st)
    | inr (Some user) =>
        (json 200 (JObj [("message", JStr "Login successful");
                         ("user", JObj (pick ["id"; "username"; "role"]
                                             user))]),
         Some user, st)
    end.

(** [session.destroy] is taken to succeed. *)
Definition auth_logout : Handler := fun ev req session st =>
  (message 200 "Logout successful", None, st).

Definition auth_user : Handler := fun ev req session st =>
  match session with
  | Some localUser => (json 200 (JObj localUser), session, st)
  | None => (message 401 "Unauthorized", session, st)
  end.

Definition list_projects : Handler := fun ev req session st =>
  let projects :=
    getProjects (query_param "search" (query req))
                (query_param "sortBy" (query req))
                (query_param "sortOrder" (query req)) st in
  (json 200 (JArr (map JObj projects)), session, st).

Definition read_project : Handler := fun ev req session st =>
  match getProject (params_id req) st with
  | inl _ => (message 500 "Failed to fetch project", session, st)
  | inr None => (message 404 "Project not found", session, st)
  | inr (Some project) => (json 200 (JObj project), session, st)
  end.

Definition create_project : Handler := fun ev req session st =>
  create_with insertProjectSchema (body req) (createProject ev) JObj
              "Invalid project data" "Failed to create project" session st.

(** [res.json(project)] with [project] undefined sends 200 and no body. *)
Definition update_project : Handler := fun ev req session st =>
  match parse (partial insertProjectSchema) (body req) with
  | inl issues => (invalid "Invalid project data" issues, session, st)
  | inr projectData =>
      match updateProject ev (params_id req) projectData st with
      | (inr (Some project), st') => (json 200 (JObj project), session, st')
      | (inr None, st') => (send 200, session, st')
      | (inl _, st') => (message 500 "Failed to update project", session, st')
      end
  end.

Definition remove_project : Handler := fun ev req session st =>
  match deleteProject (params_id req) st with
  | (inr _, st') => (send 204, session, st')
  | (inl _, st') => (message 500 "Failed to delete project", session, st')
  end.

Definition list_conventions : Handler := fun ev req session st =>
  (json 200 (JArr (map JObj (getConventions st))), session, st).

Definition read_convention : Handler := fun ev req session st =>
  match getConvention (params_id req) st with
  | inl _ => (message 500 "Failed to fetch convention", session, st)
  | inr None => (message 404 "Convention not found", session, st)
  | inr (Some convention) => (json 200 (JObj convention), session, st)
  end.

Definition create_convention : Handler := fun ev req session st =>
  create_with insertConventionSchema (body req) (createConvention ev) JObj
              "Invalid convention data" "Failed to create convention"
              session st.

Definition update_convention : Handler := fun ev req session st =>
  match parse (partial insertConventionSchema) (body req) with
  | inl issues => (invalid "Invalid convention data" issues, session, st)
  | inr conventionData =>
      match updateConvention ev (params_id req) conventionData st with
      | (inr (Some convention), st') =>
          (json 200 (JObj convention), session, st')
      | (inr None, st') => (send 200, session, st')
      | (inl _, st') =>
          (message 500 "Failed to update convention", session, st')
      end
  end.

Definition remove_convention : Handler := fun ev req session st =>
  match deleteConvention (params_id req) st with
  | (inr _, st') => (send 204, session, st')
  | (inl _, st') => (message 500 "Failed to delete convention", session, st')
  end.

Definition list_partners : Handler := fun ev req session st =>
  (json 200 (JArr (map JObj (getPartners st))), session, st).

Definition create_partner : Handler := fun ev req session st =>
  create_with insertPartnerSchema (body req) (createPartner ev) JObj
              "Invalid partner data" "Failed to create partner" session st.

Definition list_project_partners : Handler := fun ev req session st =>
  match getProjectPartners (params_id req) st with
  | inr partners => (json 200 (JArr (map JObj partners)), session, st)
  | inl _ => (message 500 "Failed to fetch project partners", session, st)
  end.

Definition create_project_partner : Handler := fun ev req session st =>
  let projectId := id_value (params_id req) in
  create_with insertProjectPartnerSchema
              (JObj (set_field "projectId" projectId (properties (body req))))
              (createProjectPartner ev) JObj
              "Invalid project partner data" "Failed to create project partner"
              session st.

Definition list_convention_projects : Handler := fun ev req session st =>
  match getConventionProjects (params_id req) st with
  | inr projects => (json 200 (JArr (map JObj projects)), session, st)
  | inl _ => (message 500 "Failed to fetch convention projects", session, st)
  end.

Definition create_convention_project : Handler := fun ev req session st =>
  let conventionId := id_value (params_id req) in
  create_with insertConventionProjectSchema
              (JObj (set_field "conventionId" conventionId
                               (properties (body req))))
              (createConventionProject ev) JObj
              "Invalid convention project data"
              "Failed to link project to convention" session st.

Definition list_users : Handler := fun ev req session st =>
  (json 200 (JArr (map user_view (getLocalUsers st))), session, st).

Definition create_user : Handler := fun ev req session st =>
  create_with insertLocalUserSchema (body req) (createLocalUser ev) user_view
              "Invalid user data" "Failed to create user" session st.

(** When no row was updated, [user.id] throws and the [catch] answers. *)
Definition update_user : Handler := fun ev req session st =>
  match parse (partial insertLocalUserSchema) (body req) with
  | inl issues => (invalid "Invalid user data" issues, session, st)
  | inr userData =>
      match updateLocalUser ev (params_id req) userData st with
      | (inr (Some user), st') => (json 200 (user_view user), session, st')
      | (_, st') => (message 500 "Failed to update user", session, st')
      end
  end.

Definition remove_user : Handler := fun ev req session st =>
  match deleteLocalUser (params_id req) st with
  | (inr _, st') => (send 204, session, st')
  | (inl _, st') => (message 500 "Failed to delete user", session, st')
  end.

Definition list_financial_advances : Handler := fun ev req session st =>
  match getFinancialAdvances (params_id req) st with
  | inr advances => (json 200 (JArr (map JObj advances)), session, st)
  | inl _ => (message 500 "Failed to fetch financial advances", session, st)
  end.

Definition create_financial_advance : Handler := fun ev req session st =>
  let projectId := id_value (params_id req) in
  create_with insertFinancialAdvanceSchema
              (JObj (set_field "projectId" projectId (properties (body req))))
              (createFinancialAdvance ev) JObj
              "Invalid financial advance data"
              "Failed to create financial advance" session st.

Definition handler (r : Route) : Handler :=
  match r with
  | post_auth_login => auth_login
  | post_auth_logout => auth_logout
  | get_auth_user => auth_user
  | get_projects => list_projects
  | get_project => read_project
  | post_projects => create_project
  | put_project => update_project
  | delete_project => remove_project
  | get_conventions => list_conventions
  | get_convention => read_convention
  | post_conventions => create_convention
  | put_convention => update_convention
  | delete_convention => remove_convention
  | get_partners => list_partners
  | post_partners => create_partner
  | get_project_partners => list_project_partners
  | post_project_partners => create_project_partner
  | get_convention_projects => list_convention_projects
  | post_convention_projects => create_convention_project
  | get_users => list_users
  | post_users => create_user
  | put_user => update_user
  | delete_user => remove_user
  | get_financial_advances => list_financial_advances
  | post_financial_advances => create_financial_advance
  end.

(** One request served by the application: the route's middleware runs
    first, the handler only if it calls [next()]. *)
Definition app (r : Route) : Handler := fun ev req session st =>
  match middleware r session with
  | Some answer => (answer, session, st)
  | None => handler r ev req session st
  end.

End Routes.

(** ** client: the projects page and the convention form *)

(** The state of the projects page that its query depends on. *)
Record ProjectsPage : Type := projects_page {
  page_search : string;
  page_sortBy : string;
  page_sortOrder : string
}.

(** [useState("")], [useState("")], [useState("asc")] *)
Definition initial_page : ProjectsPage := projects_page "" "" "asc".


(** The parameters [queryFn] appends; the query string they are written to
    is read back by the server as the same pairs. *)
Definition queryParams (p : ProjectsPage) : list (string * string) :=
  (if truthy_string (Some (page_search p))
   then [("search", page_search p)] else [])
  ++ (if truthy_string (Some (page_sortBy p))
      then [("sortBy", page_sortBy p)] else [])
  ++ (if truthy_string (Some (page_sortOrder p))
      then [("sortOrder", page_sortOrder p)] else []).

(** [setSelectedProjects(prev => ...)] in the convention form. *)
Definition handleProjectToggle (projectId : Z) (prev : list Z) : list Z :=
  if existsb (Z.eqb projectId) prev
  then filter (fun id => negb (id =? projectId)) prev
  else prev ++ [projectId].

(** ** The specification's vocabulary *)

Inductive Role : Type := admin | user | superviseur.

Definition role_name (r : Role) : string :=
  match r with
  | admin => "admin"
  | user => "user"
  | superviseur => "superviseur"
  end.

Inductive OperationClass : Type := read_data | write_data | manage_users.

(** The role policy table of the specification, row by row. *)
Definition policy (o : OperationClass) (r : Role) : bool :=
  match o, r with
  | read_data, _ => true
  | write_data, admin | write_data, user => true
  | write_data, superviseur => false
  | manage_users, admin => true
  | manage_users, _ => false
  end.

(** The operation class of each protected route: reads are the [GET]s on
    project, convention, partner, junction and financial data, writes the
    other methods on them, and everything under [/api/users] manages
    accounts. *)
Definition operation_class (r : Route) : option OperationClass :=
  match r with
  | post_auth_login | post_auth_logout | get_auth_user => None
  | get_projects | get_project | get_conventions | get_convention
  | get_partners | get_project_partners | get_convention_projects
  | get_financial_advances => Some read_data
  | post_projects | put_project | delete_project
  | post_conventions | put_convention | delete_convention
  | post_partners | post_project_partners | post_convention_projects
  | post_financial_advances => Some write_data
  | get_users | post_users | put_user | delete_user => Some manage_users
  end.

(** The routes that require a principal: all but login and logout. *)
Definition protected (r : Route) : bool :=
  match r with
  | post_auth_login | post_auth_logout => false
  | _ => true
  end.

(** The error taxonomy of the specification, read off a response's status. *)
Inductive Failure : Type :=
| Unauthenticated | Forbidden | ValidationFailed | NotFound | Conflict
| Internal.

Definition failure_of (r : Response) : option Failure :=
  if status r =? 401 then Some Unauthenticated
  else if status r =? 403 then Some Forbidden
  else if status r =? 400 then Some ValidationFailed
  else if status r =? 404 then Some NotFound
  else if status r =? 409 then Some Conflict
  else if status r =? 500 then Some Internal
  else None.

(** The Project records a listing selects: all of them, or those whose title
    contains the search text. *)
Definition selected (search : option string) (st : Store) : list Row :=
  if truthy_string search
  then filter (like "title"
                 (String.append "%"
                    (String.append (match search with Some s => s | None => "" end)
                                   "%")))
              (rows (tb_projects st))
  else rows (tb_projects st).

(** [a] comes before [b] in [l]. *)
Definition precedes (A : Type) (a b : A) (l : list A) : Prop :=
  exists l1 l2 l3, l = l1 ++ a :: l2 ++ b :: l3.

(** Rows with equal keys keep the relative order they have in [source]. *)
Definition ties_in_order (key : Row -> Json) (source result : list Row)
  : Prop :=
  forall a b, key a = key b -> a <> b ->
              precedes a b result -> precedes a b source.

(** The columns the [switch] of [getProjects] names. *)
Definition whitelist : list string :=
  ["identifier"; "title"; "axis"; "domain"; "budget"].

(** The table a delete route removes from, for the routes whose storage
    method is in [storage.ts]. *)
Definition deletes_from (r : Route) : option (Store -> Table) :=
  match r with
  | delete_project => Some tb_projects
  | delete_convention => Some tb_conventions
  | _ => None
  end.

(** A listing ordered by [le]: every record is [le] every later one. *)
Definition ordered (le : Row -> Row -> bool) (l : list Row) : Prop :=
  StronglySorted (fun a b => le a b = true) l.

(** ** Vocabulary of the further properties *)

(** The property names of an object, in order. *)
Definition keys (o : Row) : list string := map fst o.

(** The text columns of a Project that a create request must fill. *)
Definition project_text_columns : list string :=
  ["identifier"; "title"; "axis"; "domain"; "region"; "province"; "commune"].

(** The routes whose storage method is not in [storage.ts]. *)
Definition modelled_from_spec (r : Route) : bool :=
  match r with
  | get_users | put_user | delete_user => true
  | _ => false
  end.

(** The routes registered with [requireRole]. *)
Definition requires_role (r : Route) : bool :=
  match r with
  | post_auth_login | post_auth_logout | get_auth_user
  | get_project_partners | post_project_partners
  | get_convention_projects | post_convention_projects => false
  | _ => true
  end.

(** The values a unique index tells apart: numbers and strings. *)
Definition keyed (v : Json) : bool :=
  match v with
  | JNum _ | JStr _ => true
  | _ => false
  end.

Definition key_values (name : string) (l : list Row) : list Json :=
  filter keyed (map (col name) l).

(** No two rows of [l] hold the same value in a column that the table
    declares [unique] or [primaryKey]. *)
Definition unique_in (t : pgTable) (l : list Row) : Prop :=
  forall c, In c t -> col_unique c = true ->
            NoDup (key_values (col_name c) l).

Definition unique_store (st : Store) : Prop :=
  unique_in localUsers (rows (tb_localUsers st)) /\
  unique_in projects (rows (tb_projects st)) /\
  unique_in conventions (rows (tb_conventions st)) /\
  unique_in partners (rows (tb_partners st)) /\
  unique_in projectPartners (rows (tb_projectPartners st)) /\
  unique_in conventionProjects (rows (tb_conventionProjects st)) /\
  unique_in financialAdvances (rows (tb_financialAdvances st)).


(** ** Reference engines *)

Fixpoint insert_by (A : Type) (le : A -> A -> bool) (x : A) (l : list A)
  : list A :=
  match l with
  | [] => [x]
  | y :: l' => if le x y then x :: l else y :: insert_by le x l'
  end.

(** Insertion sort; equal elements keep their order. *)
Definition sort_by (A : Type) (le : A -> A -> bool) (l : list A) : list A :=
  fold_right (insert_by le) [] l.

Definition digit (c : ascii) : option Z :=
  let n := Z.of_nat (nat_of_ascii c) in
  if (48 <=? n) && (n <=? 57) then Some (n - 48) else None.

Fixpoint number (acc : Z) (l : list ascii) : option Z :=
  match l with
  | [] => Some acc
  | c :: l' =>
      match digit c with
      | Some d => number (10 * acc + d) l'
      | None => None
      end
  end.

Definition natural (l : list ascii) : option Z :=
  match l with
  | [] => None
  | _ => number 0 l
  end.

Fixpoint split_at (sep : ascii) (l : list ascii)
  : list ascii * option (list ascii) :=
  match l with
  | [] => ([], None)
  | c :: l' =>
      if Ascii.eqb c sep then ([], Some l')
      else let (a, b) := split_at sep l' in (c :: a, b)
  end.

(** Plain decimal literals with at most two fractional digits, in
    hundredths. *)
Definition plain_decimal (s : string) : option Z :=
  let l := list_ascii_of_string s in
  let (sign, l) :=
    match l with
    | c :: l' => if Ascii.eqb c "-" then (-1, l') else (1, l)
    | [] => (1, l)
    end in
  match split_at "." l with
  | (i, None) => option_map (fun n => sign * (100 * n)) (natural i)
  | (i, Some f) =>
      match natural i, f with
      | Some n, [a] =>
          option_map (fun d => sign * (100 * n + 10 * d)) (digit a)
      | Some n, [a; b] =>
          match digit a, digit b with
          | Some d, Some e => Some (sign * (100 * n + 10 * d + e))
          | _, _ => None
          end
      | _, _ => None
      end
  end.

(** ISO dates [YYYY-MM-DD], numbered in calendar order. *)
Definition iso_date (s : string) : option Z :=
  match split_at "-" (list_ascii_of_string s) with
  | (y, Some rest) =>
      match split_at "-" rest with
      | (m, Some d) =>
          match natural y, natural m, natural d with
          | Some y, Some m, Some d =>
              if (1 <=? m) && (m <=? 12) && (1 <=? d) && (d <=? 31)
              then Some (372 * y + 31 * (m - 1) + (d - 1))
              else None
          | _, _, _ => None
          end
      | _ => None
      end
  | _ => None
  end.

Section SortBy.

Variable A : Type.
Variable le : A -> A -> bool.

Let R (a b : A) : Prop := le a b = true.

Lemma insert_by_perm (x : A) (l : list A) :
  Permutation (x :: l) (insert_by le x l).
Proof.
  induction l as [| y l IH]; simpl.
  - apply Permutation_refl.
  - destruct (le x y).
    + apply Permutation_refl.
    + apply perm_trans with (y :: x :: l).
      * apply perm_swap.
      * apply perm_skip, IH.
Qed.

Lemma sort_by_perm (l : list A) : Permutation l (sort_by le l).
Proof.
  induction l as [| x l IH]; simpl.
  - apply perm_nil.
  - apply perm_trans with (x :: sort_by le l).
    + apply perm_skip, IH.
    + apply insert_by_perm.
Qed.

Hypothesis le_total : total_bool le.

Lemma insert_by_hd (x y : A) (l : list A) :
  R y x -> HdRel R y l -> HdRel R y (insert_by le x l).
Proof.
  intros Hyx Hl.
  destruct l as [| z l]; simpl.
  - constructor. exact Hyx.
  - destruct (le x z).
    + constructor. exact Hyx.
    + constructor. inversion Hl; assumption.
Qed.

Lemma insert_by_sorted (x : A) (l : list A) :
  Sorted R l -> Sorted R (insert_by le x l).
Proof.
  induction 1 as [| y l Hs IH Hhd]; simpl.
  - repeat constructor.
  - destruct (le x y) eqn:Hxy.
    + constructor.
      * constructor; assumption.
      * constructor. exact Hxy.
    + constructor.
      * exact IH.
      * apply insert_by_hd; [| exact Hhd].
        destruct (le_total x y) as [H | H]; [congruence | exact H].
Qed.

Lemma sort_by_sorted (l : list A) : Sorted R (sort_by le l).
Proof.
  induction l as [| x l IH]; simpl.
  - constructor.
  - apply insert_by_sorted, IH.
Qed.

End SortBy.

(** The engine whose [ORDER BY] keeps rows with equal keys in table order.
    No example hands it an array or an object as a query parameter. *)
Definition stable_engine : Engine := {|
  order_by := fun le l => sort_by le l;
  order_by_perm := fun le l => sort_by_perm le l;
  order_by_sorted := fun le l H => sort_by_sorted H l;
  numeric_in := plain_decimal;
  date_in := iso_date;
  param_text := fun _ => ""
|}.

(** PostgreSQL's scan reads the row versions of a table in the order they
    were written, and an [UPDATE] writes the new version of a row behind the
    versions that are there.  The program stamps a Project with the clock
    whenever it writes one ([defaultNow()] on insert, [updatedAt: new Date()]
    on update), so on the Project table that order is the order of
    [updatedAt].  This engine sorts what such a scan hands it and keeps rows
    with equal keys in the order received, as PostgreSQL's sort does on a
    handful of rows. *)
Definition heap_engine : Engine := {|
  order_by := fun le l => sort_by le (sort_by (asc "updatedAt") l);
  order_by_perm := fun le l =>
    perm_trans (sort_by_perm (asc "updatedAt") l)
               (sort_by_perm le (sort_by (asc "updatedAt") l));
  order_by_sorted := fun le l H =>
    sort_by_sorted H (sort_by (asc "updatedAt") l);
  numeric_in := plain_decimal;
  date_in := iso_date;
  param_text := fun _ => ""
|}.

(** A stand-in with bcrypt's interface, to run examples through login: the
    "hash" is the salt and the password behind a version tag.  The examples
    that use it depend on where the value travels, not on what it is. *)
Definition tagged (password salt : string) : string :=
  String.append "$2b$10$" (String.append salt (String.append "$" password)).

Definition tagging_bcrypt : Bcrypt :=
  {| bcrypt_hash := fun password _ salt => tagged password salt;
     bcrypt_compare := fun password encrypted =>
       let tail := String.append "$" password in
       String.eqb
         (substring (String.length encrypted - String.length tail)
                    (String.length tail) encrypted)
         tail |}.

Definition run (r : Route) (ev : Env) (req : Request) (session : Session)
    (st : Store) : Response * Session * Store :=
  app (E := stable_engine) (B := tagging_bcrypt) r ev req session st.

(** *** Sample data *)

Definition empty_table : Table := table [] 1.

Definition empty_store : Store :=
  store empty_table empty_table empty_table empty_table empty_table
        empty_table empty_table.

Definition credentials (username password : string) : Json :=
  JObj [("username", JStr username); ("password", JStr password)].

Definition project_input (identifier title budget : string) : Json :=
  JObj [("identifier", JStr identifier); ("title", JStr title);
        ("axis", JStr "Axe 1"); ("domain", JStr "Irrigation");
        ("region", JStr "Souss-Massa"); ("province", JStr "Taroudant");
        ("commune", JStr "Aoulouz"); ("budget", JStr budget)].

(** A fresh database seeded with the account admin / admin123. *)
Definition seeded : Store :=
  snd (createLocalUser (E := stable_engine) (B := tagging_bcrypt)
         (env 0 "7sS0bGmT1uYkq0X5u3mF8e")
         [("username", JStr "admin"); ("password", JStr "admin123");
          ("role", JStr "admin")]
         empty_store).

(** The session admin holds after logging in. *)
Definition admin_session : Session :=
  snd (fst (run post_auth_login (env 0 "")
                (request None [] (credentials "admin" "admin123"))
                None seeded)).

(** Two projects with the same budget, created one after the other through
    [POST /api/projects]. *)
Definition two_projects : Store :=
  let post (t : Z) (input : Json) (st : Store) : Store :=
    snd (run post_projects (env t "") (request None [] input)
             admin_session st) in
  post 2 (project_input "P-002" "Piste rurale" "1000.00")
       (post 1 (project_input "P-001" "Seguia" "1000") seeded).

(** [two_projects] after the administrator has created the account
    superviseur1 / admin123 with role superviseur. *)
Definition with_superviseur : Store :=
  snd (run post_users (env 3 "N9qo8uLOickgx2ZMRZoMye")
           (request None []
                    (JObj [("username", JStr "superviseur1");
                           ("password", JStr "admin123");
                           ("role", JStr "superviseur")]))
           admin_session two_projects).

(** The session superviseur1 holds after logging in. *)
Definition superviseur_session : Session :=
  snd (fst (run post_auth_login (env 4 "")
                (request None [] (credentials "superviseur1" "admin123"))
                None with_superviseur)).

(** The LocalUser row of admin in [seeded]. *)
Definition admin_row : Row :=
  [("id", JNum 1); ("username", JStr "admin");
   ("password", JStr "$2b$10$7sS0bGmT1uYkq0X5u3mF8e$admin123");
   ("role", JStr "admin"); ("createdAt", JTime 0); ("updatedAt", JTime 0)].

(** The first row of the Project table in [two_projects]. *)
Definition first_project : Row :=
  [("id", JNum 1); ("identifier", JStr "P-001"); ("title", JStr "Seguia");
   ("axis", JStr "Axe 1"); ("domain", JStr "Irrigation");
   ("region", JStr "Souss-Massa"); ("province", JStr "Taroudant");
   ("commune", JStr "Aoulouz"); ("budget", JDecimal 100000);
   ("engagements", JDecimal 0); ("payments", JDecimal 0);
   ("physicalProgress", JNum 0); ("status", JStr "active");
   ("createdAt", JTime 1); ("updatedAt", JTime 1)].

(** [POST /api/projects/1/partners] *)
Definition partner_request : Request :=
  request (Some 1) []
          (JObj [("partnerId", JNum 1); ("year", JNum 2025);
                 ("plannedContribution", JStr "250000.00")]).

(** [POST /api/conventions/1/projects] *)
Definition link_request : Request :=
  request (Some 1) [] (JObj [("projectId", JNum 2)]).

(** The LocalUser row of superviseur1 in [with_superviseur]. *)
Definition superviseur_row : Row :=
  [("id", JNum 2); ("username", JStr "superviseur1");
   ("password", JStr "$2b$10$N9qo8uLOickgx2ZMRZoMye$admin123");
   ("role", JStr "superviseur"); ("createdAt", JTime 3);
   ("updatedAt", JTime 3)].

Definition ids (l : list Row) : list Json := map (col "id") l.

(** [POST /api/projects] for a third project. *)
Definition forage : Request :=
  request None [] (project_input "P-003" "Forage" "1").

Definition after_forage : Response * Session * Store :=
  run post_projects (env 5 "") forage admin_session two_projects.

(** [PUT /api/projects/1] with a new title. *)
Definition retitle : Request :=
  request (Some 1) [] (JObj [("title", JStr "Khettara")]).

Definition after_retitle : Response * Session * Store :=
  run put_project (env 5 "") retitle admin_session two_projects.

Definition retitled : Row :=
  set_field "updatedAt" (JTime 5)
            (set_field "title" (JStr "Khettara") first_project).

(** [DELETE /api/projects/1] *)
Definition after_delete : Response * Session * Store :=
  run delete_project (env 5 "") (request (Some 1) [] JNull)
      admin_session two_projects.

(** A principal whose role is not one of the three. *)
Definition guest_row : Row :=
  [("id", JNum 9); ("username", JStr "invite"); ("role", JStr "guest")].

(** [POST /api/projects] with an identifier that is taken. *)
Definition after_duplicate : Response * Session * Store :=
  run post_projects (env 5 "")
      (request None [] (project_input "P-001" "Autre" "5"))
      admin_session two_projects.

(** [POST /api/projects/1/partners] by the administrator. *)
Definition after_partner_link : Response * Session * Store :=
  run post_project_partners (env 5 "") partner_request admin_session
      two_projects.

(** [two_projects] after one partner has been created and project 1 has
    been given two ProjectPartner rows: one for that partner, one for a
    partnerId that no Partner has. *)
Definition with_two_links : Store :=
  let st1 :=
    snd (run post_partners (env 5 "")
             (request None []
                      (JObj [("name", JStr "ORMVA"); ("type", JStr "public")]))
             admin_session two_projects) in
  let st2 :=
    snd (run post_project_partners (env 6 "") partner_request admin_session
             st1) in
  snd (run post_project_partners (env 7 "")
           (request (Some 1) []
                    (JObj [("partnerId", JNum 7); ("year", JNum 2025);
                           ("plannedContribution", JStr "1.00")]))
           admin_session st2).

(** [seeded] after the administrator has created an account whose username
    is the text 5. *)
Definition with_numeric_name : Store :=
  snd (run post_users (env 3 "N9qo8uLOickgx2ZMRZoMye")
           (request None []
                    (JObj [("username", JStr "5");
                           ("password", JStr "admin123");
                           ("role", JStr "user")]))
           admin_session seeded).

(** A login whose username is the number 5. *)
Definition numeric_login : Request :=
  request None [] (JObj [("username", JNum 5); ("password", JStr "admin123")]).

Definition after_numeric_login : Response * Session * Store :=
  run post_auth_login (env 4 "") numeric_login None with_numeric_name.

(** * Properties *)

(** ** Objects *)

Lemma field_set_field (k : string) (v : Json) (o : Row) :
  field k (set_field k v o) = Some v.
Proof.
  induction o as [| [k0 v0] o IH]; simpl.
  - rewrite String.eqb_refl. reflexivity.
  - destruct (String.eqb k k0) eqn:Hk; simpl.
    + rewrite String.eqb_refl. reflexivity.
    + rewrite Hk. exact IH.
Qed.

Lemma field_set_field_other (k k' : string) (v : Json) (o : Row) :
  k' <> k -> field k' (set_field k v o) = field k' o.
Proof.
  intros Hne. apply String.eqb_neq in Hne.
  induction o as [| [k0 v0] o IH]; simpl.
  - rewrite Hne. reflexivity.
  - destruct (String.eqb k k0) eqn:Hk; simpl.
    + apply String.eqb_eq in Hk. subst k0. rewrite Hne. reflexivity.
    + destruct (String.eqb k' k0); [reflexivity | exact IH].
Qed.

Lemma filter_none (A : Type) (f : A -> bool) (l : list A) :
  (forall x, In x l -> f x = false) -> filter f l = [].
Proof.
  induction l as [| x l IH]; intros H; simpl; [reflexivity |].
  rewrite (H x) by (left; reflexivity).
  apply IH. intros y Hy. apply H. right. exact Hy.
Qed.

(** ** The order on column values *)

Lemma string_leb_trans (s t u : string) :
  String.leb s t = true -> String.leb t u = true -> String.leb s u = true.
Proof.
  assert (Heq : forall a b, String.compare a b = Eq <-> a = b)
    by exact String_as_OT.cmp_eq.
  assert (Hlt : forall a b, String.compare a b = Lt <-> String_as_OT.lt a b)
    by exact String_as_OT.cmp_lt.
  unfold String.leb.
  destruct (String.compare s t) eqn:Hst; try discriminate;
    destruct (String.compare t u) eqn:Htu; try discriminate; intros _ _.
  - apply Heq in Hst, Htu. subst.
    rewrite (proj2 (Heq u u) eq_refl). reflexivity.
  - apply Heq in Hst. subst. rewrite Htu. reflexivity.
  - apply Heq in Htu. subst. rewrite Hst. reflexivity.
  - apply Hlt in Hst, Htu.
    rewrite (proj2 (Hlt s u) (String_as_OT.lt_trans _ _ _ Hst Htu)).
    reflexivity.
Qed.

Ltac leb_to_le :=
  repeat match goal with
         | H : (_ <=? _) = true |- _ => apply Z.leb_le in H
         | |- (_ <=? _) = true => apply Z.leb_le
         end.

Lemma value_le_total : total_bool value_le.
Proof.
  intros a b.
  destruct a, b; simpl;
    try (left; reflexivity); try (right; reflexivity);
    try apply String.leb_total;
    match goal with
    | |- (?x <=? ?y) = true \/ _ =>
        destruct (Z.le_ge_cases x y); [left | right]; leb_to_le; lia
    end.
Qed.

Lemma value_le_trans (a b c : Json) :
  value_le a b = true -> value_le b c = true -> value_le a c = true.
Proof.
  destruct a, b; simpl; intros Hab; try discriminate Hab;
    destruct c; simpl; intros Hbc; try discriminate Hbc;
    try reflexivity; try (leb_to_le; lia).
  eapply string_leb_trans; eassumption.
Qed.

Lemma asc_total (name : string) : total_bool (asc name).
Proof. intros a b. apply value_le_total. Qed.

Lemma desc_total (name : string) : total_bool (desc name).
Proof. intros a b. apply value_le_total. Qed.

#[local] Instance asc_transitive (name : string) :
  Transitive (fun a b => asc name a b = true).
Proof. intros a b c. apply value_le_trans. Qed.

#[local] Instance desc_transitive (name : string) :
  Transitive (fun a b => desc name a b = true).
Proof. intros a b c H1 H2. unfold desc in *. eapply value_le_trans; eassumption. Qed.

(** ** Listing projects *)

Section Listing.

Context {E : Engine}.

Lemma order_by_asc (name : string) (l : list Row) :
  ordered (asc name) (order_by (asc name) l).
Proof.
  apply Sorted_StronglySorted.
  - apply asc_transitive.
  - apply order_by_sorted, asc_total.
Qed.

Lemma order_by_desc (name : string) (l : list Row) :
  ordered (desc name) (order_by (desc name) l).
Proof.
  apply Sorted_StronglySorted.
  - apply desc_transitive.
  - apply order_by_sorted, desc_total.
Qed.

End Listing.

Lemma ordered_precedes (le : Row -> Row -> bool) (l : list Row) (a b : Row) :
  ordered le l -> precedes a b l -> le a b = true.
Proof.
  intros Hs (l1 & l2 & l3 & ->).
  induction l1 as [| x l1 IH]; simpl in Hs.
  - apply StronglySorted_inv in Hs. destruct Hs as [_ Hall].
    rewrite Forall_forall in Hall. apply Hall.
    apply in_or_app. right. left. reflexivity.
  - apply StronglySorted_inv in Hs. apply IH. tauto.
Qed.

(** Read on the numbers the columns hold. *)
Lemma ordered_asc_time (name : string) (l : list Row) (a b : Row) (t u : Z) :
  ordered (asc name) l -> precedes a b l ->
  col name a = JTime t -> col name b = JTime u -> t <= u.
Proof.
  intros Hs Hp Ha Hb. generalize (ordered_precedes Hs Hp).
  unfold asc. rewrite Ha, Hb. simpl. apply Z.leb_le.
Qed.

Lemma ordered_desc_decimal (name : string) (l : list Row) (a b : Row)
    (x y : Z) :
  ordered (desc name) l -> precedes a b l ->
  col name a = JDecimal x -> col name b = JDecimal y -> y <= x.
Proof.
  intros Hs Hp Ha Hb. generalize (ordered_precedes Hs Hp).
  unfold desc. rewrite Ha, Hb. simpl. apply Z.leb_le.
Qed.

Section ListingProjects.

Context {E : Engine}.

Lemma getProjects_no_sortBy (search sortOrder : option string) (st : Store) :
  getProjects search None sortOrder st =
  order_by ((if String.eqb (match sortOrder with Some o => o | None => "asc" end)
                           "desc"
             then desc else asc) "createdAt")
           (selected search st).
Proof.
  unfold getProjects, selected.
  destruct search as [s |]; reflexivity.
Qed.

Lemma getProjects_unlisted (search sortOrder : option string) (sb : string)
    (st : Store) :
  ~ In sb whitelist ->
  getProjects search (Some sb) sortOrder st =
  order_by ((if String.eqb (match sortOrder with Some o => o | None => "asc" end)
                           "desc"
             then desc else asc) "createdAt")
           (selected search st).
Proof.
  intros Hout.
  assert (Hne : forall w, In w whitelist -> String.eqb sb w = false).
  { intros w Hw. apply String.eqb_neq. intros ->. exact (Hout Hw). }
  unfold getProjects.
  rewrite !Hne by (simpl; tauto).
  unfold selected.
  destruct search as [s |]; destruct (truthy_string (Some sb)); reflexivity.
Qed.

Lemma getProjects_budget_desc (search : option string) (st : Store) :
  getProjects search (Some "budget") (Some "desc") st =
  order_by (desc "budget") (selected search st).
Proof.
  unfold getProjects, selected.
  destruct search as [s |]; reflexivity.
Qed.

End ListingProjects.

Section ListingOrder.

Context {E : Engine}.

(** C4, as amended: with no [sortBy] and no [sortOrder], [getProjects]
    returns the selected Project records ordered by [createdAt] ascending,
    oldest first; the default [sortOrder] of the method is ["asc"]. *)
Theorem getProjects_default_oldest_first (search : option string)
    (st : Store) :
  ordered (asc "createdAt") (getProjects search None None st) /\
  Permutation (selected search st) (getProjects search None None st).
Proof.
  rewrite getProjects_no_sortBy. simpl. split.
  - apply order_by_asc.
  - apply order_by_perm.
Qed.

(** C9, as amended: [getProjects] with [sortBy = "budget"] and
    [sortOrder = "desc"] returns the selected Project records in
    non-increasing budget order.  Which of two records with equal budget
    comes first is the engine's choice. *)
Theorem getProjects_budget_non_increasing (search : option string)
    (st : Store) :
  ordered (desc "budget")
          (getProjects search (Some "budget") (Some "desc") st) /\
  Permutation (selected search st)
              (getProjects search (Some "budget") (Some "desc") st).
Proof.
  rewrite getProjects_budget_desc. split.
  - apply order_by_desc.
  - apply order_by_perm.
Qed.

(** C10: a [sortBy] outside the whitelist is neither an error nor ignored
    silently in favour of table order: the listing is ordered by [createdAt],
    ascending when [sortOrder] is absent or ["asc"], descending when it is
    ["desc"]. *)
Theorem getProjects_unlisted_sortBy (search sortOrder : option string)
    (sb : string) (st : Store) :
  ~ In sb whitelist ->
  Permutation (selected search st) (getProjects search (Some sb) sortOrder st)
  /\ (sortOrder = None \/ sortOrder = Some "asc" ->
      ordered (asc "createdAt") (getProjects search (Some sb) sortOrder st))
  /\ (sortOrder = Some "desc" ->
      ordered (desc "createdAt") (getProjects search (Some sb) sortOrder st)).
Proof.
  intros Hout. rewrite (getProjects_unlisted search sortOrder st Hout).
  split; [apply order_by_perm |]. split.
  - intros [-> | ->]; simpl; apply order_by_asc.
  - intros ->. simpl. apply order_by_desc.
Qed.

End ListingOrder.

Lemma getProjects_unlisted_sortBy_witness :
  ~ In "status" whitelist /\
  ordered (desc "createdAt")
          (getProjects (E := stable_engine) None (Some "status") (Some "desc")
                       two_projects).
Proof.
  assert (H : ~ In "status" whitelist).
  { simpl. intros [H | [H | [H | [H | [H | []]]]]]; discriminate H. }
  split; [exact H |].
  exact (proj2 (proj2 (getProjects_unlisted_sortBy (E := stable_engine)
                         None (Some "desc") two_projects H)) eq_refl).
Defined.

(** The default listing of [two_projects] puts the older project first. *)
Lemma getProjects_default_not_newest_first :
  ids (getProjects (E := stable_engine) None None None two_projects)
  = [JNum 1; JNum 2] /\
  ~ ordered (desc "createdAt")
            (getProjects (E := stable_engine) None None None two_projects).
Proof.
  split; [reflexivity |].
  intros H. vm_compute in H.
  inversion H as [| a l _ Hall]; subst.
  inversion Hall as [| b l' Hab _]; subst.
  discriminate Hab.
Qed.

Lemma precedes_pair (A : Type) (a b : A) :
  a <> b -> ~ precedes b a [a; b].
Proof.
  intros Hne (l1 & l2 & l3 & H).
  destruct l1 as [| x l1]; simpl in H.
  - inversion H. congruence.
  - apply (f_equal (@List.length A)) in H. simpl in H.
    rewrite !length_app in H. simpl in H. rewrite !length_app in H.
    simpl in H. lia.
Qed.

(** Rows that were only inserted are scanned in insertion order: before any
    update the two projects of [two_projects], which have the same budget,
    are listed oldest first. *)
Lemma getProjects_budget_ties_before_update :
  ids (getProjects (E := heap_engine) None (Some "budget") (Some "desc")
                   two_projects) = [JNum 1; JNum 2].
Proof. reflexivity. Qed.

(** Two projects with the same budget are created one after the other, and
    the older one is then renamed by [PUT /api/projects/1].  Project 1 is
    still the first inserted, but its current version was written last:
    listed by budget, it comes after project 2. *)
Lemma getProjects_budget_ties_after_update :
  snd (app (E := heap_engine) (B := tagging_bcrypt) put_project (env 5 "")
           retitle admin_session two_projects) = snd after_retitle /\
  ids (rows (tb_projects (snd after_retitle))) = [JNum 1; JNum 2] /\
  map (col "budget") (rows (tb_projects (snd after_retitle)))
  = [JDecimal 100000; JDecimal 100000] /\
  ids (getProjects (E := heap_engine) None (Some "budget") (Some "desc")
                   (snd after_retitle)) = [JNum 2; JNum 1] /\
  ~ ties_in_order (col "budget") (rows (tb_projects (snd after_retitle)))
      (getProjects (E := heap_engine) None (Some "budget") (Some "desc")
                   (snd after_retitle)).
Proof.
  split; [reflexivity |].
  split; [reflexivity |]. split; [reflexivity |]. split; [reflexivity |].
  remember (rows (tb_projects (snd after_retitle))) as source eqn:Hs.
  remember (getProjects _ _ _ _) as result eqn:Hr.
  vm_compute in Hs, Hr. subst source result. intros H.
  match type of H with
  | ties_in_order _ [?a; ?b] _ =>
      assert (Hne : a <> b) by discriminate;
      apply (precedes_pair Hne); apply H;
        [reflexivity | congruence | exists [], [], []; reflexivity]
  end.
Qed.

(** ** Statements on a table *)

Section StatementFacts.

Context {E : Engine}.

Lemma update_rows_absent (t : pgTable) (n : Z) (bound : Row)
    (after before : list Row) :
  (forall r, In r after -> has_id n r = false) ->
  update_rows t n bound before after = inr (before ++ after, []).
Proof.
  revert before.
  induction after as [| r after IH]; intros before Habsent; simpl.
  - rewrite app_nil_r. reflexivity.
  - rewrite (Habsent r) by (left; reflexivity).
    rewrite IH by (intros r' Hr'; apply Habsent; right; exact Hr').
    rewrite <- app_assoc. reflexivity.
Qed.

Lemma filter_absent (n : Z) (l : list Row) :
  (forall r, In r l -> has_id n r = false) ->
  filter (fun r => negb (has_id n r)) l = l.
Proof.
  induction l as [| r l IH]; intros Habsent; simpl.
  - reflexivity.
  - rewrite (Habsent r) by (left; reflexivity). simpl.
    rewrite IH by (intros r' Hr'; apply Habsent; right; exact Hr').
    reflexivity.
Qed.

(** An update whose [WHERE] matches no row changes nothing and returns no
    row, provided the engine accepts the statement's parameters. *)
Lemma db_update_absent (t : pgTable) (values : Row) (n : Z) (tb : Table) :
  (forall r, In r (rows tb) -> has_id n r = false) ->
  db_update t values (Some n) tb =
  (match bind t values, bind_id (Some n) with
   | inl e, _ => inl e
   | _, inl e => inl e
   | inr _, inr _ => inr []
   end, tb).
Proof.
  intros Habsent. unfold db_update.
  destruct (bind t values) as [e | bound]; [reflexivity |].
  destruct (bind_id (Some n)) as [e | m] eqn:Hid; [reflexivity |].
  assert (m = n) as ->.
  { simpl in Hid. destruct (int4 n); congruence. }
  rewrite update_rows_absent by exact Habsent.
  destruct tb; reflexivity.
Qed.

Lemma db_delete_absent (n : Z) (tb : Table) :
  (forall r, In r (rows tb) -> has_id n r = false) ->
  db_delete (Some n) tb =
  (if int4 n then inr tt else inl numeric_value_out_of_range, tb).
Proof.
  intros Habsent. unfold db_delete, bind_id.
  destruct (int4 n); [| reflexivity].
  rewrite filter_absent by exact Habsent.
  destruct tb; reflexivity.
Qed.

(** Whatever an [INSERT] answers, the rows already in the table stay as
    they are, at the front and in order. *)
Lemma db_insert_rows (t : pgTable) (now : Z) (values : Row) (tb : Table) :
  match db_insert t now values tb with
  | (inl _, tb') => rows tb' = rows tb
  | (inr r, tb') => rows tb' = rows tb ++ [r]
  end.
Proof.
  unfold db_insert.
  destruct (bind t values); [reflexivity |].
  destruct (next_id tb <=? 2147483647); [| reflexivity].
  destruct (check_row _ _ _); reflexivity.
Qed.

(** Once the sequence is past its last value, no [INSERT] writes a row and
    the sequence stays. *)
Lemma db_insert_sequence_end (t : pgTable) (now : Z) (values : Row)
    (tb : Table) :
  2147483647 < next_id tb ->
  exists e, db_insert t now values tb = (inl e, tb).
Proof.
  intros H. unfold db_insert.
  destruct (bind t values) as [e | bound]; [exists e; reflexivity |].
  destruct (next_id tb <=? 2147483647) eqn:Hle;
    [apply Z.leb_le in Hle; lia |].
  eexists. reflexivity.
Qed.

Lemma first_duplicate_found (t : pgTable) (c : Column) (others : list Row)
    (o r : Row) :
  In c t -> col_unique c = true -> In o others ->
  same_key (col (col_name c) o) (col (col_name c) r) = true ->
  first_duplicate t others r <> None.
Proof.
  intros Hc Hu Ho Hk.
  induction t as [| c' t IH]; [destruct Hc |].
  simpl.
  destruct (col_unique c' && existsb _ others) eqn:Hdup; [discriminate |].
  destruct Hc as [-> | Hc]; [| exact (IH Hc)].
  rewrite Hu in Hdup. simpl in Hdup.
  assert (Hex : existsb (fun o0 => same_key (col (col_name c) o0)
                                           (col (col_name c) r)) others = true).
  { apply existsb_exists. exists o. split; assumption. }
  congruence.
Qed.

Lemma bind_field (t : pgTable) (values bound : Row) (k : string) (v : Json)
    (c : Column) :
  bind t values = inr bound ->
  field k values = Some v ->
  find (fun c => String.eqb (col_name c) k) t = Some c ->
  exists v', convert c v = inr v' /\ field k bound = Some v'.
Proof.
  revert bound.
  induction values as [| [k0 v0] values IH]; intros bound Hb Hf Hc;
    simpl in Hb, Hf; [discriminate |].
  destruct (String.eqb k k0) eqn:Hk.
  - apply String.eqb_eq in Hk. subst k0. injection Hf as ->.
    rewrite Hc in Hb.
    destruct (convert c v) as [e | v'] eqn:Hv; [discriminate |].
    destruct (bind t values) as [e | bound']; [discriminate |].
    injection Hb as <-. exists v'. split; [reflexivity |].
    simpl. rewrite String.eqb_refl. reflexivity.
  - destruct (find (fun c0 => String.eqb (col_name c0) k0) t) as [c0 |].
    + destruct (convert c0 v0) as [e | v0']; [discriminate |].
      destruct (bind t values) as [e | bound']; [discriminate |].
      injection Hb as <-.
      destruct (IH bound' eq_refl Hf Hc) as (v' & Hv & Hf').
      exists v'. split; [exact Hv |]. simpl. rewrite Hk. exact Hf'.
    + exact (IH bound Hb Hf Hc).
Qed.

End StatementFacts.

(** ** Routes *)

Section RouteFacts.

Context {E : Engine} {B : Bcrypt}.

Lemma canWrite_next (u : Row) :
  includes ["admin"; "user"] (field "role" u) = true ->
  canWrite (Some u) = None.
Proof.
  intros H. unfold canWrite, requireRole. rewrite H. reflexivity.
Qed.

Lemma app_next (r : Route) (ev : Env) (req : Request) (session : Session)
    (st : Store) :
  middleware r session = None ->
  app r ev req session st = handler r ev req session st.
Proof.
  intros H. unfold app. rewrite H. reflexivity.
Qed.

(** C3: on every protected route, a request without a principal in its
    session is answered 401 whatever its payload, and the store is left as it
    was: the handler, and with it every storage call, is never reached. *)
Theorem no_session_unauthorized (r : Route) (ev : Env) (req : Request)
    (st : Store) :
  protected r = true ->
  app r ev req None st = (message 401 "Unauthorized", None, st).
Proof.
  destruct r; intros H; try discriminate H; reflexivity.
Qed.

Lemma createProject_duplicate (ev : Env) (p : Row) (x : string) (o : Row)
    (st : Store) :
  field "identifier" p = Some (JStr x) ->
  In o (rows (tb_projects st)) ->
  col "identifier" o = JStr x ->
  exists e st',
    createProject ev p st = (inl e, st') /\ contents st' = contents st.
Proof.
  intros Hx Ho Hox.
  unfold createProject, db_insert.
  destruct (bind projects p) as [e | bound] eqn:Hb.
  - exists e, (with_projects (tb_projects st) st). split; reflexivity.
  - destruct (bind_field projects p "identifier" Hb Hx eq_refl)
      as (v' & Hv & Hf).
    simpl in Hv. injection Hv as <-.
    destruct (next_id (tb_projects st) <=? 2147483647);
      [| eexists _, _; split; reflexivity].
    set (r := new_row projects (now ev) (next_id (tb_projects st)) bound).
    assert (Hr : col "identifier" r = JStr x).
    { unfold r, new_row, col. simpl. rewrite Hf. reflexivity. }
    assert (Hdup : first_duplicate projects (rows (tb_projects st)) r <> None).
    { apply first_duplicate_found
        with (c := column "identifier" varchar true noDefault true) (o := o).
      - simpl. tauto.
      - reflexivity.
      - exact Ho.
      - simpl. rewrite Hox, Hr. simpl. apply String.eqb_refl. }
    unfold check_row.
    destruct (first_null projects r) as [c |].
    + eexists _, _. split; reflexivity.
    + destruct (first_duplicate projects (rows (tb_projects st)) r) as [c |];
        [| congruence].
      eexists _, _. split; reflexivity.
Qed.

(** C5, as amended: when the store already holds a Project with identifier
    [x], creating another one with identifier [x] fails and leaves the rows
    of every table as they were.  The storage method throws; the route
    answers 500 "Failed to create project", as for any other failure of the
    store. *)
Theorem create_project_duplicate_identifier (ev : Env) (req : Request)
    (u p : Row) (x : string) (o : Row) (st : Store) :
  includes ["admin"; "user"] (field "role" u) = true ->
  parse insertProjectSchema (body req) = inr p ->
  field "identifier" p = Some (JStr x) ->
  In o (rows (tb_projects st)) ->
  col "identifier" o = JStr x ->
  exists e st',
    createProject ev p st = (inl e, st') /\
    app post_projects ev req (Some u) st
    = (message 500 "Failed to create project", Some u, st') /\
    contents st' = contents st.
Proof.
  intros Hrole Hp Hx Ho Hox.
  destruct (@createProject_duplicate ev p x o st Hx Ho Hox)
    as (e & st' & Hc & Hsame).
  exists e, st'. split; [exact Hc |]. split; [| exact Hsame].
  rewrite app_next by exact (@canWrite_next u Hrole).
  simpl handler. unfold create_project, create_with.
  rewrite Hp, Hc. reflexivity.
Qed.

Lemma updateProject_absent (ev : Env) (id : Z) (p : Row) (st : Store) :
  (forall r, In r (rows (tb_projects st)) -> has_id id r = false) ->
  updateProject ev (Some id) p st =
  (match bind projects (set_field "updatedAt" (JTime (now ev)) p),
         bind_id (Some id) with
   | inl e, _ => inl e
   | _, inl e => inl e
   | inr _, inr _ => inr None
   end, st).
Proof.
  intros Habsent. unfold updateProject.
  rewrite db_update_absent by exact Habsent.
  destruct st; simpl.
  destruct (bind projects _); [reflexivity |].
  destruct (int4 id); reflexivity.
Qed.

(** C6, what the code does where the claim says NotFound: updating a
    Project id that is not in the table, with a payload the schema accepts,
    leaves the store unchanged and is not answered 404.  [updateProject],
    declared to return a Project, returns [undefined], and the route answers
    200 with an empty body (500 when the engine refuses a value or the
    id). *)
Theorem update_project_absent_id (ev : Env) (req : Request) (u p : Row)
    (id : Z) (st : Store) :
  includes ["admin"; "user"] (field "role" u) = true ->
  parse (partial insertProjectSchema) (body req) = inr p ->
  params_id req = Some id ->
  (forall r, In r (rows (tb_projects st)) -> has_id id r = false) ->
  app put_project ev req (Some u) st =
  (match bind projects (set_field "updatedAt" (JTime (now ev)) p),
         bind_id (Some id) with
   | inr _, inr _ => send 200
   | _, _ => message 500 "Failed to update project"
   end, Some u, st).
Proof.
  intros Hrole Hp Hid Habsent.
  rewrite app_next by exact (@canWrite_next u Hrole).
  simpl handler. unfold update_project.
  rewrite Hp, Hid, (@updateProject_absent ev id p st Habsent).
  destruct (bind projects _); [reflexivity |].
  destruct (bind_id (Some id)); reflexivity.
Qed.

End RouteFacts.

Section RouteFacts2.

Context {E : Engine} {B : Bcrypt}.

(** C7, as amended: deleting an id that is not in the table does not fail
    with NotFound.  The [DELETE] statement removes nothing, the storage
    method returns normally and the route reports success, 204 (500 when the
    id does not fit an [integer]); the store is unchanged. *)
Theorem delete_absent_id_reports_success (r : Route)
    (target : Store -> Table) (ev : Env) (req : Request) (session : Session)
    (id : Z) (st : Store) :
  deletes_from r = Some target ->
  middleware r session = None ->
  params_id req = Some id ->
  (forall row, In row (rows (target st)) -> has_id id row = false) ->
  exists answer,
    app r ev req session st = (answer, session, st) /\
    (int4 id = true -> answer = send 204) /\
    failure_of answer <> Some NotFound.
Proof.
  intros Hr Hnext Hid Habsent.
  rewrite app_next by exact Hnext.
  destruct r; try discriminate Hr; injection Hr as <-; simpl handler;
    [unfold remove_project, deleteProject
    | unfold remove_convention, deleteConvention];
    rewrite Hid, db_delete_absent by exact Habsent;
    destruct st; simpl; destruct (int4 id); eexists;
    (split; [reflexivity |]); (split; [| discriminate]);
    intros H; (reflexivity || discriminate H).
Qed.

(** The middleware of every route but the two junction [POST]s decides as
    the policy table does. *)
Lemma middleware_policy (r : Route) (o : OperationClass) (role : Role)
    (u : Row) :
  operation_class r = Some o ->
  r <> post_project_partners ->
  r <> post_convention_projects ->
  field "role" u = Some (JStr (role_name role)) ->
  middleware r (Some u) =
  if policy o role then None
  else Some (message 403 "Insufficient permissions").
Proof.
  intros Ho H1 H2 Hrole.
  destruct r; try discriminate Ho; try congruence;
    injection Ho as <-; simpl;
    unfold canRead, canWrite, canManageUsers, requireRole, requireAuth;
    try rewrite Hrole; destruct role; reflexivity.
Qed.

(** The junction [POST]s are registered with [requireAuth]: any principal
    passes, whatever its role. *)
Lemma junction_posts_ignore_role (u : Row) :
  middleware post_project_partners (Some u) = None /\
  middleware post_convention_projects (Some u) = None.
Proof. split; reflexivity. Qed.

(** [GET /api/auth/user] answers with the whole record kept in the
    session. *)
Lemma auth_user_echoes_session (ev : Env) (req : Request) (u : Row)
    (st : Store) :
  app get_auth_user ev req (Some u) st = (json 200 (JObj u), Some u, st).
Proof. reflexivity. Qed.

Lemma first_In (A : Type) (l : list A) (x : A) :
  first l = Some x -> In x l.
Proof.
  destruct l; simpl; intros H; [discriminate | injection H as ->; tauto].
Qed.

(** A successful login puts a stored LocalUser row, password included, in
    the session. *)
Lemma login_session_is_stored_row (ev : Env) (req : Request)
    (session : Session) (st : Store) (answer : Response) (u : Row)
    (st' : Store) :
  app post_auth_login ev req session st = (answer, Some u, st') ->
  status answer = 200 ->
  In u (rows (tb_localUsers st)).
Proof.
  unfold app. simpl. unfold auth_login.
  destruct (negb _ || negb _); [intros H; injection H as <- _ _; discriminate |].
  unfold validateLocalUser.
  destruct (prepareValue _) as [name |];
    [| intros H; injection H as <- _ _; discriminate].
  destruct (getLocalUser name st) as [row |] eqn:Hrow;
    [| intros H; injection H as <- _ _; discriminate].
  destruct (col "password" (properties (body req)));
    try (intros H; injection H as <- _ _; discriminate).
  destruct (col "password" row);
    try (intros H; injection H as <- _ _; discriminate).
  destruct (bcrypt_compare _ _);
    [| intros H; injection H as <- _ _; discriminate].
  intros H _. injection H as _ <- _.
  unfold getLocalUser in Hrow. apply first_In in Hrow.
  apply filter_In in Hrow. tauto.
Qed.

Lemma pick_set_field (keys : list string) (k : string) (v : Json) (o : Row) :
  ~ In k keys -> pick keys (set_field k v o) = pick keys o.
Proof.
  intros Hk.
  induction keys as [| k' keys IH]; simpl; [reflexivity |].
  rewrite field_set_field_other
    by (intros ->; apply Hk; left; reflexivity).
  rewrite IH by (intros H; apply Hk; right; exact H).
  reflexivity.
Qed.

(** What [/api/users] and the login answer show of a LocalUser does not
    depend on its stored password. *)
Lemma user_views_hide_password (u : Row) (h : Json) :
  user_view (set_field "password" h u) = user_view u /\
  pick ["id"; "username"; "role"] (set_field "password" h u)
  = pick ["id"; "username"; "role"] u.
Proof.
  unfold user_view.
  split; [f_equal |]; apply pick_set_field; simpl;
    intuition discriminate.
Qed.

End RouteFacts2.

(** ** Local users *)

Section LocalUsers.

Context {E : Engine} {B : Bcrypt}.

(** What the storage layer itself guarantees about credentials: after a
    successful [createLocalUser] the stored password is what [bcrypt.hash]
    returned, and [validateLocalUser] on that username returns the new user
    exactly when [bcrypt.compare] accepts the candidate against it. *)
Lemma createLocalUser_then_validate (ev : Env) (u : Row) (name p w : string)
    (st st' : Store) (created : Row) :
  field "username" u = Some (JStr name) ->
  field "password" u = Some (JStr p) ->
  createLocalUser ev u st = (inr created, st') ->
  col "password" created = JStr (bcrypt_hash p 10 (salt ev)) /\
  validateLocalUser (JStr name) (JStr w) st' =
  inr (if bcrypt_compare w (bcrypt_hash p 10 (salt ev))
       then Some created else None).
Proof.
  intros Hname Hp. unfold createLocalUser. rewrite Hp.
  set (h := bcrypt_hash p 10 (salt ev)).
  unfold db_insert.
  destruct (bind localUsers (set_field "password" (JStr h) u))
    as [e | bound] eqn:Hb; [discriminate |].
  destruct (next_id (tb_localUsers st) <=? 2147483647); [| discriminate].
  set (r := new_row localUsers (now ev) (next_id (tb_localUsers st)) bound).
  unfold check_row.
  destruct (first_null localUsers r); [discriminate |].
  destruct (first_duplicate localUsers (rows (tb_localUsers st)) r) eqn:Hdup;
    [discriminate |].
  intros H. injection H as <- <-.
  destruct (bind_field localUsers _ "password" Hb
              (field_set_field "password" (JStr h) u) eq_refl)
    as (vp & Hvp & Hfp).
  simpl in Hvp. injection Hvp as <-.
  assert (Hname' : field "username" (set_field "password" (JStr h) u)
                   = Some (JStr name)).
  { rewrite field_set_field_other by discriminate. exact Hname. }
  destruct (bind_field localUsers _ "username" Hb Hname' eq_refl)
    as (vn & Hvn & Hfn).
  simpl in Hvn. injection Hvn as <-.
  assert (Hrp : col "password" r = JStr h).
  { unfold r, new_row, col. simpl. rewrite Hfp. reflexivity. }
  assert (Hrn : col "username" r = JStr name).
  { unfold r, new_row, col. simpl. rewrite Hfn. reflexivity. }
  split; [exact Hrp |].
  unfold validateLocalUser, prepareValue, getLocalUser. simpl.
  rewrite filter_app.
  rewrite filter_none.
  - simpl. rewrite Hrn. simpl. rewrite String.eqb_refl. simpl.
    rewrite Hrp. destruct (bcrypt_compare w h); reflexivity.
  - intros o Ho.
    destruct (same_key (col "username" o) (JStr name)) eqn:Hk;
      [| reflexivity].
    exfalso.
    apply (@first_duplicate_found localUsers
             (column "username" varchar true noDefault true)
             (rows (tb_localUsers st)) o r); try assumption.
    + simpl. tauto.
    + reflexivity.
    + simpl. rewrite Hrn. exact Hk.
Qed.

End LocalUsers.

(** ** The routes on sample data *)

Lemma no_session_unauthorized_witness :
  protected post_projects = true /\
  run post_projects (env 5 "") (request None [] (JObj [("title", JNum 3)]))
      None two_projects
  = (message 401 "Unauthorized", None, two_projects).
Proof.
  split; [reflexivity |].
  apply (@no_session_unauthorized stable_engine tagging_bcrypt
           post_projects (env 5 "")
           (request None [] (JObj [("title", JNum 3)])) two_projects).
  reflexivity.
Defined.

(** The same route with a session does reach the store. *)
Lemma session_reaches_store :
  List.length (rows (tb_projects two_projects)) = 2%nat /\
  List.length
    (rows (tb_projects
             (snd (run post_projects (env 5 "")
                       (request None [] (project_input "P-003" "Forage" "1"))
                       admin_session two_projects)))) = 3%nat.
Proof. split; reflexivity. Qed.

Lemma create_project_duplicate_identifier_witness :
  exists e st',
    createProject (E := stable_engine) (env 5 "")
                  (properties (project_input "P-001" "Autre" "5"))
                  two_projects = (inl e, st') /\
    run post_projects (env 5 "")
        (request None [] (project_input "P-001" "Autre" "5"))
        admin_session two_projects
    = (message 500 "Failed to create project", admin_session, st') /\
    contents st' = contents two_projects.
Proof.
  apply (@create_project_duplicate_identifier stable_engine tagging_bcrypt
           (env 5 "") (request None [] (project_input "P-001" "Autre" "5"))
           admin_row (properties (project_input "P-001" "Autre" "5"))
           "P-001" first_project two_projects).
  - reflexivity.
  - reflexivity.
  - reflexivity.
  - vm_compute. left. reflexivity.
  - reflexivity.
Defined.

(** Posting a second project with identifier P-001 is answered 500, the
    answer to every failure of the store, not 409. *)
Lemma duplicate_identifier_is_internal :
  fst (fst (run post_projects (env 5 "")
                (request None [] (project_input "P-001" "Autre" "5"))
                admin_session two_projects))
  = message 500 "Failed to create project" /\
  failure_of (fst (fst (run post_projects (env 5 "")
                            (request None []
                                     (project_input "P-001" "Autre" "5"))
                            admin_session two_projects)))
  <> Some Conflict.
Proof.
  split; [reflexivity |]. vm_compute. discriminate.
Qed.

Lemma update_project_absent_id_witness :
  run put_project (env 5 "")
      (request (Some 99) [] (JObj [("title", JStr "Khettara")]))
      admin_session two_projects
  = (send 200, admin_session, two_projects).
Proof.
  apply (@update_project_absent_id stable_engine tagging_bcrypt
           (env 5 "")
           (request (Some 99) [] (JObj [("title", JStr "Khettara")]))
           admin_row [("title", JStr "Khettara")] 99 two_projects).
  - reflexivity.
  - reflexivity.
  - reflexivity.
  - vm_compute. intros r [<- | [<- | []]]; reflexivity.
Defined.

(** Updating project 99, which does not exist, is answered 200 with an
    empty body. *)
Lemma update_absent_id_is_not_NotFound :
  run put_project (env 5 "")
      (request (Some 99) [] (JObj [("title", JStr "Khettara")]))
      admin_session two_projects
  = (send 200, admin_session, two_projects) /\
  failure_of (fst (fst (run put_project (env 5 "")
                            (request (Some 99) []
                                     (JObj [("title", JStr "Khettara")]))
                            admin_session two_projects)))
  <> Some NotFound.
Proof.
  split; [reflexivity |]. vm_compute. discriminate.
Qed.

(** The same id through the two routes: [GET /api/projects/99] is answered
    404 "Project not found"; [PUT /api/projects/99] gets no Project from
    [updateProject] and answers 200 all the same. *)
Lemma put_answers_200_where_get_answers_404 :
  fst (fst (run get_project (env 5 "") (request (Some 99) [] JNull)
                admin_session two_projects))
  = message 404 "Project not found" /\
  fst (updateProject (E := stable_engine) (env 5 "") (Some 99)
                     [("title", JStr "Khettara")] two_projects)
  = inr None /\
  fst (fst (run put_project (env 5 "")
                (request (Some 99) [] (JObj [("title", JStr "Khettara")]))
                admin_session two_projects))
  = send 200.
Proof. repeat split; reflexivity. Qed.

Lemma delete_absent_id_reports_success_witness :
  exists answer,
    run delete_project (env 5 "") (request (Some 99) [] JNull)
        admin_session two_projects
    = (answer, admin_session, two_projects) /\
    (int4 99 = true -> answer = send 204) /\
    failure_of answer <> Some NotFound.
Proof.
  apply (@delete_absent_id_reports_success stable_engine tagging_bcrypt
           delete_project tb_projects (env 5 "")
           (request (Some 99) [] JNull) admin_session 99 two_projects).
  - reflexivity.
  - reflexivity.
  - reflexivity.
  - vm_compute. intros r [<- | [<- | []]]; reflexivity.
Defined.

(** Deleting project 99, which does not exist, is answered 204. *)
Lemma delete_absent_id_is_not_NotFound :
  run delete_project (env 5 "") (request (Some 99) [] JNull)
      admin_session two_projects
  = (send 204, admin_session, two_projects) /\
  failure_of (fst (fst (run delete_project (env 5 "")
                            (request (Some 99) [] JNull)
                            admin_session two_projects)))
  <> Some NotFound.
Proof.
  split; [reflexivity |]. vm_compute. discriminate.
Qed.

(** C1 at the failing input.  Writing junction data is a write, which the
    policy table denies to superviseur, and [POST /api/projects] does answer
    403 to superviseur1.  The two junction [POST]s are registered with
    [requireAuth] instead of [canWrite]: superviseur1 is answered 201 and the
    ProjectPartner and ConventionProject rows are inserted. *)
Theorem superviseur_creates_junction_rows :
  operation_class post_project_partners = Some write_data /\
  operation_class post_convention_projects = Some write_data /\
  policy write_data superviseur = false /\
  fst (fst (run post_projects (env 5 "")
                (request None [] (project_input "P-003" "Forage" "1"))
                superviseur_session with_superviseur))
  = message 403 "Insufficient permissions" /\
  run post_project_partners (env 5 "") partner_request superviseur_session
      with_superviseur
  = (json 201 (JObj [("id", JNum 1); ("projectId", JNum 1);
                     ("partnerId", JNum 1); ("year", JNum 2025);
                     ("plannedContribution", JDecimal 25000000);
                     ("actualContribution", JDecimal 0);
                     ("status", JStr "pending")]),
     superviseur_session,
     with_projectPartners
       (table [[("id", JNum 1); ("projectId", JNum 1);
                ("partnerId", JNum 1); ("year", JNum 2025);
                ("plannedContribution", JDecimal 25000000);
                ("actualContribution", JDecimal 0);
                ("status", JStr "pending")]] 2)
       with_superviseur) /\
  run post_convention_projects (env 5 "") link_request superviseur_session
      with_superviseur
  = (json 201 (JObj [("id", JNum 1); ("conventionId", JNum 1);
                     ("projectId", JNum 2); ("createdAt", JTime 5)]),
     superviseur_session,
     with_conventionProjects
       (table [[("id", JNum 1); ("conventionId", JNum 1);
                ("projectId", JNum 2); ("createdAt", JTime 5)]] 2)
       with_superviseur).
Proof.
  repeat split; vm_compute; reflexivity.
Qed.

(** C2 at the failing input.  Login keeps the whole LocalUser row in the
    session and answers with id, username and role only; [GET /api/users]
    shows id, username, role and createdAt; [GET /api/auth/user] sends the
    session's record as it is, stored password hash included. *)
Theorem auth_user_discloses_password_hash :
  In superviseur_row (rows (tb_localUsers with_superviseur)) /\
  run post_auth_login (env 4 "")
      (request None [] (credentials "superviseur1" "admin123"))
      None with_superviseur
  = (json 200 (JObj [("message", JStr "Login successful");
                     ("user", JObj [("id", JNum 2);
                                    ("username", JStr "superviseur1");
                                    ("role", JStr "superviseur")])]),
     Some superviseur_row, with_superviseur) /\
  run get_auth_user (env 5 "") (request None [] JNull)
      (Some superviseur_row) with_superviseur
  = (json 200 (JObj superviseur_row), Some superviseur_row,
     with_superviseur) /\
  field "password" superviseur_row
  = Some (JStr "$2b$10$N9qo8uLOickgx2ZMRZoMye$admin123").
Proof.
  repeat split; vm_compute; tauto.
Qed.

(** * Further properties *)

Unset Implicit Arguments.

(** ** Objects, schemas and statements *)

Lemma field_None_keys (k : string) (o : Row) :
  field k o = None <-> ~ In k (keys o).
Proof.
  induction o as [| [k0 v0] o IH]; simpl.
  - tauto.
  - destruct (String.eqb k k0) eqn:Hk.
    + apply String.eqb_eq in Hk. subst. split; [discriminate | tauto].
    + apply String.eqb_neq in Hk. rewrite IH. split.
      * intros H [H' | H']; [congruence | tauto].
      * tauto.
Qed.

Lemma field_Some_keys (k : string) (v : Json) (o : Row) :
  field k o = Some v -> In k (keys o).
Proof.
  intros H. destruct (in_dec string_dec k (keys o)) as [Hin | Hout];
    [exact Hin |].
  apply field_None_keys in Hout. congruence.
Qed.

(** [{ ...o, ...patch }] reads [patch] first, then [o]. *)
Lemma field_spread (k : string) (patch o : Row) :
  NoDup (keys patch) ->
  field k (spread o patch) =
  match field k patch with
  | Some v => Some v
  | None => field k o
  end.
Proof.
  unfold spread. revert o.
  induction patch as [| [k0 v0] patch IH]; intros o Hnd; simpl;
    [reflexivity |].
  inversion Hnd as [| ? ? Hout Hnd']; subst.
  rewrite (IH _ Hnd').
  destruct (String.eqb k k0) eqn:Hk.
  - apply String.eqb_eq in Hk. subst k0.
    rewrite (proj2 (field_None_keys k patch) Hout).
    apply field_set_field.
  - apply String.eqb_neq in Hk.
    rewrite (field_set_field_other v0 o Hk). reflexivity.
Qed.

Lemma keys_set_field (k : string) (v : Json) (o : Row) :
  keys (set_field k v o) = if existsb (String.eqb k) (keys o)
                           then keys o else keys o ++ [k].
Proof.
  induction o as [| [k0 v0] o IH]; simpl; [reflexivity |].
  destruct (String.eqb k k0) eqn:Hk; simpl.
  - apply String.eqb_eq in Hk. subst. reflexivity.
  - rewrite IH. destruct (existsb (String.eqb k) (keys o)); reflexivity.
Qed.

Lemma NoDup_keys_set_field (k : string) (v : Json) (o : Row) :
  NoDup (keys o) -> NoDup (keys (set_field k v o)).
Proof.
  intros Hnd. rewrite keys_set_field.
  destruct (existsb (String.eqb k) (keys o)) eqn:Hex; [exact Hnd |].
  assert (Hout : ~ In k (keys o)).
  { intros Hin.
    assert (existsb (String.eqb k) (keys o) = true).
    { apply existsb_exists. exists k. split; [exact Hin |].
      apply String.eqb_refl. }
    congruence. }
  clear Hex. induction (keys o) as [| x l IH]; simpl.
  - constructor; [tauto | constructor].
  - inversion Hnd; subst. constructor.
    + intros Hin. apply in_app_or in Hin. simpl in Hin, Hout.
      destruct Hin as [Hin | [Hin | []]]; [tauto | subst; tauto].
    + apply IH; [assumption | simpl in Hout; tauto].
Qed.

(** *** What a parsed body holds *)

Lemma parse_fields_entry (s : ZodObject) (input : Row) (k : string)
    (v : Json) :
  In (k, v) (snd (parse_fields s input)) ->
  field k input = Some v /\
  exists f, In f s /\ zf_name f = k /\
            (v = JNull \/ zod_accepts (zf_type f) v = true).
Proof.
  induction s as [| f s IH]; simpl; [tauto |].
  destruct (parse_fields s input) as [issues out]. simpl in IH.
  assert (Hrest : In (k, v) out ->
                  field k input = Some v /\
                  exists f0, (f = f0 \/ In f0 s) /\ zf_name f0 = k /\
                             (v = JNull \/ zod_accepts (zf_type f0) v = true)).
  { intros H. destruct (IH H) as (H1 & f0 & H2 & H3). split; [exact H1 |].
    exists f0. tauto. }
  destruct (field (zf_name f) input) as [v0 |] eqn:Hf.
  - assert (Hhere : In (k, v) ((zf_name f, v0) :: out) ->
                    (v0 = JNull \/ zod_accepts (zf_type f) v0 = true) ->
                    field k input = Some v /\
                    exists f0, (f = f0 \/ In f0 s) /\ zf_name f0 = k /\
                               (v = JNull \/
                                zod_accepts (zf_type f0) v = true)).
    { intros [H | H] Hv; [| exact (Hrest H)].
      injection H as <- <-. split; [exact Hf |]. exists f. tauto. }
    destruct v0; simpl;
      [ destruct (zf_nullable f); simpl; intros H;
        [apply Hhere; [exact H | left; reflexivity] | exact (Hrest H)]
      | destruct (zod_accepts (zf_type f) _) eqn:Hacc; simpl; intros H;
        [apply Hhere; [exact H | right; reflexivity] | exact (Hrest H)] .. ].
  - destruct (zf_optional f); simpl; exact Hrest.
Qed.

Lemma parse_fields_keys (s : ZodObject) (input : Row) :
  NoDup (map zf_name s) -> NoDup (keys (snd (parse_fields s input))).
Proof.
  induction s as [| f s IH]; simpl; intros Hnd; [constructor |].
  inversion Hnd as [| ? ? Hout Hnd']; subst.
  specialize (IH Hnd').
  assert (Hfresh : ~ In (zf_name f) (keys (snd (parse_fields s input)))).
  { intros Hin. apply in_map_iff in Hin. destruct Hin as ([k v] & Hk & Hin).
    simpl in Hk. subst k.
    destruct (parse_fields_entry s input _ _ Hin) as (_ & f0 & Hf0 & Hn & _).
    apply Hout. apply in_map_iff. exists f0. tauto. }
  destruct (parse_fields s input) as [issues out]. simpl in *.
  destruct (field (zf_name f) input) as [v0 |].
  - destruct v0; simpl;
      try (destruct (zf_nullable f); simpl;
           [constructor; assumption | assumption]);
      destruct (zod_accepts (zf_type f) _); simpl;
      try assumption; constructor; assumption.
  - destruct (zf_optional f); simpl; assumption.
Qed.

Lemma parse_inv (s : ZodObject) (input : Json) (out : Row) :
  parse s input = inr out ->
  exists o, input = JObj o /\ parse_fields s o = ([], out).
Proof.
  unfold parse. destruct input; try discriminate.
  destruct (parse_fields s fields) as [[| i issues] out'] eqn:Hp;
    [| discriminate].
  intros H. injection H as <-. exists fields. tauto.
Qed.

Lemma In_field (k : string) (v : Json) (o : Row) :
  NoDup (keys o) -> In (k, v) o -> field k o = Some v.
Proof.
  induction o as [| [k0 v0] o IH]; simpl; intros Hnd Hin; [tauto |].
  inversion Hnd as [| ? ? Hout Hnd']; subst.
  destruct Hin as [H | H].
  - injection H as -> ->. rewrite String.eqb_refl. reflexivity.
  - destruct (String.eqb k k0) eqn:Hk.
    + apply String.eqb_eq in Hk. subst k0. exfalso. apply Hout.
      apply in_map_iff. exists (k, v). tauto.
    + exact (IH Hnd' H).
Qed.

Lemma field_In (k : string) (v : Json) (o : Row) :
  field k o = Some v -> In (k, v) o.
Proof.
  induction o as [| [k0 v0] o IH]; simpl; [discriminate |].
  destruct (String.eqb k k0) eqn:Hk.
  - apply String.eqb_eq in Hk. subst k0. intros H. injection H as ->. tauto.
  - intros H. right. exact (IH H).
Qed.

(** A body that parses: the result has only fields of the schema, each with
    the value the body gave it. *)
Lemma parse_field (s : ZodObject) (input : Json) (out : Row) (k : string)
    (v : Json) :
  parse s input = inr out ->
  field k out = Some v ->
  field k (properties input) = Some v /\ In k (map zf_name s).
Proof.
  intros Hp Hf. destruct (parse_inv s input out Hp) as (o & -> & Hpf).
  apply field_In in Hf.
  destruct (parse_fields_entry s o k v) as (H1 & f & H2 & H3 & _).
  { rewrite Hpf. exact Hf. }
  split; [exact H1 |]. apply in_map_iff. exists f. tauto.
Qed.

Lemma parse_NoDup (s : ZodObject) (input : Json) (out : Row) :
  NoDup (map zf_name s) -> parse s input = inr out -> NoDup (keys out).
Proof.
  intros Hnd Hp. destruct (parse_inv s input out Hp) as (o & -> & Hpf).
  generalize (parse_fields_keys s o Hnd). rewrite Hpf. tauto.
Qed.

(** *** What a statement binds and writes *)

Section StatementFacts2.

Context {E : Engine}.

Lemma bind_keys (t : pgTable) (values bound : Row) (k : string) :
  bind t values = inr bound -> In k (keys bound) -> In k (keys values).
Proof.
  revert bound.
  induction values as [| [k0 v0] values IH]; intros bound Hb; simpl in Hb.
  - injection Hb as <-. tauto.
  - destruct (find (fun c => String.eqb (col_name c) k0) t) as [c |].
    + destruct (convert c v0) as [e | v0']; [discriminate |].
      destruct (bind t values) as [e | bound']; [discriminate |].
      injection Hb as <-. simpl. intros [H | H]; [tauto |].
      right. exact (IH bound' eq_refl H).
    + intros H. right. exact (IH bound Hb H).
Qed.

Lemma bind_NoDup (t : pgTable) (values bound : Row) :
  bind t values = inr bound -> NoDup (keys values) -> NoDup (keys bound).
Proof.
  revert bound.
  induction values as [| [k0 v0] values IH]; intros bound Hb Hnd;
    simpl in Hb.
  - injection Hb as <-. constructor.
  - inversion Hnd as [| ? ? Hout Hnd']; subst.
    destruct (find (fun c => String.eqb (col_name c) k0) t) as [c |].
    + destruct (convert c v0) as [e | v0']; [discriminate |].
      destruct (bind t values) as [e | bound'] eqn:Hb'; [discriminate |].
      injection Hb as <-. simpl. constructor.
      * intros Hin. apply Hout. exact (bind_keys t values bound' k0 Hb' Hin).
      * exact (IH bound' eq_refl Hnd').
    + exact (IH bound Hb Hnd').
Qed.

Lemma bind_field_None (t : pgTable) (values bound : Row) (k : string) :
  bind t values = inr bound -> field k values = None -> field k bound = None.
Proof.
  intros Hb Hf. apply field_None_keys. intros Hin.
  apply (proj1 (field_None_keys k values) Hf).
  exact (bind_keys t values bound k Hb Hin).
Qed.

(** What a successful [INSERT] did. *)
Lemma db_insert_inv (t : pgTable) (now : Z) (values : Row) (tb tb' : Table)
    (r : Row) :
  db_insert t now values tb = (inr r, tb') ->
  exists bound,
    bind t values = inr bound /\
    r = new_row t now (next_id tb) bound /\
    first_duplicate t (rows tb) r = None /\
    first_null t r = None /\
    tb' = table (rows tb ++ [r]) (next_id tb + 1).
Proof.
  unfold db_insert, check_row.
  destruct (bind t values) as [e | bound]; [discriminate |].
  destruct (next_id tb <=? 2147483647); [| discriminate].
  destruct (first_null t _) eqn:Hn; [discriminate |].
  destruct (first_duplicate t (rows tb) _) eqn:Hd; [discriminate |].
  intros H. injection H as <- <-. exists bound. tauto.
Qed.

Lemma db_insert_error (t : pgTable) (now : Z) (values : Row) (tb tb' : Table)
    (e : Exception) :
  db_insert t now values tb = (inl e, tb') -> rows tb' = rows tb.
Proof.
  intros H. generalize (db_insert_rows t now values tb). rewrite H. tauto.
Qed.

Lemma first_duplicate_None (t : pgTable) (c : Column) (others : list Row)
    (o r : Row) :
  first_duplicate t others r = None ->
  In c t -> col_unique c = true -> In o others ->
  same_key (col (col_name c) o) (col (col_name c) r) = false.
Proof.
  intros Hnone Hc Hu Ho.
  destruct (same_key _ _) eqn:Hk; [| reflexivity].
  exfalso. exact (@first_duplicate_found t c others o r Hc Hu Ho Hk Hnone).
Qed.

(** An [UPDATE ... WHERE id = n] that succeeds rewrites the matching rows in
    place and returns them, in table order. *)
Lemma update_rows_inv (t : pgTable) (n : Z) (bound : Row)
    (after before all returned : list Row) :
  update_rows t n bound before after = inr (all, returned) ->
  all = before ++
        map (fun r => if has_id n r then spread r bound else r) after /\
  returned = map (fun r => spread r bound) (filter (has_id n) after).
Proof.
  revert before all returned.
  induction after as [| r after IH]; intros before all returned; simpl.
  - intros H. injection H as <- <-. rewrite app_nil_r. tauto.
  - destruct (has_id n r).
    + unfold check_row.
      destruct (first_null t (spread r bound)); [discriminate |].
      destruct (first_duplicate t (before ++ after) (spread r bound));
        [discriminate |].
      destruct (update_rows t n bound (before ++ [spread r bound]) after)
        as [e | [all' returned']] eqn:Hrec; [discriminate |].
      intros H. injection H as <- <-.
      destruct (IH _ _ _ Hrec) as [-> ->].
      rewrite <- app_assoc. simpl. tauto.
    + intros H. destruct (IH _ _ _ H) as [-> ->].
      rewrite <- app_assoc. simpl. tauto.
Qed.

Lemma db_update_inv (t : pgTable) (values : Row) (id : option Z)
    (tb tb' : Table) (returned : list Row) :
  db_update t values id tb = (inr returned, tb') ->
  exists bound n,
    bind t values = inr bound /\ id = Some n /\ int4 n = true /\
    rows tb' = map (fun r => if has_id n r then spread r bound else r)
                   (rows tb) /\
    next_id tb' = next_id tb /\
    returned = map (fun r => spread r bound) (filter (has_id n) (rows tb)).
Proof.
  unfold db_update.
  destruct (bind t values) as [e | bound]; [discriminate |].
  destruct id as [n |]; simpl; [| discriminate].
  destruct (int4 n) eqn:Hn; [| discriminate].
  destruct (update_rows t n bound [] (rows tb)) as [e | [all ret]] eqn:Hu;
    [discriminate |].
  intros H. injection H as <- <-.
  destruct (update_rows_inv _ _ _ _ _ _ _ Hu) as [-> ->].
  exists bound, n. simpl. tauto.
Qed.

Lemma db_update_error (t : pgTable) (values : Row) (id : option Z)
    (tb tb' : Table) (e : Exception) :
  db_update t values id tb = (inl e, tb') -> tb' = tb.
Proof.
  unfold db_update.
  destruct (bind t values); [intros H; injection H as _ <-; reflexivity |].
  destruct (bind_id id); [intros H; injection H as _ <-; reflexivity |].
  destruct (update_rows _ _ _ _ _) as [e' | [all ret]];
    intros H; [injection H as _ <-; reflexivity | discriminate].
Qed.

Lemma db_delete_inv (id : option Z) (tb tb' : Table) (r : Result unit) :
  db_delete id tb = (r, tb') ->
  match r with
  | inl _ => tb' = tb
  | inr _ => exists n, id = Some n /\ int4 n = true /\
                       tb' = table (filter (fun r => negb (has_id n r))
                                           (rows tb)) (next_id tb)
  end.
Proof.
  unfold db_delete, bind_id.
  destruct id as [n |]; [destruct (int4 n) eqn:Hn |];
    intros H; injection H as <- <-; try reflexivity.
  exists n. tauto.
Qed.

End StatementFacts2.

Section StatementFacts3.

Context {E : Engine}.

Lemma col_new_row (t : pgTable) (now id : Z) (bound : Row) (c : Column) :
  NoDup (map col_name t) -> In c t ->
  col (col_name c) (new_row t now id bound) =
  match field (col_name c) bound with
  | Some v => v
  | None => column_default now id c
  end.
Proof.
  unfold new_row, col.
  induction t as [| c0 t IH]; simpl; intros Hnd Hin; [tauto |].
  inversion Hnd as [| ? ? Hout Hnd']; subst.
  destruct Hin as [-> | Hin].
  - rewrite String.eqb_refl. reflexivity.
  - destruct (String.eqb (col_name c) (col_name c0)) eqn:Hk.
    + apply String.eqb_eq in Hk. exfalso. apply Hout. rewrite <- Hk.
      apply in_map. exact Hin.
    + exact (IH Hnd' Hin).
Qed.

Lemma first_null_None (t : pgTable) (r : Row) (c : Column) :
  first_null t r = None -> In c t -> col_notNull c = true ->
  col (col_name c) r <> JNull.
Proof.
  induction t as [| c0 t IH]; simpl; intros Hn Hin Hnn; [tauto |].
  destruct Hin as [-> | Hin].
  - rewrite Hnn in Hn. destruct (col (col_name c) r); congruence.
  - apply IH; try assumption.
    destruct (col_notNull c0); [| exact Hn].
    destruct (col (col_name c0) r); congruence.
Qed.

(** A text column that is [notNull] and has no default: the inserted row
    holds the string that was submitted. *)
Lemma inserted_text (t : pgTable) (now : Z) (values : Row) (tb tb' : Table)
    (r : Row) (c : Column) :
  db_insert t now values tb = (inr r, tb') ->
  NoDup (map col_name t) -> In c t ->
  col_type c = varchar \/ col_type c = text ->
  col_notNull c = true -> col_default c = noDefault ->
  exists s, field (col_name c) values = Some (JStr s) /\
            col (col_name c) r = JStr s.
Proof.
  intros Hi Hnd Hin Hty Hnn Hdef.
  destruct (db_insert_inv _ _ _ _ _ _ Hi) as (bound & Hb & -> & _ & Hnull & _).
  generalize (first_null_None _ _ c Hnull Hin Hnn).
  rewrite (col_new_row _ _ _ _ _ Hnd Hin).
  assert (Hfind : find (fun c0 => String.eqb (col_name c0) (col_name c)) t
                  = Some c).
  { clear - Hnd Hin. induction t as [| c0 t IH]; simpl; [destruct Hin |].
    inversion Hnd as [| ? ? Hout Hnd']; subst.
    destruct Hin as [-> | Hin]; [rewrite String.eqb_refl; reflexivity |].
    destruct (String.eqb (col_name c0) (col_name c)) eqn:Hk.
    - apply String.eqb_eq in Hk. exfalso. apply Hout. rewrite Hk.
      apply in_map. exact Hin.
    - exact (IH Hnd' Hin). }
  destruct (field (col_name c) values) as [v |] eqn:Hv.
  - destruct (@bind_field _ t values bound (col_name c) v c Hb Hv Hfind)
      as (v' & Hconv & Hf).
    rewrite Hf. intros Hne.
    unfold convert in Hconv.
    destruct Hty as [Hty | Hty]; rewrite Hty in Hconv;
      destruct v; try discriminate Hconv; injection Hconv as <-;
      try congruence; exists s; tauto.
  - rewrite (bind_field_None t values bound (col_name c) Hb Hv).
    unfold column_default. rewrite Hdef.
    destruct Hty as [Hty | Hty]; rewrite Hty; congruence.
Qed.

End StatementFacts3.

(** ** Creating and reading a project *)

Lemma projects_NoDup : NoDup (map col_name projects).
Proof.
  simpl. repeat (constructor; [simpl; intuition discriminate |]).
  constructor.
Qed.

Section CreateProject.

Context {E : Engine} {B : Bcrypt}.

Lemma middleware_status (r : Route) (session : Session) (a : Response) :
  middleware r session = Some a -> status a = 401 \/ status a = 403.
Proof.
  destruct r; simpl; try discriminate;
    unfold canRead, canWrite, canManageUsers, requireRole, requireAuth;
    destruct session as [u |];
    try (destruct (negb _));
    intros H; try discriminate H; injection H as <-; simpl; auto.
Qed.

Lemma app_inv (r : Route) (ev : Env) (req : Request) (session : Session)
    (st : Store) (res : Response * Session * Store) :
  app r ev req session st = res ->
  (exists a, middleware r session = Some a /\ res = (a, session, st)) \/
  (middleware r session = None /\ handler r ev req session st = res).
Proof.
  unfold app. destruct (middleware r session) as [a |].
  - intros <-. left. exists a. tauto.
  - intros H. right. tauto.
Qed.

Lemma create_with_201 (schema : ZodObject) (input : Json)
    (create : Row -> Store -> Result Row * Store) (view : Row -> Json)
    (bad failed : string) (session session' : Session) (st st' : Store)
    (answer : Response) :
  create_with schema input create view bad failed session st
  = (answer, session', st') ->
  status answer = 201 ->
  exists data created,
    parse schema input = inr data /\
    create data st = (inr created, st') /\
    answer = json 201 (view created) /\ session' = session.
Proof.
  unfold create_with.
  destruct (parse schema input) as [issues | data];
    [intros H; injection H as <- _ _; discriminate |].
  destruct (create data st) as [[e | created] st0] eqn:Hc;
    intros H; injection H as <- <- <-; [discriminate |].
  intros _. exists data, created. repeat split; try reflexivity.
  exact Hc.
Qed.

Lemma post_projects_201 (ev : Env) (req : Request) (session session' : Session)
    (st st' : Store) (answer : Response) :
  app post_projects ev req session st = (answer, session', st') ->
  status answer = 201 ->
  exists data created,
    parse insertProjectSchema (body req) = inr data /\
    createProject ev data st = (inr created, st') /\
    answer = json 201 (JObj created) /\ session' = session.
Proof.
  intros Happ H201.
  destruct (app_inv _ _ _ _ _ _ Happ) as [(a & Hm & Hres) | [_ Hh]].
  - injection Hres as <- _ _.
    destruct (middleware_status _ _ _ Hm) as [H | H]; rewrite H in H201;
      discriminate.
  - exact (create_with_201 _ _ _ _ _ _ _ _ _ _ _ Hh H201).
Qed.

Lemma createProject_inv (ev : Env) (p : Row) (st st' : Store) (created : Row) :
  createProject ev p st = (inr created, st') ->
  db_insert projects (now ev) p (tb_projects st)
  = (inr created,
     table (rows (tb_projects st) ++ [created])
           (next_id (tb_projects st) + 1)) /\
  st' = with_projects
          (table (rows (tb_projects st) ++ [created])
                 (next_id (tb_projects st) + 1)) st.
Proof.
  unfold createProject.
  destruct (db_insert projects (now ev) p (tb_projects st)) as [r tb] eqn:Hi.
  intros H. injection H as -> <-.
  destruct (db_insert_inv _ _ _ _ _ _ Hi) as (_ & _ & _ & _ & _ & ->).
  tauto.
Qed.

Lemma parsed_project_has_no (k : string) (input : Json) (p : Row) :
  parse insertProjectSchema input = inr p ->
  k = "id" \/ k = "createdAt" \/ k = "updatedAt" ->
  field k p = None.
Proof.
  intros Hp Hk. destruct (field k p) as [v |] eqn:Hf; [| reflexivity].
  destruct (parse_field _ _ _ _ _ Hp Hf) as [_ Hin].
  exfalso. vm_compute in Hin.
  destruct Hk as [-> | [-> | ->]]; intuition discriminate.
Qed.

Lemma createProject_identity (ev : Env) (input : Json) (p : Row)
    (st st' : Store) (created : Row) :
  parse insertProjectSchema input = inr p ->
  createProject ev p st = (inr created, st') ->
  col "id" created = JNum (next_id (tb_projects st)) /\
  col "createdAt" created = JTime (now ev) /\
  col "updatedAt" created = JTime (now ev).
Proof.
  intros Hp Hc.
  destruct (createProject_inv _ _ _ _ _ Hc) as [Hi _].
  destruct (db_insert_inv _ _ _ _ _ _ Hi) as (bound & Hb & Hr & _).
  assert (Hnone : forall k, k = "id" \/ k = "createdAt" \/ k = "updatedAt" ->
                            field k bound = None).
  { intros k Hk. apply (bind_field_None projects p bound k Hb).
    exact (parsed_project_has_no k _ p Hp Hk). }
  rewrite Hr. unfold new_row, col. simpl.
  rewrite !Hnone by tauto. tauto.
Qed.

(** X1: whatever the body of [POST /api/projects] says, the project it
    creates gets the next value of the sequence as id and the clock reading
    as createdAt and updatedAt, and the store changes by exactly that row
    appended to the Project table. *)
Theorem post_projects_assigns_identity (ev : Env) (req : Request)
    (session session' : Session) (st st' : Store) (answer : Response) :
  app post_projects ev req session st = (answer, session', st') ->
  status answer = 201 ->
  exists created,
    answer = json 201 (JObj created) /\
    col "id" created = JNum (next_id (tb_projects st)) /\
    col "createdAt" created = JTime (now ev) /\
    col "updatedAt" created = JTime (now ev) /\
    st' = with_projects
            (table (rows (tb_projects st) ++ [created])
                   (next_id (tb_projects st) + 1)) st.
Proof.
  intros Happ H201.
  destruct (post_projects_201 _ _ _ _ _ _ _ Happ H201)
    as (p & created & Hp & Hc & -> & _).
  destruct (createProject_identity _ _ _ _ _ _ Hp Hc) as (H1 & H2 & H3).
  destruct (createProject_inv _ _ _ _ _ Hc) as [_ ->].
  exists created. tauto.
Qed.

(** X2: a created project holds the strings submitted for its text columns
    and the submitted budget as the engine read it; status, engagements,
    payments and physicalProgress take their defaults when the body leaves
    them out. *)
Theorem post_projects_keeps_submitted (ev : Env) (req : Request)
    (session session' : Session) (st st' : Store) (answer : Response) :
  app post_projects ev req session st = (answer, session', st') ->
  status answer = 201 ->
  exists created,
    answer = json 201 (JObj created) /\
    (forall k, In k project_text_columns ->
       exists s, field k (properties (body req)) = Some (JStr s) /\
                 col k created = JStr s) /\
    (exists s h, field "budget" (properties (body req)) = Some (JStr s) /\
                 numeric_in s = Some h /\
                 col "budget" created = JDecimal h) /\
    (field "status" (properties (body req)) = None ->
       col "status" created = JStr "active") /\
    (field "engagements" (properties (body req)) = None ->
       col "engagements" created = JDecimal 0) /\
    (field "payments" (properties (body req)) = None ->
       col "payments" created = JDecimal 0) /\
    (field "physicalProgress" (properties (body req)) = None ->
       col "physicalProgress" created = JNum 0).
Proof.
  intros Happ H201.
  destruct (post_projects_201 _ _ _ _ _ _ _ Happ H201)
    as (p & created & Hp & Hc & -> & _).
  destruct (createProject_inv _ _ _ _ _ Hc) as [Hi _].
  exists created. split; [reflexivity |].
  assert (Hbody : forall k v, field k p = Some v ->
                              field k (properties (body req)) = Some v).
  { intros k v Hf. exact (proj1 (parse_field _ _ _ _ _ Hp Hf)). }
  destruct (db_insert_inv _ _ _ _ _ _ Hi) as (bound & Hb & Hr & _ & Hnull & _).
  assert (Habsent : forall k, field k (properties (body req)) = None ->
                              field k bound = None).
  { intros k Hk. apply (bind_field_None projects p bound k Hb).
    destruct (field k p) as [v |] eqn:Hf; [| reflexivity].
    rewrite (Hbody k v Hf) in Hk. discriminate. }
  split; [| split; [| repeat split]].
  - intros k Hk.
    assert (Hcol : exists c, In c projects /\ col_name c = k /\
                             (col_type c = varchar \/ col_type c = text) /\
                             col_notNull c = true /\
                             col_default c = noDefault).
    { simpl in Hk.
      destruct Hk as [<- | [<- | [<- | [<- | [<- | [<- | [<- | []]]]]]]];
        [ exists (column "identifier" varchar true noDefault true)
        | exists (column "title" text true noDefault false)
        | exists (column "axis" varchar true noDefault false)
        | exists (column "domain" varchar true noDefault false)
        | exists (column "region" varchar true noDefault false)
        | exists (column "province" varchar true noDefault false)
        | exists (column "commune" varchar true noDefault false) ];
        repeat split; simpl; auto 20. }
    destruct Hcol as (c & Hin & <- & Hty & Hnn & Hdef).
    destruct (inserted_text _ _ _ _ _ _ c Hi projects_NoDup Hin Hty Hnn Hdef)
      as (s & Hs & Hcs).
    exists s. split; [exact (Hbody _ _ Hs) | exact Hcs].
  - assert (Hin : In (column "budget" decimal true noDefault false) projects)
      by (simpl; auto 20).
    generalize (first_null_None _ _ _ Hnull Hin eq_refl).
    rewrite Hr. unfold new_row, col. simpl.
    destruct (field "budget" bound) as [v' |] eqn:Hv'.
    + intros Hne.
      destruct (field "budget" p) as [v |] eqn:Hv.
      * destruct (@bind_field _ projects p bound "budget" v
                    (column "budget" decimal true noDefault false)
                    Hb Hv eq_refl) as (v'' & Hconv & Hf).
        rewrite Hv' in Hf. injection Hf as <-.
        unfold convert in Hconv. simpl in Hconv.
        destruct v; try discriminate Hconv.
        -- injection Hconv as <-. exfalso. apply Hne. reflexivity.
        -- destruct (numeric_in s) as [h |] eqn:Hh; [| discriminate].
           destruct (numeric_15_2 h); [| discriminate].
           injection Hconv as <-. exists s, h.
           split; [exact (Hbody _ _ Hv) | tauto].
      * rewrite (bind_field_None projects p bound "budget" Hb Hv) in Hv'.
        discriminate.
    + intros Hne. exfalso. apply Hne. reflexivity.
  - intros Hk. rewrite Hr. unfold new_row, col. simpl.
    rewrite (Habsent _ Hk). reflexivity.
  - intros Hk. rewrite Hr. unfold new_row, col. simpl.
    rewrite (Habsent _ Hk). reflexivity.
  - intros Hk. rewrite Hr. unfold new_row, col. simpl.
    rewrite (Habsent _ Hk). reflexivity.
  - intros Hk. rewrite Hr. unfold new_row, col. simpl.
    rewrite (Habsent _ Hk). reflexivity.
Qed.


Lemma canRead_next (u : Row) :
  includes ["admin"; "user"; "superviseur"] (field "role" u) = true ->
  canRead (Some u) = None.
Proof.
  intros H. unfold canRead, requireRole. rewrite H. reflexivity.
Qed.

Lemma has_id_unique (a b : Z) (r : Row) :
  has_id a r = true -> has_id b r = true -> a = b.
Proof.
  unfold has_id, same_key. destruct (col "id" r); try discriminate.
  intros Ha Hb. apply Z.eqb_eq in Ha, Hb. congruence.
Qed.

(** X3: a project just created can be read back: [GET /api/projects/:id]
    with the id of the new row answers with the record that
    [POST /api/projects] returned. *)
Theorem get_after_post_project (ev ev' : Env) (req req' : Request)
    (session session' : Session) (u : Row) (st st' : Store)
    (answer : Response) :
  app post_projects ev req session st = (answer, session', st') ->
  status answer = 201 ->
  int4 (next_id (tb_projects st)) = true ->
  params_id req' = Some (next_id (tb_projects st)) ->
  includes ["admin"; "user"; "superviseur"] (field "role" u) = true ->
  exists created,
    answer = json 201 (JObj created) /\
    app get_project ev' req' (Some u) st'
    = (json 200 (JObj created), Some u, st').
Proof.
  intros Happ H201 Hint Hid Hrole.
  destruct (post_projects_201 _ _ _ _ _ _ _ Happ H201)
    as (p & created & Hp & Hc & -> & _).
  destruct (createProject_identity _ _ _ _ _ _ Hp Hc) as (Hcid & _).
  destruct (createProject_inv _ _ _ _ _ Hc) as [Hi ->].
  destruct (db_insert_inv _ _ _ _ _ _ Hi) as (bound & _ & _ & Hdup & _).
  exists created. split; [reflexivity |].
  rewrite app_next by exact (canRead_next u Hrole).
  simpl handler. unfold read_project, getProject, db_select_id.
  rewrite Hid. simpl bind_id. rewrite Hint. simpl.
  rewrite filter_app.
  rewrite filter_none.
  - simpl. unfold has_id at 1. rewrite Hcid. simpl.
    rewrite Z.eqb_refl. reflexivity.
  - intros o Ho. unfold has_id. rewrite <- Hcid.
    apply (first_duplicate_None projects (primaryKey "id")
             (rows (tb_projects st)) o created Hdup).
    + simpl. tauto.
    + reflexivity.
    + exact Ho.
Qed.

End CreateProject.

(** ** Deleting and updating a project *)

Lemma parse_fields_present (s : ZodObject) (input : Row) (f : ZodField)
    (v : Json) :
  fst (parse_fields s input) = [] ->
  In f s -> field (zf_name f) input = Some v ->
  In (zf_name f, v) (snd (parse_fields s input)).
Proof.
  induction s as [| f0 s IH]; simpl; intros Hnil Hin Hv; [tauto |].
  destruct (parse_fields s input) as [issues out0]. simpl in IH.
  destruct (field (zf_name f0) input) as [v0 |] eqn:Hv0.
  - assert (Hok : forall (b : bool),
              fst (if b then (issues, (zf_name f0, v0) :: out0)
                   else (zod_issue (zf_name f0) "Invalid type" :: issues,
                         out0)) = [] ->
              In (zf_name f, v)
                 (snd (if b then (issues, (zf_name f0, v0) :: out0)
                       else (zod_issue (zf_name f0) "Invalid type" :: issues,
                             out0)))).
    { intros [|]; simpl; intros H; [| discriminate H].
      destruct Hin as [-> | Hin].
      - left. congruence.
      - right. exact (IH H Hin Hv). }
    destruct v0; apply Hok; exact Hnil.
  - destruct (zf_optional f0); simpl in *; [| discriminate Hnil].
    destruct Hin as [-> | Hin]; [congruence |].
    exact (IH Hnil Hin Hv).
Qed.

(** A field of the schema that the body gives is in the parsed data. *)
Lemma parse_present (s : ZodObject) (input : Json) (out : Row) (k : string)
    (v : Json) :
  NoDup (map zf_name s) ->
  parse s input = inr out ->
  In k (map zf_name s) -> field k (properties input) = Some v ->
  field k out = Some v.
Proof.
  intros Hnd Hp Hk Hv.
  destruct (parse_inv s input out Hp) as (o & -> & Hpf).
  apply in_map_iff in Hk. destruct Hk as (f & <- & Hf).
  apply In_field.
  - generalize (parse_fields_keys s o Hnd). rewrite Hpf. tauto.
  - generalize (parse_fields_present s o f v). rewrite Hpf. simpl. tauto.
Qed.

Lemma partial_names (s : ZodObject) :
  map zf_name (partial s) = map zf_name s.
Proof.
  unfold partial. rewrite map_map. reflexivity.
Qed.

Lemma insertProjectSchema_NoDup : NoDup (map zf_name insertProjectSchema).
Proof.
  vm_compute. repeat (constructor; [simpl; intuition discriminate |]).
  constructor.
Qed.

Lemma filter_other_id (id id' : Z) (l : list Row) :
  id' <> id ->
  filter (has_id id') (filter (fun r => negb (has_id id r)) l)
  = filter (has_id id') l.
Proof.
  intros Hne.
  induction l as [| r l IH]; simpl; [reflexivity |].
  destruct (has_id id r) eqn:Hr; simpl.
  - destruct (has_id id' r) eqn:Hr'; [| exact IH].
    exfalso. apply Hne. exact (has_id_unique id' id r Hr' Hr).
  - destruct (has_id id' r); [f_equal |]; exact IH.
Qed.

Lemma filter_updated (n : Z) (bound : Row) (l : list Row) :
  (forall r, has_id n (spread r bound) = has_id n r) ->
  filter (has_id n)
         (map (fun r => if has_id n r then spread r bound else r) l)
  = map (fun r => spread r bound) (filter (has_id n) l).
Proof.
  intros Hsame.
  induction l as [| r l IH]; simpl; [reflexivity |].
  destruct (has_id n r) eqn:Hr; simpl.
  - rewrite Hsame, Hr. simpl. f_equal. exact IH.
  - rewrite Hr. exact IH.
Qed.

Section ChangeProject.

Context {E : Engine} {B : Bcrypt}.

Lemma delete_project_204 (ev : Env) (req : Request)
    (session session' : Session) (st st' : Store) (answer : Response) :
  app delete_project ev req session st = (answer, session', st') ->
  status answer = 204 ->
  exists n, params_id req = Some n /\ int4 n = true /\
            st' = with_projects
                    (table (filter (fun r => negb (has_id n r))
                                   (rows (tb_projects st)))
                           (next_id (tb_projects st))) st.
Proof.
  intros Happ H204.
  destruct (app_inv _ _ _ _ _ _ Happ) as [(a & Hm & Hres) | [_ Hh]].
  - injection Hres as <- _ _.
    destruct (middleware_status _ _ _ Hm) as [H | H]; rewrite H in H204;
      discriminate.
  - simpl in Hh. unfold remove_project, deleteProject in Hh.
    destruct (db_delete (params_id req) (tb_projects st)) as [r tb] eqn:Hd.
    generalize (db_delete_inv _ _ _ _ Hd).
    destruct r as [e | []]; injection Hh as <- _ <-; [discriminate |].
    intros (n & Hn & Hint & ->). exists n. tauto.
Qed.

(** X4: after [DELETE /api/projects/:id] has answered 204, reading that id
    answers 404, every other id reads as before, and the other tables are
    untouched: rows that refer to the project stay. *)
Theorem get_after_delete_project (ev : Env) (req : Request)
    (session session' : Session) (st st' : Store) (answer : Response)
    (id : Z) :
  app delete_project ev req session st = (answer, session', st') ->
  status answer = 204 ->
  params_id req = Some id ->
  (forall ev' req' u,
     params_id req' = Some id ->
     includes ["admin"; "user"; "superviseur"] (field "role" u) = true ->
     app get_project ev' req' (Some u) st'
     = (message 404 "Project not found", Some u, st')) /\
  (forall id', id' <> id ->
               getProject (Some id') st' = getProject (Some id') st) /\
  tb_projectPartners st' = tb_projectPartners st /\
  tb_conventionProjects st' = tb_conventionProjects st /\
  tb_financialAdvances st' = tb_financialAdvances st.
Proof.
  intros Happ H204 Hid.
  destruct (delete_project_204 _ _ _ _ _ _ _ Happ H204)
    as (n & Hn & Hint & ->).
  rewrite Hid in Hn. injection Hn as <-.
  split; [| split].
  - intros ev' req' u Hid' Hrole.
    rewrite app_next by exact (canRead_next u Hrole).
    simpl handler. unfold read_project, getProject, db_select_id.
    rewrite Hid'. simpl bind_id. rewrite Hint. simpl.
    rewrite filter_none; [reflexivity |].
    intros o Ho. apply filter_In in Ho. destruct Ho as [_ Ho].
    destruct (has_id id o); [discriminate | reflexivity].
  - intros id' Hne. unfold getProject, db_select_id. simpl.
    destruct (int4 id'); [| reflexivity].
    rewrite (filter_other_id id id' _ Hne). reflexivity.
  - repeat split; reflexivity.
Qed.


Lemma put_project_200 (ev : Env) (req : Request)
    (session session' : Session) (st st' : Store) (answer : Response)
    (row : Row) :
  app put_project ev req session st = (answer, session', st') ->
  answer = json 200 (JObj row) ->
  exists p,
    parse (partial insertProjectSchema) (body req) = inr p /\
    updateProject ev (params_id req) p st = (inr (Some row), st') /\
    session' = session.
Proof.
  intros Happ ->.
  destruct (app_inv _ _ _ _ _ _ Happ) as [(a & Hm & Hres) | [_ Hh]].
  - injection Hres as <- _ _.
    destruct (middleware_status _ _ _ Hm) as [H | H]; discriminate H.
  - simpl in Hh. unfold update_project in Hh.
    destruct (parse (partial insertProjectSchema) (body req)) as [i | p];
      [discriminate Hh |].
    destruct (updateProject ev (params_id req) p st) as [[e | [r |]] st0]
      eqn:Hu; try discriminate Hh.
    injection Hh as -> <- <-. exists p. tauto.
Qed.

Lemma updateProject_inv (ev : Env) (id : option Z) (p : Row) (st st' : Store)
    (row : Row) :
  updateProject ev id p st = (inr (Some row), st') ->
  exists bound n old rest,
    bind projects (set_field "updatedAt" (JTime (now ev)) p) = inr bound /\
    id = Some n /\ int4 n = true /\
    filter (has_id n) (rows (tb_projects st)) = old :: rest /\
    row = spread old bound /\
    st' = with_projects
            (table (map (fun r => if has_id n r then spread r bound else r)
                        (rows (tb_projects st)))
                   (next_id (tb_projects st))) st.
Proof.
  unfold updateProject.
  destruct (db_update projects _ id (tb_projects st)) as [r tb] eqn:Hu.
  destruct r as [e | returned]; simpl; [discriminate |].
  intros H. injection H as Hfirst <-.
  destruct (db_update_inv _ _ _ _ _ _ Hu)
    as (bound & n & Hb & -> & Hint & Hrows & Hnext & ->).
  destruct (filter (has_id n) (rows (tb_projects st))) as [| old rest] eqn:Hf;
    [discriminate Hfirst |].
  simpl in Hfirst. injection Hfirst as <-.
  exists bound, n, old, rest. repeat split; try assumption; try reflexivity.
  destruct tb as [rows' next']. simpl in Hrows, Hnext. subst. reflexivity.
Qed.

(** X5: when [PUT /api/projects/:id] answers with a project, that project
    is a row that had this id, rewritten: it keeps its id and createdAt
    whatever the body says, updatedAt is the clock reading, a text column
    the body gives holds the given string, a column the body leaves out
    keeps its value; the table keeps its length. *)
Theorem put_project_rewrites_row (ev : Env) (req : Request)
    (session session' : Session) (st st' : Store) (answer : Response)
    (id : Z) (row : Row) :
  app put_project ev req session st = (answer, session', st') ->
  answer = json 200 (JObj row) ->
  params_id req = Some id ->
  exists old,
    In old (rows (tb_projects st)) /\ has_id id old = true /\
    col "id" row = col "id" old /\
    col "createdAt" row = col "createdAt" old /\
    col "updatedAt" row = JTime (now ev) /\
    (forall k s, In k project_text_columns ->
                 field k (properties (body req)) = Some (JStr s) ->
                 col k row = JStr s) /\
    (forall k, field k (properties (body req)) = None -> k <> "updatedAt" ->
               col k row = col k old) /\
    List.length (rows (tb_projects st'))
    = List.length (rows (tb_projects st)).
Proof.
  intros Happ Hans Hid.
  destruct (put_project_200 _ _ _ _ _ _ _ _ Happ Hans) as (p & Hp & Hu & _).
  destruct (updateProject_inv _ _ _ _ _ _ Hu)
    as (bound & n & old & rest & Hb & Hn & _ & Hf & -> & ->).
  rewrite Hid in Hn. injection Hn as <-.
  assert (Hold : In old (rows (tb_projects st)) /\ has_id id old = true).
  { apply filter_In. rewrite Hf. left. reflexivity. }
  assert (Hnames : NoDup (map zf_name (partial insertProjectSchema))).
  { rewrite partial_names. exact insertProjectSchema_NoDup. }
  assert (Hndp : NoDup (keys p)) by exact (parse_NoDup _ _ _ Hnames Hp).
  assert (Hndb : NoDup (keys bound)).
  { apply (bind_NoDup projects _ bound Hb).
    apply NoDup_keys_set_field. exact Hndp. }
  assert (Hcol : forall k, col k (spread old bound)
                           = match field k bound with
                             | Some v => v
                             | None => col k old
                             end).
  { intros k. unfold col. rewrite (field_spread k bound old Hndb).
    destruct (field k bound); reflexivity. }
  assert (Hkeep : forall k, field k p = None -> k <> "updatedAt" ->
                            col k (spread old bound) = col k old).
  { intros k Hk Hne. rewrite Hcol.
    rewrite (bind_field_None projects _ bound k Hb); [reflexivity |].
    rewrite field_set_field_other by exact Hne. exact Hk. }
  assert (Hschema : forall k v, field k p = Some v ->
                      field k (properties (body req)) = Some v /\
                      In k (map zf_name insertProjectSchema)).
  { intros k v Hk. rewrite <- partial_names.
    exact (parse_field _ _ _ _ _ Hp Hk). }
  assert (Hno : forall k, k = "id" \/ k = "createdAt" -> field k p = None).
  { intros k Hk. destruct (field k p) as [v |] eqn:Hkp; [| reflexivity].
    destruct (Hschema k v Hkp) as [_ Hin]. exfalso. vm_compute in Hin.
    destruct Hk as [-> | ->]; intuition discriminate. }
  exists old. repeat split.
  - tauto.
  - tauto.
  - apply Hkeep; [apply Hno; tauto | discriminate].
  - apply Hkeep; [apply Hno; tauto | discriminate].
  - rewrite Hcol.
    destruct (@bind_field _ projects _ bound "updatedAt" (JTime (now ev))
                (column "updatedAt" timestamp false defaultNow false) Hb
                (field_set_field "updatedAt" (JTime (now ev)) p) eq_refl)
      as (v' & Hconv & Hfb).
    simpl in Hconv. injection Hconv as <-. rewrite Hfb. reflexivity.
  - intros k s Hk Hbody.
    assert (Hin : In k (map zf_name (partial insertProjectSchema))).
    { rewrite partial_names. vm_compute. simpl in Hk. tauto. }
    generalize (parse_present _ _ _ k (JStr s) Hnames Hp Hin Hbody).
    intros Hkp.
    assert (Hne : k <> "updatedAt").
    { simpl in Hk. intros ->. intuition discriminate. }
    assert (Hset : field k (set_field "updatedAt" (JTime (now ev)) p)
                   = Some (JStr s)).
    { rewrite field_set_field_other by exact Hne. exact Hkp. }
    rewrite Hcol.
    simpl in Hk.
    destruct Hk as [<- | [<- | [<- | [<- | [<- | [<- | [<- | []]]]]]]];
      [ destruct (@bind_field _ projects _ bound _ _
                    (column "identifier" varchar true noDefault true)
                    Hb Hset eq_refl) as (v' & Hconv & Hfb)
      | destruct (@bind_field _ projects _ bound _ _
                    (column "title" text true noDefault false)
                    Hb Hset eq_refl) as (v' & Hconv & Hfb)
      | destruct (@bind_field _ projects _ bound _ _
                    (column "axis" varchar true noDefault false)
                    Hb Hset eq_refl) as (v' & Hconv & Hfb)
      | destruct (@bind_field _ projects _ bound _ _
                    (column "domain" varchar true noDefault false)
                    Hb Hset eq_refl) as (v' & Hconv & Hfb)
      | destruct (@bind_field _ projects _ bound _ _
                    (column "region" varchar true noDefault false)
                    Hb Hset eq_refl) as (v' & Hconv & Hfb)
      | destruct (@bind_field _ projects _ bound _ _
                    (column "province" varchar true noDefault false)
                    Hb Hset eq_refl) as (v' & Hconv & Hfb)
      | destruct (@bind_field _ projects _ bound _ _
                    (column "commune" varchar true noDefault false)
                    Hb Hset eq_refl) as (v' & Hconv & Hfb) ];
      simpl in Hconv; injection Hconv as <-; rewrite Hfb; reflexivity.
  - intros k Hbody Hne. apply Hkeep; [| exact Hne].
    destruct (field k p) as [v |] eqn:Hkp; [| reflexivity].
    destruct (Hschema k v Hkp) as [Hin _]. congruence.
  - simpl. apply length_map.
Qed.

(** X6: a project just updated reads back as the update answered it. *)
Theorem get_after_put_project (ev ev' : Env) (req req' : Request)
    (session session' : Session) (u : Row) (st st' : Store)
    (answer : Response) (id : Z) (row : Row) :
  app put_project ev req session st = (answer, session', st') ->
  answer = json 200 (JObj row) ->
  params_id req = Some id ->
  params_id req' = Some id ->
  includes ["admin"; "user"; "superviseur"] (field "role" u) = true ->
  app get_project ev' req' (Some u) st'
  = (json 200 (JObj row), Some u, st').
Proof.
  intros Happ Hans Hid Hid' Hrole.
  destruct (put_project_200 _ _ _ _ _ _ _ _ Happ Hans) as (p & Hp & Hu & _).
  destruct (updateProject_inv _ _ _ _ _ _ Hu)
    as (bound & n & old & rest & Hb & Hn & Hint & Hf & -> & ->).
  rewrite Hid in Hn. injection Hn as <-.
  assert (Hnames : NoDup (map zf_name (partial insertProjectSchema))).
  { rewrite partial_names. exact insertProjectSchema_NoDup. }
  assert (Hndb : NoDup (keys bound)).
  { apply (bind_NoDup projects _ bound Hb).
    apply NoDup_keys_set_field. exact (parse_NoDup _ _ _ Hnames Hp). }
  assert (Hidb : field "id" bound = None).
  { apply (bind_field_None projects _ bound "id" Hb).
    rewrite field_set_field_other by discriminate.
    destruct (field "id" p) as [v |] eqn:Hkp; [| reflexivity].
    destruct (parse_field _ _ _ _ _ Hp Hkp) as [_ Hin].
    exfalso. rewrite partial_names in Hin. vm_compute in Hin.
    intuition discriminate. }
  assert (Hsame : forall r, has_id id (spread r bound) = has_id id r).
  { intros r. unfold has_id, col.
    rewrite (field_spread "id" bound r Hndb), Hidb. reflexivity. }
  rewrite app_next by exact (canRead_next u Hrole).
  simpl handler. unfold read_project, getProject, db_select_id.
  rewrite Hid'. simpl bind_id. rewrite Hint. simpl.
  rewrite (filter_updated id bound _ Hsame), Hf. reflexivity.
Qed.

End ChangeProject.

(** ** Requests that fail *)

Section FailedRequests.

Context {E : Engine} {B : Bcrypt}.

Ltac insert_error :=
  match goal with
  | H : (let (_, _) := db_insert ?t ?n ?v ?tb in _) = _ |- _ =>
      let r := fresh "r" in
      let tb' := fresh "tb" in
      let Hi := fresh "Hi" in
      destruct (db_insert t n v tb) as [r tb'] eqn:Hi;
      injection H as -> <-;
      apply db_insert_error in Hi;
      unfold contents; simpl; rewrite Hi; reflexivity
  end.

Lemma create_with_error (schema : ZodObject) (input : Json)
    (create : Row -> Store -> Result Row * Store) (view : Row -> Json)
    (bad failed : string) (session session' : Session) (st st' : Store)
    (answer : Response) :
  (forall data e st0, create data st = (inl e, st0) ->
                      contents st0 = contents st) ->
  create_with schema input create view bad failed session st
  = (answer, session', st') ->
  400 <= status answer ->
  contents st' = contents st.
Proof.
  intros Hcreate. unfold create_with.
  destruct (parse schema input) as [issues | data];
    [intros H; injection H as _ _ <-; reflexivity |].
  destruct (create data st) as [[e | created] st0] eqn:Hc;
    intros H; injection H as <- _ <-; simpl.
  - intros _. exact (Hcreate data e st0 Hc).
  - lia.
Qed.

Lemma update_error (t : pgTable) (values : Row) (id : option Z) (tb : Table)
    (wrap : Table -> Store) (st st' : Store) (e : Exception) :
  wrap tb = st ->
  (let (r, tb') := db_update t values id tb in lift_first (r, wrap tb'))
  = (inl e, st') ->
  st' = st.
Proof.
  intros Hwrap.
  destruct (db_update t values id tb) as [[e' | l] tb'] eqn:Hu; simpl;
    intros H; [| discriminate H].
  injection H as _ <-. apply db_update_error in Hu. subst. reflexivity.
Qed.

Lemma delete_error (id : option Z) (tb : Table) (wrap : Table -> Store)
    (st st' : Store) (e : Exception) :
  wrap tb = st ->
  (let (r, tb') := db_delete id tb in (r, wrap tb')) = (inl e, st') ->
  st' = st.
Proof.
  intros Hwrap.
  destruct (db_delete id tb) as [r tb'] eqn:Hd.
  intros H. injection H as -> <-.
  generalize (db_delete_inv _ _ _ _ Hd). simpl. intros ->. exact Hwrap.
Qed.

(** X7: a request that is answered with an error status (400 and above)
    leaves the rows of every table as they were, on every route whose
    storage method is in [storage.ts]. *)
Theorem error_answers_keep_rows (r : Route) (ev : Env) (req : Request)
    (session session' : Session) (st st' : Store) (answer : Response) :
  modelled_from_spec r = false ->
  app r ev req session st = (answer, session', st') ->
  400 <= status answer ->
  contents st' = contents st.
Proof.
  intros Hr Happ Hstatus.
  destruct (app_inv _ _ _ _ _ _ Happ) as [(a & _ & Hres) | [_ Hh]];
    [injection Hres as _ _ <-; reflexivity |].
  clear Happ.
  destruct r; try discriminate Hr; simpl in Hh.
  - (* login *)
    unfold auth_login in Hh.
    repeat match type of Hh with
           | context [if ?b then _ else _] => destruct b
           | context [match ?x with _ => _ end] => destruct x
           end; injection Hh as _ _ <-; reflexivity.
  - injection Hh as _ _ <-; reflexivity.
  - unfold auth_user in Hh. destruct session;
      injection Hh as _ _ <-; reflexivity.
  - injection Hh as _ _ <-; reflexivity.
  - unfold read_project in Hh.
    destruct (getProject _ _) as [e | [p |]];
      injection Hh as _ _ <-; reflexivity.
  - refine (create_with_error _ _ _ _ _ _ _ _ _ _ _ _ Hh Hstatus).
    intros data e st0 H. unfold createProject in H. insert_error.
  - unfold update_project in Hh.
    destruct (parse _ _) as [i | p];
      [injection Hh as _ _ <-; reflexivity |].
    destruct (updateProject ev (params_id req) p st) as [[e | [row |]] st0]
      eqn:Hu; injection Hh as <- _ <-; simpl in Hstatus; try lia.
    unfold updateProject in Hu.
    rewrite (update_error projects _ _ (tb_projects st) (fun tb => with_projects tb st) st st0 e
               ltac:(destruct st; reflexivity) Hu).
    reflexivity.
  - unfold remove_project in Hh.
    destruct (deleteProject (params_id req) st) as [[e | []] st0] eqn:Hd;
      injection Hh as <- _ <-; simpl in Hstatus; try lia.
    unfold deleteProject in Hd.
    rewrite (delete_error _ (tb_projects st) (fun tb => with_projects tb st) st st0 e
               ltac:(destruct st; reflexivity) Hd).
    reflexivity.
  - injection Hh as _ _ <-; reflexivity.
  - unfold read_convention in Hh.
    destruct (getConvention _ _) as [e | [p |]];
      injection Hh as _ _ <-; reflexivity.
  - refine (create_with_error _ _ _ _ _ _ _ _ _ _ _ _ Hh Hstatus).
    intros data e st0 H. unfold createConvention in H. insert_error.
  - unfold update_convention in Hh.
    destruct (parse _ _) as [i | p];
      [injection Hh as _ _ <-; reflexivity |].
    destruct (updateConvention ev (params_id req) p st)
      as [[e | [row |]] st0] eqn:Hu;
      injection Hh as <- _ <-; simpl in Hstatus; try lia.
    unfold updateConvention in Hu.
    rewrite (update_error conventions _ _ (tb_conventions st) (fun tb => with_conventions tb st) st st0 e
               ltac:(destruct st; reflexivity) Hu).
    reflexivity.
  - unfold remove_convention in Hh.
    destruct (deleteConvention (params_id req) st) as [[e | []] st0] eqn:Hd;
      injection Hh as <- _ <-; simpl in Hstatus; try lia.
    unfold deleteConvention in Hd.
    rewrite (delete_error _ (tb_conventions st) (fun tb => with_conventions tb st) st st0 e
               ltac:(destruct st; reflexivity) Hd).
    reflexivity.
  - injection Hh as _ _ <-; reflexivity.
  - refine (create_with_error _ _ _ _ _ _ _ _ _ _ _ _ Hh Hstatus).
    intros data e st0 H. unfold createPartner in H. insert_error.
  - unfold list_project_partners in Hh.
    destruct (getProjectPartners _ _);
      injection Hh as _ _ <-; reflexivity.
  - refine (create_with_error _ _ _ _ _ _ _ _ _ _ _ _ Hh Hstatus).
    intros data e st0 H. unfold createProjectPartner in H. insert_error.
  - unfold list_convention_projects in Hh.
    destruct (getConventionProjects _ _);
      injection Hh as _ _ <-; reflexivity.
  - refine (create_with_error _ _ _ _ _ _ _ _ _ _ _ _ Hh Hstatus).
    intros data e st0 H. unfold createConventionProject in H. insert_error.
  - refine (create_with_error _ _ _ _ _ _ _ _ _ _ _ _ Hh Hstatus).
    intros data e st0 H. unfold createLocalUser in H.
    destruct (field "password" data) as [[| | | | pw | | | | |] |];
      try (injection H as _ <-; reflexivity).
    insert_error.
  - unfold list_financial_advances in Hh.
    destruct (getFinancialAdvances _ _);
      injection Hh as _ _ <-; reflexivity.
  - refine (create_with_error _ _ _ _ _ _ _ _ _ _ _ _ Hh Hstatus).
    intros data e st0 H. unfold createFinancialAdvance in H. insert_error.
Qed.

(** X8: a principal whose role is none of admin, user and superviseur
    (or who has no role) is answered 403 on every route registered with
    [requireRole], and the store is not touched. *)
Theorem unlisted_role_forbidden (r : Route) (ev : Env) (req : Request)
    (u : Row) (st : Store) :
  requires_role r = true ->
  includes ["admin"; "user"; "superviseur"] (field "role" u) = false ->
  app r ev req (Some u) st
  = (message 403 "Insufficient permissions", Some u, st).
Proof.
  intros Hr Hrole.
  assert (Hw : includes ["admin"; "user"] (field "role" u) = false).
  { unfold includes in *. destruct (field "role" u) as [[| | | | s | | | | |] |];
      try reflexivity. simpl in *.
    destruct (String.eqb s "admin"); [discriminate |].
    destruct (String.eqb s "user"); [discriminate | reflexivity]. }
  assert (Ha : includes ["admin"] (field "role" u) = false).
  { unfold includes in *. destruct (field "role" u) as [[| | | | s | | | | |] |];
      try reflexivity. simpl in *.
    destruct (String.eqb s "admin"); [discriminate | reflexivity]. }
  destruct r; try discriminate Hr; unfold app; simpl;
    unfold canRead, canWrite, canManageUsers, requireRole;
    rewrite ?Hrole, ?Hw, ?Ha; reflexivity.
Qed.

End FailedRequests.

(** ** Listings *)

Lemma same_key_true (a b : Json) :
  same_key a b = true <-> a = b /\ keyed a = true.
Proof.
  destruct a, b; simpl; split; try discriminate; try tauto;
    try (intros [H _]; discriminate H).
  - intros H. apply Z.eqb_eq in H. subst. tauto.
  - intros [H _]. injection H as ->. apply Z.eqb_refl.
  - intros H. apply String.eqb_eq in H. subst. tauto.
  - intros [H _]. injection H as ->. apply String.eqb_refl.
Qed.

Section Listings.

Context {E : Engine}.

Lemma getProjects_query (search sortBy sortOrder : option string)
    (st : Store) :
  exists column,
    getProjects search sortBy sortOrder st =
    order_by ((if String.eqb (match sortOrder with
                              | Some o => o
                              | None => "asc"
                              end) "desc"
               then desc else asc) column)
             (selected search st) /\
    (forall sb, sortBy = Some sb -> In sb whitelist -> column = sb).
Proof.
  assert (Hq : (match search with
                | Some s =>
                    if truthy_string search
                    then filter (like "title"
                                   (String.append "%" (String.append s "%")))
                                (rows (tb_projects st))
                    else rows (tb_projects st)
                | None => rows (tb_projects st)
                end) = selected search st).
  { unfold selected. destruct search; reflexivity. }
  unfold getProjects. rewrite Hq.
  destruct sortBy as [sb |]; [| exists "createdAt"; split;
                                 [reflexivity | discriminate]].
  destruct (truthy_string (Some sb)) eqn:Ht.
  - destruct (String.eqb sb "identifier") eqn:H1;
      [exists "identifier" | destruct (String.eqb sb "title") eqn:H2;
      [exists "title" | destruct (String.eqb sb "axis") eqn:H3;
      [exists "axis" | destruct (String.eqb sb "domain") eqn:H4;
      [exists "domain" | destruct (String.eqb sb "budget") eqn:H5;
      [exists "budget" | exists "createdAt"]]]]];
      (split; [reflexivity |]); intros sb' Hsb Hin;
      injection Hsb as <-;
      repeat match goal with
             | H : String.eqb _ _ = true |- _ => apply String.eqb_eq in H
             | H : String.eqb _ _ = false |- _ => apply String.eqb_neq in H
             end;
      try (symmetry; assumption);
      simpl in Hin; exfalso; intuition congruence.
  - exists "createdAt". split; [reflexivity |].
    intros sb' Hsb Hin. injection Hsb as <-.
    simpl in Ht. destruct (String.eqb sb "") eqn:He; [| discriminate Ht].
    apply String.eqb_eq in He. subst sb. simpl in Hin.
    exfalso. intuition discriminate.
Qed.



(** X11: conventions are listed newest first and partners by name, each
    table in full. *)
Theorem conventions_and_partners_listings (st : Store) :
  ordered (desc "createdAt") (getConventions st) /\
  Permutation (rows (tb_conventions st)) (getConventions st) /\
  ordered (asc "name") (getPartners st) /\
  Permutation (rows (tb_partners st)) (getPartners st).
Proof.
  unfold getConventions, getPartners. repeat split.
  - apply order_by_desc.
  - apply order_by_perm.
  - apply order_by_asc.
  - apply order_by_perm.
Qed.

Lemma where_eq_In (name : string) (n : Z) (l : list Row) (r : Row) :
  In r (where_eq name n l) <-> In r l /\ col name r = JNum n.
Proof.
  unfold where_eq. rewrite filter_In. unfold same_key.
  split; intros [H1 H2]; split; try exact H1.
  - destruct (col name r); try discriminate.
    apply Z.eqb_eq in H2. congruence.
  - rewrite H2. apply Z.eqb_refl.
Qed.

(** X12: [getFinancialAdvances] returns the advances of the project and no
    other, each once, latest reference date first; an id that is not a
    32-bit integer makes it throw. *)
Theorem getFinancialAdvances_of_project (projectId : option Z) (st : Store) :
  match getFinancialAdvances projectId st with
  | inr l =>
      exists n, projectId = Some n /\ int4 n = true /\
        ordered (desc "referenceDate") l /\
        Permutation (where_eq "projectId" n (rows (tb_financialAdvances st)))
                    l /\
        (forall r, In r l <->
                   In r (rows (tb_financialAdvances st)) /\
                   col "projectId" r = JNum n)
  | inl _ => projectId = None \/ exists n, projectId = Some n /\ int4 n = false
  end.
Proof.
  unfold getFinancialAdvances, bind_id.
  destruct projectId as [n |]; [| left; reflexivity].
  destruct (int4 n) eqn:Hn; [| right; exists n; tauto].
  exists n.
  split; [reflexivity |]. split; [exact Hn |].
  split; [apply order_by_desc |]. split; [apply order_by_perm |].
  intros r. rewrite <- where_eq_In. split; intros H.
  - apply (Permutation_in r (Permutation_sym (order_by_perm _ _)) H).
  - apply (Permutation_in r (order_by_perm _ _) H).
Qed.

Lemma leftJoin_In (key as_ : string) (right left : list Row) (row : Row) :
  In row (leftJoin key as_ right left) <->
  exists l, In l left /\
    ((forall r, In r right -> same_key (col key l) (col "id" r) = false) /\
     row = set_field as_ JNull l
     \/ exists r, In r right /\ same_key (col key l) (col "id" r) = true /\
                  row = set_field as_ (JObj r) l).
Proof.
  unfold leftJoin. rewrite in_flat_map.
  split; intros (l & Hl & H); exists l; (split; [exact Hl |]).
  - destruct (filter _ right) as [| r0 matches] eqn:Hf.
    + left. destruct H as [<- | []]. split; [| reflexivity].
      intros r Hr. destruct (same_key (col key l) (col "id" r)) eqn:Hk;
        [| reflexivity].
      assert (Hin : In r (filter (fun r => same_key (col key l) (col "id" r))
                                 right)) by (apply filter_In; tauto).
      rewrite Hf in Hin. destruct Hin.
    + right. apply in_map_iff in H. destruct H as (r & <- & Hr).
      rewrite <- Hf in Hr. apply filter_In in Hr. exists r. tauto.
  - destruct H as [[Hnone ->] | (r & Hr & Hk & ->)].
    + rewrite filter_none by exact Hnone. left. reflexivity.
    + assert (Hin : In r (filter (fun r => same_key (col key l) (col "id" r))
                                 right)) by (apply filter_In; tauto).
      destruct (filter _ right) as [| r0 matches]; [destruct Hin |].
      apply in_map_iff. exists r. tauto.
Qed.

Lemma existsb_filter_nil (A : Type) (f : A -> bool) (l : list A) :
  existsb f l = false <-> filter f l = [].
Proof.
  induction l as [| a l IH]; simpl; [tauto |].
  destruct (f a); simpl; [split; discriminate | exact IH].
Qed.

Lemma filter_pairs (A B : Type) (f : A * B -> bool) (a : A) (l : list B) :
  filter f (map (pair a) l) = map (pair a) (filter (fun b => f (a, b)) l).
Proof.
  induction l as [| b l IH]; simpl; [reflexivity |].
  destruct (f (a, b)); simpl; rewrite IH; reflexivity.
Qed.

(** A [leftJoin] holds, in some order, the pairs that match and the left
    rows that match nothing. *)
Lemma leftJoin_pairs (key as_ : string) (right left : list Row) :
  Permutation
    (leftJoin key as_ right left)
    (map (fun lr => set_field as_ (JObj (snd lr)) (fst lr))
         (filter (fun lr => same_key (col key (fst lr)) (col "id" (snd lr)))
                 (list_prod left right))
     ++ map (set_field as_ JNull)
            (filter (fun l =>
                       negb (existsb (fun r => same_key (col key l)
                                                        (col "id" r)) right))
                    left)).
Proof.
  induction left as [| l left IH]; simpl; [constructor |].
  rewrite filter_app, map_app, filter_pairs, map_map. simpl.
  rewrite <- app_assoc.
  destruct (filter (fun r => same_key (col key l) (col "id" r)) right)
    as [| r matches] eqn:Hf.
  - rewrite (proj2 (existsb_filter_nil _ _ _) Hf). simpl.
    apply Permutation_cons_app. exact IH.
  - assert (Hex : existsb (fun r => same_key (col key l) (col "id" r)) right
                  = true).
    { destruct (existsb _ right) eqn:Hex; [reflexivity |].
      apply (proj1 (existsb_filter_nil _ _ _)) in Hex. congruence. }
    rewrite Hex. simpl. apply perm_skip.
    apply Permutation_app_head. exact IH.
Qed.

Lemma one_match (name : string) (v : Json) (l : list Row) :
  NoDup (key_values name l) ->
  (List.length (filter (fun r => same_key v (col name r)) l) <= 1)%nat.
Proof.
  induction l as [| r l IH]; simpl; intros Hnd; [lia |].
  unfold key_values in *. simpl in Hnd.
  destruct (same_key v (col name r)) eqn:Hk.
  - apply same_key_true in Hk. destruct Hk as [Hv Hk]. subst v.
    rewrite Hk in Hnd.
    inversion Hnd as [| ? ? Hout _]; subst.
    rewrite filter_none; [simpl; lia |].
    intros o Ho.
    destruct (same_key (col name r) (col name o)) eqn:Hko; [| reflexivity].
    exfalso. apply Hout. apply same_key_true in Hko.
    destruct Hko as [Hvo _]. apply filter_In. split; [| exact Hk].
    rewrite Hvo. apply in_map. exact Ho.
  - apply IH. destruct (keyed (col name r)); [| exact Hnd].
    inversion Hnd; assumption.
Qed.

Lemma leftJoin_length (key as_ : string) (right left : list Row) :
  NoDup (key_values "id" right) ->
  List.length (leftJoin key as_ right left) = List.length left.
Proof.
  intros Hnd. unfold leftJoin.
  induction left as [| l left IH]; [reflexivity |].
  cbn [flat_map]. rewrite length_app, IH.
  generalize (one_match "id" (col key l) right Hnd).
  destruct (filter _ right) as [| r [| r' matches]]; simpl; lia.
Qed.

(** X13: [getProjectPartners] is the left join of the ProjectPartners of
    the project with the Partner table.  Up to order, its result is made of
    one entry for each pair of a ProjectPartner of the project and a Partner
    with its partnerId, and one entry with [partner] null for each
    ProjectPartner of the project whose partnerId matches no Partner, each
    exactly once.  When the Partner ids are distinct, that is one entry for
    each ProjectPartner of the project. *)
Theorem getProjectPartners_joins (n : Z) (st : Store) :
  int4 n = true ->
  exists l,
    getProjectPartners (Some n) st = inr l /\
    Permutation l
      (map (fun x => set_field "partner" (JObj (snd x)) (fst x))
           (filter (fun x => same_key (col "partnerId" (fst x))
                                      (col "id" (snd x)))
                   (list_prod
                      (where_eq "projectId" n (rows (tb_projectPartners st)))
                      (rows (tb_partners st))))
       ++ map (set_field "partner" JNull)
              (filter (fun pp =>
                         negb (existsb
                                 (fun p => same_key (col "partnerId" pp)
                                                    (col "id" p))
                                 (rows (tb_partners st))))
                      (where_eq "projectId" n
                                (rows (tb_projectPartners st))))) /\
    (forall row, In row l <->
       exists pp, In pp (rows (tb_projectPartners st)) /\
         col "projectId" pp = JNum n /\
         ((forall p, In p (rows (tb_partners st)) ->
                     same_key (col "partnerId" pp) (col "id" p) = false) /\
          row = set_field "partner" JNull pp
          \/ exists p, In p (rows (tb_partners st)) /\
               same_key (col "partnerId" pp) (col "id" p) = true /\
               row = set_field "partner" (JObj p) pp)) /\
    (NoDup (key_values "id" (rows (tb_partners st))) ->
     List.length l
     = List.length (where_eq "projectId" n (rows (tb_projectPartners st)))).
Proof.
  intros Hn. unfold getProjectPartners, bind_id. rewrite Hn.
  eexists. split; [reflexivity |].
  split; [apply leftJoin_pairs |].
  split; [| apply leftJoin_length].
  intros row. rewrite leftJoin_In.
  split; intros (pp & Hpp & H); exists pp.
  - apply where_eq_In in Hpp. tauto.
  - split; [apply where_eq_In; tauto | tauto].
Qed.

End Listings.

(** ** Request bodies *)

Lemma parse_unknown_key (s : ZodObject) (k : string) (v : Json) (o : Row) :
  ~ In k (map zf_name s) ->
  parse s (JObj (set_field k v o)) = parse s (JObj o).
Proof.
  intros Hk. unfold parse.
  assert (Hpf : parse_fields s (set_field k v o) = parse_fields s o).
  { induction s as [| f s IH]; simpl; [reflexivity |].
    rewrite IH by (intros H; apply Hk; right; exact H).
    rewrite field_set_field_other
      by (intros H; apply Hk; left; exact H).
    reflexivity. }
  rewrite Hpf. reflexivity.
Qed.

Lemma parse_fields_required (s : ZodObject) (input : Row) (f : ZodField) :
  In f s -> zf_optional f = false -> field (zf_name f) input = None ->
  In (zod_issue (zf_name f) "Required") (fst (parse_fields s input)).
Proof.
  induction s as [| f0 s IH]; simpl; intros Hin Hopt Hnone; [tauto |].
  destruct (parse_fields s input) as [issues out]. simpl in IH.
  destruct Hin as [-> | Hin].
  - rewrite Hnone, Hopt. left. reflexivity.
  - specialize (IH Hin Hopt Hnone).
    destruct (field (zf_name f0) input) as [v0 |].
    + destruct v0;
        [ destruct (zf_nullable f0)
        | destruct (zod_accepts (zf_type f0) _) .. ];
        simpl; tauto.
    + destruct (zf_optional f0); simpl; tauto.
Qed.

Ltac nodup_strings :=
  repeat (constructor; [simpl; intuition discriminate |]); constructor.

Section Bodies.

Context {E : Engine} {B : Bcrypt}.

(** X14: [POST /api/projects] with a body that lacks one of the eight
    required fields is answered 400 with a "Required" issue for that field,
    and the store is not touched. *)
Theorem post_projects_missing_field (ev : Env) (req : Request) (u : Row)
    (o : Row) (k : string) (st : Store) :
  includes ["admin"; "user"] (field "role" u) = true ->
  body req = JObj o ->
  In k ("budget" :: project_text_columns) ->
  field k o = None ->
  exists issues,
    In (zod_issue k "Required") issues /\
    app post_projects ev req (Some u) st
    = (invalid "Invalid project data" issues, Some u, st).
Proof.
  intros Hrole Hbody Hk Hnone.
  rewrite app_next by exact (@canWrite_next u Hrole).
  simpl handler. unfold create_project, create_with, parse. rewrite Hbody.
  assert (Hreq : In (zod_issue k "Required")
                    (fst (parse_fields insertProjectSchema o))).
  { simpl in Hk.
    destruct Hk as [<- | [<- | [<- | [<- | [<- | [<- | [<- | [<- | []]]]]]]]];
      [ apply (parse_fields_required _ o (zod_field "budget" zString false false))
      | apply (parse_fields_required _ o (zod_field "identifier" zString false false))
      | apply (parse_fields_required _ o (zod_field "title" zString false false))
      | apply (parse_fields_required _ o (zod_field "axis" zString false false))
      | apply (parse_fields_required _ o (zod_field "domain" zString false false))
      | apply (parse_fields_required _ o (zod_field "region" zString false false))
      | apply (parse_fields_required _ o (zod_field "province" zString false false))
      | apply (parse_fields_required _ o (zod_field "commune" zString false false)) ];
      try reflexivity; try exact Hnone; vm_compute; auto 20. }
  destruct (parse_fields insertProjectSchema o) as [[| i issues] out];
    [destruct Hreq |].
  exists (i :: issues). split; [exact Hreq | reflexivity].
Qed.

(** X15: the convention form submits a [linkedProjects] field with its
    body; [POST /api/conventions] answers and changes the store exactly as
    if the field were not there, and it never writes a ConventionProject
    row. *)
Theorem post_conventions_ignores_linkedProjects (ev : Env) (id : option Z)
    (q : list (string * string)) (o : Row) (v : Json) (session : Session)
    (st : Store) :
  app post_conventions ev
      (request id q (JObj (set_field "linkedProjects" v o))) session st
  = app post_conventions ev (request id q (JObj o)) session st /\
  tb_conventionProjects
    (snd (app post_conventions ev
              (request id q (JObj (set_field "linkedProjects" v o)))
              session st))
  = tb_conventionProjects st.
Proof.
  assert (Hsame : app post_conventions ev
                    (request id q (JObj (set_field "linkedProjects" v o)))
                    session st
                  = app post_conventions ev (request id q (JObj o))
                        session st).
  { unfold app. destruct (middleware post_conventions session);
      [reflexivity |].
    simpl. unfold create_convention, create_with. simpl body.
    rewrite parse_unknown_key; [reflexivity |].
    vm_compute. intuition discriminate. }
  split; [exact Hsame |]. rewrite Hsame.
  unfold app. destruct (middleware post_conventions session);
    [reflexivity |].
  simpl. unfold create_convention, create_with.
  destruct (parse _ _); [reflexivity |].
  unfold createConvention.
  destruct (db_insert _ _ _ _) as [[e | r0] tb]; reflexivity.
Qed.

Lemma junction_key (t : pgTable) (schema : ZodObject) (key : string)
    (c : Column) (ev : Env) (id : option Z) (props data : Row)
    (tb tb' : Table) (created : Row) :
  NoDup (map zf_name schema) -> NoDup (map col_name t) ->
  In key (map zf_name schema) -> In c t -> col_name c = key ->
  col_type c = integer ->
  find (fun c0 => String.eqb (col_name c0) key) t = Some c ->
  col_notNull c = true ->
  parse schema (JObj (set_field key (id_value id) props)) = inr data ->
  db_insert t (now ev) data tb = (inr created, tb') ->
  exists n, id = Some n /\ col key created = JNum n.
Proof.
  intros Hnds Hndt Hks Hc Hname Hty Hfind Hnn Hp Hi.
  assert (Hd : field key data = Some (id_value id)).
  { apply (parse_present schema _ data key (id_value id) Hnds Hp Hks).
    simpl. apply field_set_field. }
  destruct (db_insert_inv _ _ _ _ _ _ Hi) as (bound & Hb & -> & _ & Hnull & _).
  destruct (@bind_field _ t data bound key (id_value id) c Hb Hd Hfind)
    as (v' & Hconv & Hfb).
  generalize (first_null_None _ _ c Hnull Hc Hnn).
  rewrite (col_new_row _ _ _ _ _ Hndt Hc), Hname, Hfb.
  unfold convert in Hconv. rewrite Hty in Hconv.
  destruct id as [n |]; simpl in Hconv.
  - destruct (int4 n); [| discriminate]. injection Hconv as <-.
    intros _. exists n. split; [reflexivity |].
    rewrite <- Hname, (col_new_row _ _ _ _ _ Hndt Hc), Hname, Hfb.
    reflexivity.
  - discriminate.
Qed.

(** X16: the row that [POST /api/projects/:id/partners] creates belongs to
    the project of the URL, the one [POST /api/conventions/:id/projects]
    creates to the convention of the URL and the one
    [POST /api/projects/:id/financial-advances] creates to the project of
    the URL, whatever projectId or conventionId the body carries. *)
Theorem junction_rows_take_url_id (ev : Env) (req : Request)
    (session session' : Session) (st st' : Store) (answer : Response) :
  status answer = 201 ->
  (app post_project_partners ev req session st = (answer, session', st') ->
   exists created n, answer = json 201 (JObj created) /\
     params_id req = Some n /\ col "projectId" created = JNum n) /\
  (app post_convention_projects ev req session st = (answer, session', st') ->
   exists created n, answer = json 201 (JObj created) /\
     params_id req = Some n /\ col "conventionId" created = JNum n) /\
  (app post_financial_advances ev req session st = (answer, session', st') ->
   exists created n, answer = json 201 (JObj created) /\
     params_id req = Some n /\ col "projectId" created = JNum n).
Proof.
  intros H201.
  assert (Hmw : forall r a, middleware r session = Some a ->
                            (a, session, st) <> (answer, session', st')).
  { intros r a Hm H. injection H as -> _ _.
    destruct (middleware_status _ _ _ Hm) as [H | H]; rewrite H in H201;
      discriminate. }
  split; [| split]; intros Happ;
    (destruct (app_inv _ _ _ _ _ _ Happ) as [(a & Hm & Hres) | [_ Hh]];
     [exfalso; symmetry in Hres; exact (Hmw _ a Hm Hres) |]);
    simpl in Hh;
    destruct (create_with_201 _ _ _ _ _ _ _ _ _ _ _ Hh H201)
      as (data & created & Hp & Hc & -> & _);
    exists created.
  - unfold createProjectPartner in Hc.
    destruct (db_insert projectPartners _ _ _) as [r tb] eqn:Hi.
    injection Hc as -> _.
    assert (Hs : NoDup (map zf_name insertProjectPartnerSchema))
      by (vm_compute; nodup_strings).
    assert (Ht : NoDup (map col_name projectPartners))
      by (vm_compute; nodup_strings).
    assert (Hk : In "projectId" (map zf_name insertProjectPartnerSchema))
      by (vm_compute; auto 20).
    assert (Hc : In (column "projectId" integer true noDefault false)
                    projectPartners) by (simpl; auto 20).
    destruct (junction_key projectPartners insertProjectPartnerSchema
                "projectId" (column "projectId" integer true noDefault false)
                ev (params_id req) (properties (body req)) data
                (tb_projectPartners st) tb created
                Hs Ht Hk Hc eq_refl eq_refl eq_refl eq_refl Hp Hi)
      as (n & Hn & Hcol).
    exists n. tauto.
  - unfold createConventionProject in Hc.
    destruct (db_insert conventionProjects _ _ _) as [r tb] eqn:Hi.
    injection Hc as -> _.
    assert (Hs : NoDup (map zf_name insertConventionProjectSchema))
      by (vm_compute; nodup_strings).
    assert (Ht : NoDup (map col_name conventionProjects))
      by (vm_compute; nodup_strings).
    assert (Hk : In "conventionId"
                    (map zf_name insertConventionProjectSchema))
      by (vm_compute; auto 20).
    assert (Hc : In (column "conventionId" integer true noDefault false)
                    conventionProjects) by (simpl; auto 20).
    destruct (junction_key conventionProjects insertConventionProjectSchema
                "conventionId"
                (column "conventionId" integer true noDefault false)
                ev (params_id req) (properties (body req)) data
                (tb_conventionProjects st) tb created
                Hs Ht Hk Hc eq_refl eq_refl eq_refl eq_refl Hp Hi)
      as (n & Hn & Hcol).
    exists n. tauto.
  - unfold createFinancialAdvance in Hc.
    destruct (db_insert financialAdvances _ _ _) as [r tb] eqn:Hi.
    injection Hc as -> _.
    assert (Hs : NoDup (map zf_name insertFinancialAdvanceSchema))
      by (vm_compute; nodup_strings).
    assert (Ht : NoDup (map col_name financialAdvances))
      by (vm_compute; nodup_strings).
    assert (Hk : In "projectId" (map zf_name insertFinancialAdvanceSchema))
      by (vm_compute; auto 20).
    assert (Hc : In (column "projectId" integer true noDefault false)
                    financialAdvances) by (simpl; auto 20).
    destruct (junction_key financialAdvances insertFinancialAdvanceSchema
                "projectId" (column "projectId" integer true noDefault false)
                ev (params_id req) (properties (body req)) data
                (tb_financialAdvances st) tb created
                Hs Ht Hk Hc eq_refl eq_refl eq_refl eq_refl Hp Hi)
      as (n & Hn & Hcol).
    exists n. tauto.
Qed.

End Bodies.

(** ** Accounts *)

Section Accounts.

Context {E : Engine} {B : Bcrypt}.



Lemma find_column (t : pgTable) (c : Column) :
  NoDup (map col_name t) -> In c t ->
  find (fun c0 => String.eqb (col_name c0) (col_name c)) t = Some c.
Proof.
  induction t as [| c0 t IH]; simpl; intros Hnd Hin; [destruct Hin |].
  inversion Hnd as [| ? ? Hout Hnd']; subst.
  destruct Hin as [-> | Hin]; [rewrite String.eqb_refl; reflexivity |].
  destruct (String.eqb (col_name c0) (col_name c)) eqn:Hk.
  - apply String.eqb_eq in Hk. exfalso. apply Hout. rewrite Hk.
    apply in_map. exact Hin.
  - exact (IH Hnd' Hin).
Qed.

(** An insert that gives a unique text column a string already in the
    table fails and writes no row. *)
Lemma db_insert_duplicate (t : pgTable) (now : Z) (values : Row) (tb : Table)
    (c : Column) (x : string) (o : Row) :
  NoDup (map col_name t) -> In c t -> col_unique c = true ->
  col_type c = varchar ->
  field (col_name c) values = Some (JStr x) ->
  In o (rows tb) -> col (col_name c) o = JStr x ->
  exists e tb', db_insert t now values tb = (inl e, tb') /\
                rows tb' = rows tb.
Proof.
  intros Hnd Hc Hu Hty Hv Ho Hox. unfold db_insert.
  destruct (bind t values) as [e | bound] eqn:Hb;
    [exists e, tb; tauto |].
  destruct (@bind_field _ t values bound (col_name c) (JStr x) c Hb Hv
              (find_column t c Hnd Hc)) as (v' & Hconv & Hfb).
  unfold convert in Hconv. rewrite Hty in Hconv. injection Hconv as <-.
  destruct (next_id tb <=? 2147483647);
    [| eexists _, _; split; reflexivity].
  set (r := new_row t now (next_id tb) bound).
  assert (Hr : col (col_name c) r = JStr x).
  { unfold r. rewrite (col_new_row _ _ _ _ _ Hnd Hc), Hfb. reflexivity. }
  assert (Hdup : first_duplicate t (rows tb) r <> None).
  { apply (@first_duplicate_found t c (rows tb) o r Hc Hu Ho).
    rewrite Hox, Hr. simpl. apply String.eqb_refl. }
  unfold check_row.
  destruct (first_null t r); [eexists _, _; split; reflexivity |].
  destruct (first_duplicate t (rows tb) r); [| congruence].
  eexists _, _. split; reflexivity.
Qed.

Lemma localUsers_NoDup : NoDup (map col_name localUsers).
Proof. simpl. nodup_strings. Qed.

(** X18: [POST /api/users] with a username that a LocalUser already has is
    answered 500 "Failed to create user" and writes no row. *)
Theorem post_users_duplicate_username (ev : Env) (req : Request) (u p : Row)
    (name : string) (o : Row) (st : Store) :
  includes ["admin"] (field "role" u) = true ->
  parse insertLocalUserSchema (body req) = inr p ->
  field "username" p = Some (JStr name) ->
  In o (rows (tb_localUsers st)) ->
  col "username" o = JStr name ->
  exists st',
    app post_users ev req (Some u) st
    = (message 500 "Failed to create user", Some u, st') /\
    contents st' = contents st.
Proof.
  intros Hrole Hp Hname Ho Hox.
  assert (Hnext : middleware post_users (Some u) = None).
  { simpl. unfold canManageUsers, requireRole. rewrite Hrole. reflexivity. }
  rewrite app_next by exact Hnext.
  simpl handler. unfold create_user, create_with. rewrite Hp.
  unfold createLocalUser.
  destruct (field "password" p) as [[| | | | pw | | | | |] |];
    try (exists st; split; reflexivity).
  destruct (db_insert_duplicate localUsers (now ev)
              (set_field "password" (JStr (bcrypt_hash pw 10 (salt ev))) p)
              (tb_localUsers st)
              (column "username" varchar true noDefault true) name o
              localUsers_NoDup) as (e & tb' & Hi & Hrows);
    try reflexivity; try assumption.
  - simpl. tauto.
  - simpl. rewrite field_set_field_other by discriminate. exact Hname.
  - rewrite Hi. eexists. split; [reflexivity |].
    unfold contents. simpl. rewrite Hrows. reflexivity.
Qed.

End Accounts.

(** ** Unique columns *)

Lemma key_values_app (name : string) (l1 l2 : list Row) :
  key_values name (l1 ++ l2) = key_values name l1 ++ key_values name l2.
Proof.
  unfold key_values. rewrite map_app, filter_app. reflexivity.
Qed.

Lemma key_values_In (name : string) (l : list Row) (v : Json) :
  In v (key_values name l) <->
  keyed v = true /\ exists o, In o l /\ col name o = v.
Proof.
  unfold key_values. rewrite filter_In, in_map_iff.
  split.
  - intros [(o & Ha & Hb) H2]. split; [exact H2 |]. exists o. tauto.
  - intros [H1 (o & Ha & Hb)]. split; [| exact H1]. exists o. tauto.
Qed.

Lemma fresh_key (t : pgTable) (c : Column) (others : list Row) (r : Row) :
  first_duplicate t others r = None ->
  In c t -> col_unique c = true ->
  ~ In (col (col_name c) r) (key_values (col_name c) others).
Proof.
  intros Hnone Hc Hu Hin.
  apply key_values_In in Hin. destruct Hin as (Hk & o & Ho & Heq).
  generalize (first_duplicate_None t c others o r Hnone Hc Hu Ho).
  rewrite Heq.
  assert (Ht : same_key (col (col_name c) r) (col (col_name c) r) = true)
    by (apply same_key_true; tauto).
  congruence.
Qed.

Lemma key_values_one (name : string) (r : Row) :
  key_values name [r] = if keyed (col name r) then [col name r] else [].
Proof. reflexivity. Qed.

(** Putting a checked row between two parts of a table keeps it unique. *)
Lemma unique_in_insert (t : pgTable) (before after : list Row) (r : Row) :
  unique_in t (before ++ after) ->
  first_duplicate t (before ++ after) r = None ->
  unique_in t (before ++ r :: after).
Proof.
  intros Hu Hnone c Hc Hcu.
  change (r :: after) with ([r] ++ after).
  rewrite !key_values_app, key_values_one.
  specialize (Hu c Hc Hcu). rewrite key_values_app in Hu.
  destruct (keyed (col (col_name c) r)); [| exact Hu].
  simpl. apply (Permutation_NoDup (Permutation_middle _ _ _)).
  constructor; [| exact Hu].
  rewrite <- key_values_app. exact (fresh_key t c _ r Hnone Hc Hcu).
Qed.

Lemma unique_in_remove (t : pgTable) (before after : list Row) (r : Row) :
  unique_in t (before ++ r :: after) -> unique_in t (before ++ after).
Proof.
  intros Hu c Hc Hcu. specialize (Hu c Hc Hcu).
  change (r :: after) with ([r] ++ after) in Hu.
  rewrite !key_values_app, key_values_one in Hu. rewrite key_values_app.
  destruct (keyed (col (col_name c) r)); [| exact Hu].
  exact (NoDup_remove_1 _ _ _ Hu).
Qed.

Lemma unique_in_filter (t : pgTable) (f : Row -> bool) (l : list Row) :
  unique_in t l -> unique_in t (filter f l).
Proof.
  intros Hu. induction l as [| r l IH]; simpl; [exact Hu |].
  assert (Hl : unique_in t l) by exact (unique_in_remove t [] l r Hu).
  destruct (f r); [| exact (IH Hl)].
  intros c Hc Hcu. generalize (Hu c Hc Hcu) (IH Hl c Hc Hcu).
  change (r :: l) with ([r] ++ l).
  change (r :: filter f l) with ([r] ++ filter f l).
  rewrite !key_values_app, key_values_one.
  destruct (keyed (col (col_name c) r)); [| tauto].
  simpl. intros H1 H2. inversion H1 as [| ? ? Hout _]; subst.
  constructor; [| exact H2].
  intros Hin. apply Hout.
  apply key_values_In in Hin. destruct Hin as (Hk & o & Ho & Heq).
  apply key_values_In. split; [exact Hk |]. exists o.
  apply filter_In in Ho. tauto.
Qed.

Section UniqueStatements.

Context {E : Engine}.

Lemma db_insert_unique (t : pgTable) (now : Z) (values : Row) (tb : Table) :
  unique_in t (rows tb) ->
  unique_in t (rows (snd (db_insert t now values tb))).
Proof.
  intros Hu. unfold db_insert, check_row.
  destruct (bind t values) as [e | bound]; [exact Hu |].
  destruct (next_id tb <=? 2147483647); [| exact Hu].
  destruct (first_null t _); [exact Hu |].
  destruct (first_duplicate t (rows tb) _) eqn:Hd; [exact Hu |].
  simpl.
  apply unique_in_insert; rewrite app_nil_r; assumption.
Qed.

Lemma update_rows_unique (t : pgTable) (n : Z) (bound : Row)
    (after before all returned : list Row) :
  update_rows t n bound before after = inr (all, returned) ->
  unique_in t (before ++ after) -> unique_in t all.
Proof.
  revert before all returned.
  induction after as [| r after IH]; intros before all returned; simpl.
  - intros H. injection H as <- _. rewrite app_nil_r. tauto.
  - destruct (has_id n r).
    + unfold check_row.
      destruct (first_null t (spread r bound)); [discriminate |].
      destruct (first_duplicate t (before ++ after) (spread r bound))
        eqn:Hd; [discriminate |].
      destruct (update_rows t n bound (before ++ [spread r bound]) after)
        as [e | [all' returned']] eqn:Hrec; [discriminate |].
      intros H Hu. injection H as <- _.
      apply (IH _ _ _ Hrec). rewrite <- app_assoc. simpl.
      apply unique_in_insert; [| exact Hd].
      exact (unique_in_remove t before after r Hu).
    + intros H Hu. apply (IH _ _ _ H).
      rewrite <- app_assoc. exact Hu.
Qed.

Lemma db_update_unique (t : pgTable) (values : Row) (id : option Z)
    (tb : Table) :
  unique_in t (rows tb) ->
  unique_in t (rows (snd (db_update t values id tb))).
Proof.
  intros Hu. unfold db_update.
  destruct (bind t values) as [e | bound]; [exact Hu |].
  destruct (bind_id id) as [e | n]; [exact Hu |].
  destruct (update_rows t n bound [] (rows tb)) as [e | [all ret]] eqn:Hr;
    [exact Hu |].
  simpl. exact (update_rows_unique _ _ _ _ _ _ _ Hr Hu).
Qed.

Lemma db_delete_unique (t : pgTable) (id : option Z) (tb : Table) :
  unique_in t (rows tb) -> unique_in t (rows (snd (db_delete id tb))).
Proof.
  intros Hu. unfold db_delete.
  destruct (bind_id id) as [e | n]; [exact Hu |].
  simpl. apply unique_in_filter. exact Hu.
Qed.

End UniqueStatements.

Section UniqueStore.

Context {E : Engine} {B : Bcrypt}.

Ltac table_step lemma :=
  match goal with
  | |- context [db_insert ?t ?n ?v ?tb] =>
      generalize (db_insert_unique t n v tb);
      destruct (db_insert t n v tb) as [? ?]
  | |- context [db_update ?t ?v ?i ?tb] =>
      generalize (db_update_unique t v i tb);
      destruct (db_update t v i tb) as [[?|?] ?]
  | |- context [db_delete ?i ?tb] =>
      generalize (lemma i tb);
      destruct (db_delete i tb) as [? ?]
  end.

Lemma create_with_unique (schema : ZodObject) (input : Json)
    (create : Row -> Store -> Result Row * Store) (view : Row -> Json)
    (bad failed : string) (session : Session) (st : Store) :
  (forall data, unique_store (snd (create data st))) ->
  unique_store st ->
  unique_store
    (snd (create_with schema input create view bad failed session st)).
Proof.
  intros Hc Hu. unfold create_with.
  destruct (parse schema input) as [i | data]; [exact Hu |].
  generalize (Hc data). destruct (create data st) as [[e | r] st0]; tauto.
Qed.

(** X19: if no two rows of a table share a value in a column declared
    [unique] or [primaryKey] (project identifier, username, every id), this
    is still so after any request on any route whose storage method is in
    [storage.ts]. *)
Theorem requests_keep_unique_columns (r : Route) (ev : Env) (req : Request)
    (session : Session) (st : Store) :
  modelled_from_spec r = false ->
  unique_store st ->
  unique_store (snd (app r ev req session st)).
Proof.
  intros Hr Hu. unfold app.
  destruct (middleware r session); [exact Hu |].
  destruct Hu as (H1 & H2 & H3 & H4 & H5 & H6 & H7).
  assert (Hu : unique_store st) by (repeat split; assumption).
  destruct r; try discriminate Hr; simpl handler.
  - unfold auth_login.
    repeat match goal with
           | |- context [if ?b then _ else _] => destruct b
           | |- context [match ?x with _ => _ end] => destruct x
           end; exact Hu.
  - exact Hu.
  - unfold auth_user. destruct session; exact Hu.
  - exact Hu.
  - unfold read_project. destruct (getProject _ _) as [e | [p |]]; exact Hu.
  - apply create_with_unique; [| exact Hu]. intros data.
    unfold createProject. table_step db_delete_unique. simpl.
    intros H. repeat split; try assumption. exact (H H2).
  - unfold update_project. destruct (parse _ _); [exact Hu |].
    unfold updateProject. table_step db_delete_unique; simpl;
      intros H; try (destruct (first _));
      repeat split; try assumption; exact (H H2).
  - unfold remove_project, deleteProject.
    table_step (db_delete_unique projects). simpl. intros H.
    destruct r; simpl; repeat split; try assumption; exact (H H2).
  - exact Hu.
  - unfold read_convention.
    destruct (getConvention _ _) as [e | [p |]]; exact Hu.
  - apply create_with_unique; [| exact Hu]. intros data.
    unfold createConvention. table_step db_delete_unique. simpl.
    intros H. repeat split; try assumption. exact (H H3).
  - unfold update_convention. destruct (parse _ _); [exact Hu |].
    unfold updateConvention. table_step db_delete_unique; simpl;
      intros H; try (destruct (first _));
      repeat split; try assumption; exact (H H3).
  - unfold remove_convention, deleteConvention.
    table_step (db_delete_unique conventions). simpl. intros H.
    destruct r; simpl; repeat split; try assumption; exact (H H3).
  - exact Hu.
  - apply create_with_unique; [| exact Hu]. intros data.
    unfold createPartner. table_step db_delete_unique. simpl.
    intros H. repeat split; try assumption. exact (H H4).
  - unfold list_project_partners.
    destruct (getProjectPartners _ _); exact Hu.
  - apply create_with_unique; [| exact Hu]. intros data.
    unfold createProjectPartner. table_step db_delete_unique. simpl.
    intros H. repeat split; try assumption. exact (H H5).
  - unfold list_convention_projects.
    destruct (getConventionProjects _ _); exact Hu.
  - apply create_with_unique; [| exact Hu]. intros data.
    unfold createConventionProject. table_step db_delete_unique. simpl.
    intros H. repeat split; try assumption. exact (H H6).
  - apply create_with_unique; [| exact Hu]. intros data.
    unfold createLocalUser.
    destruct (field "password" data) as [[| | | | pw | | | | |] |];
      try exact Hu.
    table_step db_delete_unique. simpl.
    intros H. repeat split; try assumption. exact (H H1).
  - unfold list_financial_advances.
    destruct (getFinancialAdvances _ _); exact Hu.
  - apply create_with_unique; [| exact Hu]. intros data.
    unfold createFinancialAdvance. table_step db_delete_unique. simpl.
    intros H. repeat split; try assumption. exact (H H7).
Qed.

End UniqueStore.

(** ** The projects page and the convention form *)

Lemma query_param_app (k : string) (q1 q2 : list (string * string)) :
  query_param k (q1 ++ q2) =
  match query_param k q1 with
  | Some v => Some v
  | None => query_param k q2
  end.
Proof.
  induction q1 as [| [k0 v0] q1 IH]; simpl; [reflexivity |].
  destruct (String.eqb k k0); [reflexivity | exact IH].
Qed.

Section ProjectsPageFacts.

Context {E : Engine} {B : Bcrypt}.


(** X20: when the projects page opens, with no search text and no sort
    column chosen, it asks for and gets all projects, oldest first. *)
Theorem page_opens_oldest_first (ev : Env) (b : Json) (u : Row) (st : Store) :
  includes ["admin"; "user"; "superviseur"] (field "role" u) = true ->
  exists l,
    app get_projects ev (request None (queryParams initial_page) b)
        (Some u) st
    = (json 200 (JArr (map JObj l)), Some u, st) /\
    ordered (asc "createdAt") l /\
    Permutation (rows (tb_projects st)) l.
Proof.
  intros Hrole.
  rewrite app_next by exact (canRead_next u Hrole).
  simpl handler. unfold list_projects. simpl.
  eexists. split; [reflexivity |].
  destruct (getProjects_query None None (Some "asc") st) as (c & Hq & _).
  unfold getProjects in *. simpl in *.
  split; [apply order_by_asc | apply order_by_perm].
Qed.


End ProjectsPageFacts.

(** X22: ticking a project in the convention form flips whether it is
    selected and leaves every other project as it was; a selection without
    repetition stays so. *)
Theorem handleProjectToggle_flips (x : Z) (l : list Z) :
  (In x (handleProjectToggle x l) <-> ~ In x l) /\
  (forall y, y <> x -> (In y (handleProjectToggle x l) <-> In y l)) /\
  (NoDup l -> NoDup (handleProjectToggle x l)).
Proof.
  unfold handleProjectToggle.
  destruct (existsb (Z.eqb x) l) eqn:Hex.
  - assert (Hin : In x l).
    { apply existsb_exists in Hex. destruct Hex as (y & Hy & Heq).
      apply Z.eqb_eq in Heq. subst. exact Hy. }
    split; [| split].
    + rewrite filter_In. rewrite Z.eqb_refl. simpl. split; [| tauto].
      intros [_ H]. discriminate H.
    + intros y Hy. rewrite filter_In.
      apply Z.eqb_neq in Hy. rewrite Hy. simpl. tauto.
    + apply NoDup_filter.
  - assert (Hout : ~ In x l).
    { intros Hin.
      assert (existsb (Z.eqb x) l = true).
      { apply existsb_exists. exists x. split; [exact Hin |].
        apply Z.eqb_refl. }
      congruence. }
    split; [| split].
    + split; [tauto |]. intros _. apply in_or_app. right. left. reflexivity.
    + intros y Hy. rewrite in_app_iff. simpl. split; [| tauto].
      intros [H | [H | []]]; [exact H | congruence].
    + intros Hnd. apply NoDup_app; [exact Hnd | repeat constructor; tauto |].
      intros a Ha [<- | []]. exact (Hout Ha).
Qed.

(** ** Searching by title *)






Section SearchByTitle.

Context {E : Engine}.


End SearchByTitle.

(** ** The further properties on sample data *)

Lemma post_projects_assigns_identity_witness :
  exists created,
    fst (fst after_forage) = json 201 (JObj created) /\
    col "id" created = JNum (next_id (tb_projects two_projects)) /\
    col "createdAt" created = JTime (now (env 5 "")) /\
    col "updatedAt" created = JTime (now (env 5 "")) /\
    snd after_forage
    = with_projects
        (table (rows (tb_projects two_projects) ++ [created])
               (next_id (tb_projects two_projects) + 1)) two_projects.
Proof.
  apply (@post_projects_assigns_identity stable_engine tagging_bcrypt
           (env 5 "") forage admin_session (snd (fst after_forage))
           two_projects (snd after_forage) (fst (fst after_forage))).
  - vm_compute. reflexivity.
  - reflexivity.
Defined.

Lemma post_projects_keeps_submitted_witness :
  exists created,
    fst (fst after_forage) = json 201 (JObj created) /\
    (forall k, In k project_text_columns ->
       exists s, field k (properties (body forage)) = Some (JStr s) /\
                 col k created = JStr s) /\
    (exists s h, field "budget" (properties (body forage)) = Some (JStr s) /\
                 numeric_in (Engine := stable_engine) s = Some h /\
                 col "budget" created = JDecimal h) /\
    (field "status" (properties (body forage)) = None ->
       col "status" created = JStr "active") /\
    (field "engagements" (properties (body forage)) = None ->
       col "engagements" created = JDecimal 0) /\
    (field "payments" (properties (body forage)) = None ->
       col "payments" created = JDecimal 0) /\
    (field "physicalProgress" (properties (body forage)) = None ->
       col "physicalProgress" created = JNum 0).
Proof.
  apply (@post_projects_keeps_submitted stable_engine tagging_bcrypt
           (env 5 "") forage admin_session (snd (fst after_forage))
           two_projects (snd after_forage) (fst (fst after_forage))).
  - vm_compute. reflexivity.
  - reflexivity.
Defined.

Lemma get_after_post_project_witness :
  exists created,
    fst (fst after_forage) = json 201 (JObj created) /\
    run get_project (env 6 "") (request (Some 3) [] JNull) (Some admin_row)
        (snd after_forage)
    = (json 200 (JObj created), Some admin_row, snd after_forage).
Proof.
  apply (@get_after_post_project stable_engine tagging_bcrypt
           (env 5 "") (env 6 "") forage (request (Some 3) [] JNull)
           admin_session (snd (fst after_forage)) admin_row
           two_projects (snd after_forage) (fst (fst after_forage))).
  - vm_compute. reflexivity.
  - reflexivity.
  - reflexivity.
  - reflexivity.
  - reflexivity.
Defined.

Lemma get_after_delete_project_witness :
  (forall ev' req' u,
     params_id req' = Some 1 ->
     includes ["admin"; "user"; "superviseur"] (field "role" u) = true ->
     run get_project ev' req' (Some u) (snd after_delete)
     = (message 404 "Project not found", Some u, snd after_delete)) /\
  (forall id', id' <> 1 ->
               getProject (Some id') (snd after_delete)
               = getProject (Some id') two_projects) /\
  tb_projectPartners (snd after_delete) = tb_projectPartners two_projects /\
  tb_conventionProjects (snd after_delete)
  = tb_conventionProjects two_projects /\
  tb_financialAdvances (snd after_delete) = tb_financialAdvances two_projects.
Proof.
  apply (@get_after_delete_project stable_engine tagging_bcrypt
           (env 5 "") (request (Some 1) [] JNull)
           admin_session (snd (fst after_delete))
           two_projects (snd after_delete) (fst (fst after_delete)) 1).
  - vm_compute. reflexivity.
  - reflexivity.
  - reflexivity.
Defined.

Lemma put_project_rewrites_row_witness :
  exists old,
    In old (rows (tb_projects two_projects)) /\ has_id 1 old = true /\
    col "id" retitled = col "id" old /\
    col "createdAt" retitled = col "createdAt" old /\
    col "updatedAt" retitled = JTime (now (env 5 "")) /\
    (forall k s, In k project_text_columns ->
                 field k (properties (body retitle)) = Some (JStr s) ->
                 col k retitled = JStr s) /\
    (forall k, field k (properties (body retitle)) = None ->
               k <> "updatedAt" ->
               col k retitled = col k old) /\
    List.length (rows (tb_projects (snd after_retitle)))
    = List.length (rows (tb_projects two_projects)).
Proof.
  apply (@put_project_rewrites_row stable_engine tagging_bcrypt
           (env 5 "") retitle admin_session (snd (fst after_retitle))
           two_projects (snd after_retitle) (fst (fst after_retitle))
           1 retitled).
  - vm_compute. reflexivity.
  - vm_compute. reflexivity.
  - reflexivity.
Defined.

Lemma get_after_put_project_witness :
  run get_project (env 6 "") (request (Some 1) [] JNull) (Some admin_row)
      (snd after_retitle)
  = (json 200 (JObj retitled), Some admin_row, snd after_retitle).
Proof.
  apply (@get_after_put_project stable_engine tagging_bcrypt
           (env 5 "") (env 6 "") retitle (request (Some 1) [] JNull)
           admin_session (snd (fst after_retitle)) admin_row
           two_projects (snd after_retitle) (fst (fst after_retitle))
           1 retitled).
  - vm_compute. reflexivity.
  - vm_compute. reflexivity.
  - reflexivity.
  - reflexivity.
  - reflexivity.
Defined.

Lemma error_answers_keep_rows_witness :
  contents (snd after_duplicate) = contents two_projects.
Proof.
  apply (@error_answers_keep_rows stable_engine tagging_bcrypt
           post_projects (env 5 "")
           (request None [] (project_input "P-001" "Autre" "5"))
           admin_session (snd (fst after_duplicate))
           two_projects (snd after_duplicate) (fst (fst after_duplicate))).
  - reflexivity.
  - vm_compute. reflexivity.
  - vm_compute. discriminate.
Defined.

Lemma unlisted_role_forbidden_witness :
  run delete_project (env 5 "") (request (Some 1) [] JNull)
      (Some guest_row) two_projects
  = (message 403 "Insufficient permissions", Some guest_row, two_projects).
Proof.
  apply (@unlisted_role_forbidden stable_engine tagging_bcrypt
           delete_project (env 5 "") (request (Some 1) [] JNull)
           guest_row two_projects).
  - reflexivity.
  - reflexivity.
Defined.


Lemma getProjectPartners_joins_witness :
  exists l,
    getProjectPartners (Some 1) with_two_links = inr l /\
    Permutation l
      (map (fun x => set_field "partner" (JObj (snd x)) (fst x))
           (filter (fun x => same_key (col "partnerId" (fst x))
                                      (col "id" (snd x)))
                   (list_prod
                      (where_eq "projectId" 1
                                (rows (tb_projectPartners with_two_links)))
                      (rows (tb_partners with_two_links))))
       ++ map (set_field "partner" JNull)
              (filter (fun pp =>
                         negb (existsb
                                 (fun p => same_key (col "partnerId" pp)
                                                    (col "id" p))
                                 (rows (tb_partners with_two_links))))
                      (where_eq "projectId" 1
                                (rows (tb_projectPartners with_two_links))))) /\
    (forall row, In row l <->
       exists pp, In pp (rows (tb_projectPartners with_two_links)) /\
         col "projectId" pp = JNum 1 /\
         ((forall p, In p (rows (tb_partners with_two_links)) ->
                     same_key (col "partnerId" pp) (col "id" p) = false) /\
          row = set_field "partner" JNull pp
          \/ exists p, In p (rows (tb_partners with_two_links)) /\
               same_key (col "partnerId" pp) (col "id" p) = true /\
               row = set_field "partner" (JObj p) pp)) /\
    (NoDup (key_values "id" (rows (tb_partners with_two_links))) ->
     List.length l
     = List.length (where_eq "projectId" 1
                             (rows (tb_projectPartners with_two_links)))).
Proof.
  apply (@getProjectPartners_joins 1 with_two_links).
  reflexivity.
Defined.

(** On [with_two_links] the join has two entries: the one for partner 1
    carries the Partner record, the one for partnerId 7 carries null. *)
Lemma getProjectPartners_matched_and_unmatched :
  match getProjectPartners (Some 1) with_two_links with
  | inr l =>
      map (fun row => (col "partnerId" row,
                       match col "partner" row with
                       | JObj p => col "name" p
                       | v => v
                       end)) l
  | inl _ => []
  end
  = [(JNum 1, JStr "ORMVA"); (JNum 7, JNull)].
Proof. reflexivity. Qed.

Lemma post_projects_missing_field_witness :
  exists issues,
    In (zod_issue "budget" "Required") issues /\
    run post_projects (env 5 "")
        (request None [] (JObj [("title", JStr "Forage")]))
        (Some admin_row) two_projects
    = (invalid "Invalid project data" issues, Some admin_row, two_projects).
Proof.
  apply (@post_projects_missing_field stable_engine tagging_bcrypt
           (env 5 "") (request None [] (JObj [("title", JStr "Forage")]))
           admin_row [("title", JStr "Forage")] "budget" two_projects).
  - reflexivity.
  - reflexivity.
  - left. reflexivity.
  - reflexivity.
Defined.

Lemma junction_rows_take_url_id_witness :
  exists created n,
    fst (fst after_partner_link) = json 201 (JObj created) /\
    params_id partner_request = Some n /\
    col "projectId" created = JNum n.
Proof.
  refine (proj1 (@junction_rows_take_url_id stable_engine tagging_bcrypt
                   (env 5 "") partner_request admin_session
                   (snd (fst after_partner_link)) two_projects
                   (snd after_partner_link) (fst (fst after_partner_link))
                   _) _).
  - reflexivity.
  - vm_compute. reflexivity.
Defined.


(** Credentials that are not strings: a number for the password of a user
    that does not exist is answered 401, for the password of one that exists
    500; a number for the username logs in to the account whose username is
    its decimal text. *)
Lemma login_with_numbers :
  fst (fst (run post_auth_login (env 4 "")
                (request None []
                         (JObj [("username", JStr "nobody");
                                ("password", JNum 123)]))
                None seeded))
  = message 401 "Invalid credentials" /\
  fst (fst (run post_auth_login (env 4 "")
                (request None []
                         (JObj [("username", JStr "admin");
                                ("password", JNum 123)]))
                None seeded))
  = message 500 "Failed to login" /\
  status (fst (fst after_numeric_login)) = 200 /\
  option_map (col "username") (snd (fst after_numeric_login))
  = Some (JStr "5").
Proof. repeat split; reflexivity. Qed.

Lemma post_users_duplicate_username_witness :
  exists st',
    run post_users (env 5 "")
        (request None []
                 (JObj [("username", JStr "admin"); ("password", JStr "x");
                        ("role", JStr "user")]))
        (Some admin_row) seeded
    = (message 500 "Failed to create user", Some admin_row, st') /\
    contents st' = contents seeded.
Proof.
  apply (@post_users_duplicate_username stable_engine tagging_bcrypt
           (env 5 "")
           (request None []
                    (JObj [("username", JStr "admin"); ("password", JStr "x");
                           ("role", JStr "user")]))
           admin_row
           [("username", JStr "admin"); ("password", JStr "x");
            ("role", JStr "user")]
           "admin" admin_row seeded).
  - reflexivity.
  - vm_compute. reflexivity.
  - reflexivity.
  - vm_compute. left. reflexivity.
  - reflexivity.
Defined.

Ltac distinct_keys :=
  vm_compute;
  repeat (constructor; [simpl; intuition discriminate |]);
  constructor.

Lemma two_projects_unique : unique_store two_projects.
Proof.
  repeat split; intros c Hin Hu; simpl in Hin;
    repeat (destruct Hin as [<- | Hin];
            [first [discriminate Hu | distinct_keys] |]);
    destruct Hin.
Qed.

Lemma requests_keep_unique_columns_witness :
  unique_store (snd after_forage).
Proof.
  apply (@requests_keep_unique_columns stable_engine tagging_bcrypt
           post_projects (env 5 "") forage admin_session two_projects).
  - reflexivity.
  - exact two_projects_unique.
Defined.

Lemma page_opens_oldest_first_witness :
  exists l,
    run get_projects (env 5 "")
        (request None (queryParams initial_page) JNull)
        (Some admin_row) two_projects
    = (json 200 (JArr (map JObj l)), Some admin_row, two_projects) /\
    ordered (asc "createdAt") l /\
    Permutation (rows (tb_projects two_projects)) l.
Proof.
  apply (@page_opens_oldest_first stable_engine tagging_bcrypt
           (env 5 "") JNull admin_row two_projects).
  reflexivity.
Defined.


